(** * BookLibrary: the book aggregate and its controllers

    A shallow embedding of [src/models/bookModel.js],
    [src/controllers/bookController.js], the recommendation controller
    ([getSimilarBooks]) and the query validation of
    [src/middlewares/validationMiddleware.js], followed by the properties of
    the borrow / return state machine, the review aggregation and the list
    queries.

    Conventions.
    - JavaScript numbers that hold counts, years and timestamps are integers
      ([Z]); the results of [/] are exact rationals ([Q]).  [Binary64] redoes
      the two roundings of the sources in IEEE 754 double precision, to
      check the exact model against it.
    - The collection is the list of its documents in natural order.
    - [new Date()] / [Date.now()] is the explicit argument [now]
      (milliseconds).
    - A Mongoose document is a record; instance methods take the document
      ([this]) and return the saved document or the thrown error.
    - A regular expression is a pair: whether the pattern compiles, and the
      match of a pattern that does.  The store rejects a query that holds a
      [$regex] it cannot compile, and [new RegExp] throws. *)

From Stdlib Require Import ZArith QArith Qround Bool List String Lia Lqa.
From Stdlib Require Import Sorting.Sorted Sorting.Permutation.
From Stdlib Require PrimFloat SpecFloat FloatOps Uint63.
Import ListNotations.

Local Open Scope string_scope.
Local Open Scope list_scope.
Local Open Scope Z_scope.

(** ** Results of fallible code *)

(** A JavaScript [Error] carrying its message. *)
Inductive exn : Type :=
| Error (message : string).

Inductive result (A : Type) : Type :=
| Return (a : A)
| Throw (e : exn).

Arguments Return {A} a.
Arguments Throw {A} e.

Definition bind {A B : Type} (r : result A) (k : A -> result B) : result B :=
  match r with
  | Return a => k a
  | Throw e => Throw e
  end.

Notation "x <- r ;; k" := (bind r (fun x => k))
  (at level 61, r at next level, right associativity).

(** Modelled from the spec: the class [AppError] lives in
    [middlewares/errorMiddleware], which is not among the sources; the
    controllers build it as [new AppError(message, statusCode)] and hand it
    to [next]. *)
Record AppError : Type := mkAppError {
  message : string;
  statusCode : Z
}.

(** What a controller does with a request: answer with
    [res.status(code).json({ success: true, data })], hand an [AppError] to
    [next], or let a rejection through to [catchAsync]. *)
Inductive Reply (A : Type) : Type :=
| Json (code : Z) (data : A)
| Next (err : AppError)
| Rejected (e : exn).

Arguments Json {A} code data.
Arguments Next {A} err.
Arguments Rejected {A} e.

(** ** Data model ([bookModel.js]) *)

Module bookModel.

Inductive Status : Type :=
| Available
| Borrowed
| Reserved
| Maintenance.

Definition Status_eqb (s t : Status) : bool :=
  match s, t with
  | Available, Available | Borrowed, Borrowed
  | Reserved, Reserved | Maintenance, Maintenance => true
  | _, _ => false
  end.

(** An entry of [availability.borrowedBy]. *)
Record Borrow : Type := mkBorrow {
  name : string;
  email : string;
  borrowDate : Z;
  dueDate : Z
}.

Record Availability : Type := mkAvailability {
  status : Status;
  totalCopies : Z;
  availableCopies : Z;
  borrowedBy : list Borrow
}.

Record Review : Type := mkReview {
  rating : Z;
  comment : option string;
  reviewerName : string;
  reviewDate : Z
}.

Record Book : Type := mkBook {
  _id : string;
  title : string;
  author : string;
  genre : string;
  publicationYear : option Z;
  description : option string;
  coverImage : option string;
  availability : Availability;
  reviews : list Review;
  averageRating : Q;
  totalReviews : Z;
  tags : list string;
  createdAt : Z;
  updatedAt : Z
}.

(** Field assignments. *)

Definition set_status (s : Status) (a : Availability) : Availability :=
  mkAvailability s (totalCopies a) (availableCopies a) (borrowedBy a).

Definition set_availableCopies (n : Z) (a : Availability) : Availability :=
  mkAvailability (status a) (totalCopies a) n (borrowedBy a).

Definition set_borrowedBy (l : list Borrow) (a : Availability) : Availability :=
  mkAvailability (status a) (totalCopies a) (availableCopies a) l.

Definition set_availability (a : Availability) (b : Book) : Book :=
  mkBook (_id b) (title b) (author b) (genre b) (publicationYear b)
         (description b) (coverImage b) a (reviews b) (averageRating b)
         (totalReviews b) (tags b) (createdAt b) (updatedAt b).

Definition set_reviews (l : list Review) (b : Book) : Book :=
  mkBook (_id b) (title b) (author b) (genre b) (publicationYear b)
         (description b) (coverImage b) (availability b) l (averageRating b)
         (totalReviews b) (tags b) (createdAt b) (updatedAt b).

Definition set_rating (avg : Q) (n : Z) (b : Book) : Book :=
  mkBook (_id b) (title b) (author b) (genre b) (publicationYear b)
         (description b) (coverImage b) (availability b) (reviews b) avg
         n (tags b) (createdAt b) (updatedAt b).

Definition set_updatedAt (t : Z) (b : Book) : Book :=
  mkBook (_id b) (title b) (author b) (genre b) (publicationYear b)
         (description b) (coverImage b) (availability b) (reviews b)
         (averageRating b) (totalReviews b) (tags b) (createdAt b) t.

(** ** The pre-save hook and [save] *)

(** [Math.round]: the nearest integer, ties towards plus infinity. *)
Definition Math_round (x : Q) : Z := Qfloor (x + (1 # 2)).

(** [Math.ceil] *)
Definition Math_ceil (x : Q) : Z := Qceiling x.

(** [this.reviews.reduce((sum, review) => sum + review.rating, 0)] *)
Definition totalRating (l : list Review) : Z :=
  fold_left (fun sum review => sum + rating review) l 0.

Definition Zlength_ {A : Type} (l : list A) : Z := Z.of_nat (List.length l).

(** [bookSchema.pre('save', ...)] *)
Definition pre_save (this : Book) : Book :=
  let this1 :=
    match reviews this with
    | _ :: _ =>
        let avg :=
          (inject_Z (Math_round
             ((inject_Z (totalRating (reviews this))
               / inject_Z (Zlength_ (reviews this))) * inject_Z 10))
           / inject_Z 10)%Q in
        set_rating avg (Zlength_ (reviews this)) this
    | [] => set_rating (inject_Z 0) 0 this
    end in
  if totalCopies (availability this1) <? availableCopies (availability this1)
  then set_availability
         (set_availableCopies (totalCopies (availability this1))
                              (availability this1)) this1
  else this1.

(** [this.save()]: the hook runs, the [timestamps] option stamps [updatedAt],
    and the document is what the store then holds.  Mongoose first checks the
    schema validators ([min: 0] on both copy counts); documents are taken to
    satisfy them, which is stated as a hypothesis where it matters. *)
Definition save (now : Z) (this : Book) : Book :=
  set_updatedAt now (pre_save this).

(** ** Instance methods *)

(** [bookSchema.methods.addReview] *)
Definition addReview (now : Z) (reviewData : Review) (this : Book) : Book :=
  save now (set_reviews (reviews this ++ [reviewData]) this).

(** The body of a borrow request. *)
Record BorrowerInfo : Type := mkBorrowerInfo {
  req_name : string;
  req_email : string;
  req_dueDate : option Z
}.

(** [bookSchema.methods.borrowBook] *)
Definition borrowBook (now : Z) (borrowerInfo : BorrowerInfo) (this : Book)
  : result Book :=
  let a := availability this in
  if availableCopies a <=? 0 then
    Throw (Error "No copies available for borrowing")
  else
    let entry :=
      mkBorrow (req_name borrowerInfo) (req_email borrowerInfo) now
        (match req_dueDate borrowerInfo with
         | Some d => d
         | None => now + 14 * 24 * 60 * 60 * 1000
         end) in
    let a1 := set_borrowedBy (borrowedBy a ++ [entry]) a in
    let a2 := set_availableCopies (availableCopies a1 - 1) a1 in
    let a3 := if availableCopies a2 =? 0 then set_status Borrowed a2 else a2 in
    Return (save now (set_availability a3 this)).

(** [Array.prototype.findIndex]; [None] stands for [-1]. *)
Fixpoint findIndex {A : Type} (p : A -> bool) (l : list A) : option nat :=
  match l with
  | [] => None
  | x :: l' =>
      if p x then Some O
      else match findIndex p l' with
           | Some i => Some (S i)
           | None => None
           end
  end.

(** [l.splice(i, 1)] (the list that remains) *)
Fixpoint splice1 {A : Type} (i : nat) (l : list A) : list A :=
  match l, i with
  | [], _ => []
  | _ :: l', O => l'
  | x :: l', S i' => x :: splice1 i' l'
  end.

(** [bookSchema.methods.returnBook] *)
Definition returnBook (now : Z) (borrowerEmail : string) (this : Book)
  : result Book :=
  let a := availability this in
  match findIndex (fun borrow => String.eqb (email borrow) borrowerEmail) (borrowedBy a) with
  | None => Throw (Error "No borrow record found for this email")
  | Some borrowIndex =>
      let a1 := set_borrowedBy (splice1 borrowIndex (borrowedBy a)) a in
      let a2 := set_availableCopies (availableCopies a1 + 1) a1 in
      let a3 := if 0 <? availableCopies a2 then set_status Available a2 else a2 in
      Return (save now (set_availability a3 this))
  end.

(** [Book.create]: schema defaults, then [save].  The request validation
    supplies the [availability] counts (defaults [Available], 1, 1). *)
Definition create (now : Z) (id title author genre : string)
    (total available : Z) : Book :=
  save now
    (mkBook id title author genre None None None
       (mkAvailability Available total available [])
       [] (inject_Z 0) 0 [] now now).

End bookModel.
Import bookModel.

(** ** The collection and its cursors *)

Definition Collection : Type := list Book.

(** [Book.findById(id)] *)
Definition findById (id : string) (db : Collection) : option Book :=
  List.find (fun d => String.eqb (_id d) id) db.

(** What the store holds once [doc.save()] has resolved. *)
Definition persist (doc : Book) (db : Collection) : Collection :=
  List.map (fun d => if String.eqb (_id d) (_id doc) then doc else d) db.

(** The driver's own failure (no message of the sources is involved). *)
Definition MongoError : exn := Error "MongoServerError".

(** What [new RegExp(pattern, flags)] throws when it cannot compile the
    pattern. *)
Definition SyntaxError : exn := Error "SyntaxError".

(** [.skip(n)]: the store refuses a negative count. *)
Definition cursor_skip {A : Type} (n : Z) (l : list A) : result (list A) :=
  if n <? 0 then Throw MongoError else Return (skipn (Z.to_nat n) l).

(** [.limit(n)]: 0 means no limit, a negative count is taken by magnitude. *)
Definition cursor_limit {A : Type} (n : Z) (l : list A) : list A :=
  if n =? 0 then l else firstn (Z.to_nat (Z.abs n)) l.

(** Sorting: a stable insertion sort along a three-way comparison; the store
    leaves the order of ties open, the model keeps them in input order. *)
Section Sort.
Context {A : Type} (cmp : A -> A -> comparison).

Definition leb_of (x y : A) : bool :=
  match cmp x y with Gt => false | _ => true end.

Fixpoint insert_sorted (x : A) (l : list A) : list A :=
  match l with
  | [] => [x]
  | y :: l' => if leb_of y x then y :: insert_sorted x l' else x :: y :: l'
  end.

Definition sort_by (l : list A) : list A :=
  fold_left (fun acc x => insert_sorted x acc) l [].
End Sort.

(** BSON values of the fields a sort can name, with the BSON order
    null < numbers < strings. *)
Inductive Value : Type :=
| VNull
| VNum (q : Q)
| VStr (s : string).

Definition Value_compare (v w : Value) : comparison :=
  match v, w with
  | VNull, VNull => Eq
  | VNull, _ => Lt
  | _, VNull => Gt
  | VNum p, VNum q => (p ?= q)%Q
  | VNum _, VStr _ => Lt
  | VStr _, VNum _ => Gt
  | VStr s, VStr t => String.compare s t
  end.

Definition status_name (s : Status) : string :=
  match s with
  | Available => "Available"
  | Borrowed => "Borrowed"
  | Reserved => "Reserved"
  | Maintenance => "Maintenance"
  end.

Definition of_option {A : Type} (f : A -> Value) (o : option A) : Value :=
  match o with Some a => f a | None => VNull end.

(** The value of a document at a path; paths outside the record are absent. *)
Definition field (path : string) (b : Book) : Value :=
  if String.eqb path "_id" then VStr (_id b)
  else if String.eqb path "title" then VStr (title b)
  else if String.eqb path "author" then VStr (author b)
  else if String.eqb path "genre" then VStr (genre b)
  else if String.eqb path "publicationYear"
       then of_option (fun y => VNum (inject_Z y)) (publicationYear b)
  else if String.eqb path "description" then of_option VStr (description b)
  else if String.eqb path "coverImage" then of_option VStr (coverImage b)
  else if String.eqb path "availability.status"
       then VStr (status_name (status (availability b)))
  else if String.eqb path "availability.totalCopies"
       then VNum (inject_Z (totalCopies (availability b)))
  else if String.eqb path "availability.availableCopies"
       then VNum (inject_Z (availableCopies (availability b)))
  else if String.eqb path "averageRating" then VNum (averageRating b)
  else if String.eqb path "totalReviews" then VNum (inject_Z (totalReviews b))
  else if String.eqb path "createdAt" then VNum (inject_Z (createdAt b))
  else if String.eqb path "updatedAt" then VNum (inject_Z (updatedAt b))
  else VNull.

(** A sort document: paths with direction 1 or -1, most significant first. *)
Definition SortSpec : Type := list (string * Z).

Fixpoint compare_by (spec : SortSpec) (a b : Book) : comparison :=
  match spec with
  | [] => Eq
  | (path, dir) :: spec' =>
      let c := Value_compare (field path a) (field path b) in
      match (if dir <? 0 then CompOpp c else c) with
      | Eq => compare_by spec' a b
      | c' => c'
      end
  end.

(** [.sort(spec)] *)
Definition cursor_sort (spec : SortSpec) (l : list Book) : list Book :=
  sort_by (compare_by spec) l.

(** [Book.find(filter)] and [Book.countDocuments(filter)] *)
Definition find (filter : Book -> bool) (db : Collection) : list Book :=
  List.filter filter db.

Definition countDocuments (filter : Book -> bool) (db : Collection) : Z :=
  Zlength_ (List.filter filter db).

(** ** Request queries and their validation ([validationMiddleware.js]) *)

(** The query string of a list request.  Numeric parameters are carried as
    the number they denote; [None] is an absent parameter. *)
Record Query : Type := mkQuery {
  q_search : option string;
  q_genre : option string;
  q_availability : option string;
  q_author : option string;
  q_yearFrom : option Z;
  q_yearTo : option Z;
  q_minRating : option Q;
  q_sortBy : option string;
  q_sortOrder : option string;
  q_page : option Z;
  q_limit : option Z;
  q_query : option string;
  q_minYear : option Z;
  q_maxYear : option Z
}.

Definition emptyQuery : Query :=
  mkQuery None None None None None None None None None None None None None None.

(** JavaScript truthiness of a string parameter. *)
Definition truthy (o : option string) : bool :=
  match o with
  | Some s => negb (String.eqb s "")
  | None => false
  end.

(** [parseInt(x) || d] *)
Definition parseInt_or (o : option Z) (d : Z) : Z :=
  match o with
  | Some n => if n =? 0 then d else n
  | None => d
  end.

Module validationMiddleware.

Definition is_space (c : Ascii.ascii) : bool :=
  let n := Ascii.nat_of_ascii c in
  (Nat.eqb n 32 || (Nat.leb 9 n && Nat.leb n 13))%bool.

Fixpoint trim_left (s : string) : string :=
  match s with
  | String c s' => if is_space c then trim_left s' else s
  | EmptyString => EmptyString
  end.

Fixpoint trim_right (s : string) : string :=
  match s with
  | String c s' =>
      match trim_right s' with
      | EmptyString => if is_space c then EmptyString else String c EmptyString
      | t => String c t
      end
  | EmptyString => EmptyString
  end.

(** [Joi.string().trim()] *)
Definition trim (s : string) : string := trim_right (trim_left s).

Definition one_of (l : list string) (s : string) : bool :=
  existsb (String.eqb s) l.

Definition check {A : Type} (key : string) (ok : A -> bool) (o : option A)
  : list string :=
  match o with
  | Some a => if ok a then [] else [key]
  | None => []
  end.

Definition default {A : Type} (d : A) (o : option A) : option A :=
  match o with
  | Some a => Some a
  | None => Some d
  end.

(** [searchSchema.validate(query, { allowUnknown: true, stripUnknown: true })]:
    the keys with an error, or the converted value.  The keys the schema
    does not list ([search], [yearFrom], [yearTo]) are stripped, and the
    defaults of [sortBy], [sortOrder], [page] and [limit] are filled in. *)
Definition searchSchema (currentYear : Z) (q : Query) : list string + Query :=
  let query := option_map trim (q_query q) in
  let author := option_map trim (q_author q) in
  let errors :=
    check "query" (fun s => negb (String.eqb s "")
                            && (Z.of_nat (String.length s) <=? 200))%bool query
    ++ check "genre" (fun s => negb (String.eqb s "")) (q_genre q)
    ++ check "author" (fun s => negb (String.eqb s "")
                                && (Z.of_nat (String.length s) <=? 100))%bool author
    ++ check "minYear" (fun y => 1000 <=? y) (q_minYear q)
    ++ check "maxYear" (fun y => (1000 <=? y) && (y <=? currentYear))%bool
             (q_maxYear q)
    ++ check "minRating" (fun r => Qle_bool (inject_Z 0) r
                                   && Qle_bool r (inject_Z 5))%bool
             (q_minRating q)
    ++ check "availability"
             (one_of ["Available"; "Borrowed"; "Reserved"; "Maintenance"])
             (q_availability q)
    ++ check "sortBy"
             (one_of ["title"; "author"; "publicationYear"; "averageRating";
                      "createdAt"])
             (q_sortBy q)
    ++ check "sortOrder" (one_of ["asc"; "desc"]) (q_sortOrder q)
    ++ check "page" (fun n => 1 <=? n) (q_page q)
    ++ check "limit" (fun n => (1 <=? n) && (n <=? 100))%bool (q_limit q) in
  match errors with
  | [] =>
      inr (mkQuery None (q_genre q) (q_availability q) author None None
             (q_minRating q)
             (default "title" (q_sortBy q))
             (default "asc" (q_sortOrder q))
             (default 1 (q_page q))
             (default 10 (q_limit q))
             query (q_minYear q) (q_maxYear q))
  | _ => inl errors
  end.

(** [validateQuery(schema)]: a 400 answer listing the fields, or the
    request with [req.query] replaced by the validated value. *)
Definition validateQuery (schema : Query -> list string + Query) (q : Query)
  : list string + Query :=
  schema q.

End validationMiddleware.

(** ** Controllers ([bookController.js]) *)

Record Pagination : Type := mkPagination {
  currentPage : Z;
  totalPages : Z;
  totalBooks : Z;
  hasNextPage : bool;
  hasPrevPage : bool;
  limit : Z
}.

Record Filters : Type := mkFilters {
  f_search : option string;
  f_genre : option string;
  f_availability : option string;
  f_sortBy : string;
  f_sortOrder : string
}.

Record BookList : Type := mkBookList {
  books : list Book;
  pagination : Pagination;
  filters : Filters
}.

Record GenreList : Type := mkGenreList {
  g_books : list Book;
  g_genre : string;
  g_pagination : Pagination
}.

(** A row of [genreDistribution]: [{ _id, count, averageRating }]. *)
Record GenreStat : Type := mkGenreStat {
  gs_id : string;
  gs_count : Z;
  gs_averageRating : Q
}.

(** A row of [recentPublications]: [{ _id, count }]. *)
Record YearStat : Type := mkYearStat {
  ys_id : Z;
  ys_count : Z
}.

(** The keys of a list in order of first occurrence. *)
Definition distinct {K : Type} (eqb : K -> K -> bool) (l : list K) : list K :=
  fold_left (fun seen k => if existsb (eqb k) seen then seen else seen ++ [k])
            l [].

(** [$group]: one row per distinct key, built from the documents that carry
    the key. *)
Definition group {K R : Type} (eqb : K -> K -> bool) (key : Book -> K)
    (row : K -> list Book -> R) (docs : list Book) : list R :=
  List.map (fun k => row k (List.filter (fun d => eqb (key d) k) docs))
           (distinct eqb (List.map key docs)).

(** [{ $sum: 1 }] and [{ $avg: '$averageRating' }] *)
Definition sum1 (docs : list Book) : Z := Zlength_ docs.

Definition avg_rating (docs : list Book) : Q :=
  (fold_left (fun acc d => acc + averageRating d) docs (inject_Z 0)
   / inject_Z (Zlength_ docs))%Q.

Definition default_to {A : Type} (o : option A) (d : A) : A :=
  match o with Some a => a | None => d end.

Module bookController.

Section ListQueries.
(** [regex_ok pattern]: the store compiles [pattern] as a regular
    expression; it rejects a query that holds a [$regex] it cannot compile,
    whatever the documents are.  [regex_i pattern s]: the store's
    case-insensitive [$regex] match of a pattern that compiles. *)
Variable regex_ok : string -> bool.
Variable regex_i : string -> string -> bool.

Definition matches_opt (pattern : string) (o : option string) : bool :=
  match o with Some s => regex_i pattern s | None => false end.

(** The filter object of [getAllBooks], as the predicate it denotes. *)
Definition build_filter (q : Query) (d : Book) : bool :=
  ((if truthy (q_search q)
    then let s := default_to (q_search q) "" in
         regex_i s (title d) || regex_i s (author d)
         || matches_opt s (description d)
    else true)
   && (if truthy (q_genre q)
          && negb (String.eqb (default_to (q_genre q) "") "All")
       then String.eqb (genre d) (default_to (q_genre q) "")
       else true)
   && (if truthy (q_availability q)
       then String.eqb (status_name (status (availability d)))
                       (default_to (q_availability q) "")
       else true)
   && (if truthy (q_author q)
       then regex_i (default_to (q_author q) "") (author d)
       else true)
   && (match q_yearFrom q, q_yearTo q with
       | None, None => true
       | from, to =>
           match publicationYear d with
           | Some y =>
               (match from with Some lo => lo <=? y | None => true end)
               && (match to with Some hi => y <=? hi | None => true end)
           | None => false
           end
       end)
   && (match q_minRating q with
       | Some r => if Qeq_bool r (inject_Z 0) then true
                   else Qle_bool r (averageRating d)
       | None => true
       end))%bool.

(** The patterns that the filter object of [getAllBooks] hands to
    [$regex]: [search] and [author], as the request gives them. *)
Definition filter_patterns (q : Query) : list string :=
  (if truthy (q_search q) then [default_to (q_search q) ""] else [])
  ++ (if truthy (q_author q) then [default_to (q_author q) ""] else []).

(** The sort object of [getAllBooks]. *)
Definition build_sort (q : Query) : SortSpec :=
  if truthy (q_sortBy q) then
    let sortOrder :=
      match q_sortOrder q with
      | Some o => if String.eqb o "desc" then -1 else 1
      | None => 1
      end in
    [(default_to (q_sortBy q) "", sortOrder)]
  else [("createdAt", -1)].

Definition getAllBooks (q : Query) (db : Collection) : Reply BookList :=
  let page := parseInt_or (q_page q) 1 in
  let limit := parseInt_or (q_limit q) 10 in
  let skip := (page - 1) * limit in
  let filter := build_filter q in
  let sort := build_sort q in
  if forallb regex_ok (filter_patterns q) then
    match cursor_skip skip (cursor_sort sort (find filter db)) with
    | Throw e => Rejected e
    | Return rest =>
        let books := cursor_limit limit rest in
        let totalBooks := countDocuments filter db in
        let totalPages :=
          Math_ceil (inject_Z totalBooks / inject_Z limit) in
        Json 200
          (mkBookList books
             (mkPagination page totalPages totalBooks
                (page <? totalPages) (1 <? page) limit)
             (mkFilters (q_search q) (q_genre q) (q_availability q)
                (if truthy (q_sortBy q) then default_to (q_sortBy q) ""
                 else "createdAt")
                (if truthy (q_sortOrder q) then default_to (q_sortOrder q) ""
                 else "desc")))
    end
  else Rejected MongoError.

(** [router.route('/').get(validateQuery(schemas.search), getAllBooks)] *)
Definition GET_books (currentYear : Z) (q : Query) (db : Collection)
  : list string + Reply BookList :=
  match validationMiddleware.validateQuery
          (validationMiddleware.searchSchema currentYear) q with
  | inl errors => inl errors
  | inr q' => inr (getAllBooks q' db)
  end.
End ListQueries.

(** The duplicate-review test of [addReview] needs [req.user], which no
    route sets (the authentication middleware is not mounted), so it is
    never taken. *)
Definition addReview (now : Z) (id : string) (body : Review) (db : Collection)
  : Reply Book * Collection :=
  match findById id db with
  | None => (Next (mkAppError "Book not found" 404), db)
  | Some book =>
      let book' := bookModel.addReview now body book in
      (Json 201 book', persist book' db)
  end.

Definition borrowBook (now : Z) (id : string) (body : BorrowerInfo)
    (db : Collection) : Reply Book * Collection :=
  match findById id db with
  | None => (Next (mkAppError "Book not found" 404), db)
  | Some book =>
      if availableCopies (availability book) <=? 0 then
        (Next (mkAppError "No copies available for borrowing" 400), db)
      else
        match List.find (fun borrow => String.eqb (email borrow) (req_email body))
                        (borrowedBy (availability book)) with
        | Some existingBorrow =>
            (Next (mkAppError "You have already borrowed this book" 400), db)
        | None =>
            match bookModel.borrowBook now body book with
            | Return book' => (Json 200 book', persist book' db)
            | Throw e => (Rejected e, db)
            end
        end
  end.

Definition returnBook (now : Z) (id : string) (email : string)
    (db : Collection) : Reply Book * Collection :=
  match findById id db with
  | None => (Next (mkAppError "Book not found" 404), db)
  | Some book =>
      match bookModel.returnBook now email book with
      | Return book' => (Json 200 book', persist book' db)
      | Throw (Error message) => (Next (mkAppError message 400), db)
      end
  end.

(** The two breakdowns of [getBookStats], [genreDistribution] and
    [recentPublications]. *)
Definition genreStats (db : Collection) : list GenreStat :=
  sort_by (fun r s => CompOpp (gs_count r ?= gs_count s))
    (group String.eqb genre
       (fun k docs => mkGenreStat k (sum1 docs) (avg_rating docs)) db).

Definition yearStats (db : Collection) : list YearStat :=
  cursor_limit 10
    (sort_by (fun r s => CompOpp (ys_id r ?= ys_id s))
       (group Z.eqb (fun d => default_to (publicationYear d) 0)
          (fun k docs => mkYearStat k (sum1 docs))
          (List.filter (fun d => match publicationYear d with
                                 | Some _ => true
                                 | None => false
                                 end) db))).

Definition getBooksByGenre (genre_ : string) (q : Query) (db : Collection)
  : Reply GenreList :=
  let page := parseInt_or (q_page q) 1 in
  let limit := parseInt_or (q_limit q) 10 in
  let skip := (page - 1) * limit in
  let filter := fun d => String.eqb (genre d) genre_ in
  match cursor_skip skip
          (cursor_sort [("averageRating", -1); ("createdAt", -1)]
                       (find filter db)) with
  | Throw e => Rejected e
  | Return rest =>
      let books := cursor_limit limit rest in
      let totalBooks := countDocuments filter db in
      match books with
      | [] => Next (mkAppError ("No books found in " ++ genre_ ++ " genre")%string 404)
      | _ =>
          Json 200
            (mkGenreList books genre_
               (mkPagination page
                  (Math_ceil (inject_Z totalBooks / inject_Z limit))
                  totalBooks
                  (page <? Math_ceil (inject_Z totalBooks / inject_Z limit))
                  (1 <? page) limit))
      end
  end.

End bookController.

(** ** The recommendation controller ([getSimilarBooks])

    The controller is the one of [unnamed/part_000], whose filter has the
    [tags] alternative and whose limit comes from the request. *)

(** [.select('title author genre averageRating totalReviews description
    coverImage tags')]; the projection keeps [_id]. *)
Record SimilarBook : Type := mkSimilarBook {
  sb_id : string;
  sb_title : string;
  sb_author : string;
  sb_genre : string;
  sb_averageRating : Q;
  sb_totalReviews : Z;
  sb_description : option string;
  sb_coverImage : option string;
  sb_tags : list string
}.

Definition select_similar (d : Book) : SimilarBook :=
  mkSimilarBook (_id d) (title d) (author d) (genre d) (averageRating d)
    (totalReviews d) (description d) (coverImage d) (tags d).

Record ReferenceBook : Type := mkReferenceBook {
  rb_id : string;
  rb_title : string;
  rb_author : string;
  rb_genre : string
}.

Record Similar : Type := mkSimilar {
  referenceBook : ReferenceBook;
  similarBooks : list SimilarBook;
  count : Z
}.

Module aiController.

(** The [$and] / [$or] filter of [getSimilarBooks]. *)
Definition similar_filter (id : string) (referenceBook : Book) (d : Book)
  : bool :=
  (negb (String.eqb (_id d) id)
   && (String.eqb (genre d) (genre referenceBook)
       || String.eqb (author d) (author referenceBook)
       || existsb (fun t => existsb (String.eqb t) (tags referenceBook))
                  (tags d)))%bool.

Definition getSimilarBooks (id : string) (q_limit : option Z) (db : Collection)
  : Reply Similar :=
  let limit := parseInt_or q_limit 5 in
  match findById id db with
  | None => Next (mkAppError "Reference book not found" 404)
  | Some referenceBook =>
      let similarBooks :=
        List.map select_similar
          (cursor_limit limit
             (cursor_sort [("averageRating", -1)]
                (find (similar_filter id referenceBook) db))) in
      Json 200
        (mkSimilar
           (mkReferenceBook (_id referenceBook) (title referenceBook)
              (author referenceBook) (genre referenceBook))
           similarBooks (Zlength_ similarBooks))
  end.

End aiController.

(** ** Sequences of borrow and return operations on one document *)

Inductive Op : Type :=
| OpBorrow (now : Z) (borrowerInfo : BorrowerInfo)
| OpReturn (now : Z) (borrowerEmail : string).

Definition step (op : Op) (b : Book) : result Book :=
  match op with
  | OpBorrow now info => borrowBook now info b
  | OpReturn now e => returnBook now e b
  end.

(** Every operation of the sequence succeeds, or the run throws. *)
Fixpoint run (ops : list Op) (b : Book) : result Book :=
  match ops with
  | [] => Return b
  | op :: ops' => b' <- step op b ;; run ops' b'
  end.

Definition is_borrow (op : Op) : bool :=
  match op with OpBorrow _ _ => true | OpReturn _ _ => false end.

(** N and M of a sequence. *)
Definition borrows (ops : list Op) : Z := Zlength_ (List.filter is_borrow ops).
Definition returns (ops : list Op) : Z :=
  Zlength_ (List.filter (fun op => negb (is_borrow op)) ops).

Definition clamp (lo hi x : Z) : Z := Z.max lo (Z.min hi x).

Definition copies (b : Book) : Z := availableCopies (availability b).
Definition total (b : Book) : Z := totalCopies (availability b).
Definition ledger (b : Book) : list Borrow := borrowedBy (availability b).

(** Every ledger entry stands for a copy that is out. *)
Definition accounted (b : Book) : Prop :=
  0 <= copies b /\ copies b + Zlength_ (ledger b) <= total b.

(** The books of a genre and of a publication year. *)
Definition books_of_genre (g : string) (db : Collection) : list Book :=
  List.filter (fun d => String.eqb (genre d) g) db.

Definition books_of_year (y : Z) (db : Collection) : list Book :=
  List.filter (fun d => match publicationYear d with
                        | Some y' => y' =? y
                        | None => false
                        end) db.

(** ** Pagination metadata, as the specification words it *)

(** [r] reports [n] matching books in pages of [limit]: [totalPages] is the
    ceiling of [n / limit], the flags compare the page with it, and the page
    holds the books that follow the first [(page - 1) * limit] matches. *)
Definition paginates {B : Type} (n : Z) (p : Pagination) (page_books : list B)
  : Prop :=
  let page := currentPage p in
  let lim := limit p in
  totalBooks p = n
  /\ totalPages p = Qceiling (inject_Z n / inject_Z lim)
  /\ (inject_Z n / inject_Z lim <= inject_Z (totalPages p))%Q
  /\ (totalPages p - 1) * lim < n <= totalPages p * lim
  /\ hasNextPage p = (page <? totalPages p)
  /\ (hasNextPage p = true <-> page * lim < n)
  /\ hasPrevPage p = (1 <? page)
  /\ Zlength_ page_books = Z.min lim (Z.max 0 (n - (page - 1) * lim)).

(** ** Review aggregation, as the specification words it *)

(** The mean of the ratings. *)
Fixpoint sum_ratings (l : list Review) : Z :=
  match l with
  | [] => 0
  | r :: l' => rating r + sum_ratings l'
  end.

Definition mean (l : list Review) : Q :=
  Qdiv (inject_Z (sum_ratings l)) (inject_Z (Zlength_ l)).

(** [r] is [x] rounded to one decimal (halves upwards). *)
Definition rounded1 (x r : Q) : Prop :=
  (exists k : Z, r == inject_Z k / inject_Z 10)%Q
  /\ (x - (1 # 20) < r)%Q /\ (r <= x + (1 # 20))%Q.

Definition rating_invariant (b : Book) : Prop :=
  match reviews b with
  | [] => (averageRating b == 0)%Q
  | _ :: _ => rounded1 (mean (reviews b)) (averageRating b)
  end
  /\ totalReviews b = Zlength_ (reviews b).

(** A sequence of review additions, each with the time it is made. *)
Definition addReviews (l : list (Z * Review)) (b : Book) : Book :=
  fold_left (fun acc r => addReview (fst r) (snd r) acc) l b.

(** The ledger entry a borrow pushes. *)
Definition new_entry (now : Z) (info : BorrowerInfo) : Borrow :=
  mkBorrow (req_name info) (req_email info) now
    (match req_dueDate info with
     | Some d => d
     | None => now + 14 * 24 * 60 * 60 * 1000
     end).

(** ** The roundings in double precision *)

Module Binary64.

Definition of_Z (z : Z) : PrimFloat.float :=
  PrimFloat.of_uint63 (Uint63.of_Z z).

(** A finite double is [m * 2 ^ e] for integers [m] and [e]. *)
Definition decode (x : PrimFloat.float) : option (Z * Z) :=
  match FloatOps.Prim2SF x with
  | SpecFloat.S754_zero _ => Some (0, 0)
  | SpecFloat.S754_finite s m e => Some (if s then Z.neg m else Z.pos m, e)
  | _ => None
  end.

(** [Math.round] of a double: the nearest integer, ties upwards. *)
Definition Math_round (x : PrimFloat.float) : option Z :=
  match decode x with
  | Some (m, e) =>
      Some (if 0 <=? e then m * 2 ^ e
            else (2 * m + 2 ^ (- e)) / 2 ^ (1 - e))
  | None => None
  end.

(** [Math.ceil] of a double. *)
Definition Math_ceil (x : PrimFloat.float) : option Z :=
  match decode x with
  | Some (m, e) =>
      Some (if 0 <=? e then m * 2 ^ e else - ((- m) / 2 ^ (- e)))
  | None => None
  end.

(** [Math.round((totalRating / length) * 10)] *)
Definition rating_tenths (totalRating length : Z) : option Z :=
  Math_round (PrimFloat.mul (PrimFloat.div (of_Z totalRating) (of_Z length))
                            (of_Z 10)).

(** [Math.ceil(totalBooks / limit)] *)
Definition pages (totalBooks limit : Z) : option Z :=
  Math_ceil (PrimFloat.div (of_Z totalBooks) (of_Z limit)).

End Binary64.

(** The integers from [lo] to [hi]. *)
Definition Zrange (lo hi : Z) : list Z :=
  List.map (fun i => lo + Z.of_nat i) (seq 0 (Z.to_nat (hi - lo + 1))).

(** The exact model and the double-precision computation agree on the
    tenths of the mean of [length] ratings between 1 and 5 that sum to
    [totalRating]. *)
Definition rating_agrees (length totalRating : Z) : bool :=
  match Binary64.rating_tenths totalRating length with
  | Some k =>
      k =? Math_round ((inject_Z totalRating / inject_Z length) * inject_Z 10)
  | None => false
  end.

Definition pages_agree (limit totalBooks : Z) : bool :=
  match Binary64.pages totalBooks limit with
  | Some k => k =? Math_ceil (inject_Z totalBooks / inject_Z limit)
  | None => false
  end.

(** ** Concrete documents used by the examples *)

Definition alice : BorrowerInfo := mkBorrowerInfo "Alice" "a@x.com" None.
Definition bob : BorrowerInfo := mkBorrowerInfo "Bob" "b@x.com" None.
Definition carol : BorrowerInfo := mkBorrowerInfo "Carol" "c@x.com" None.

(** A created book with two copies. *)
Definition book2 : Book := create 1000 "b1" "Dune" "Frank Herbert" "Sci-Fi" 2 2.

(** One copy in total, five marked available: what
    [PUT /api/books/:id] with [availability: {totalCopies: 1,
    availableCopies: 5}] leaves in the store ([findByIdAndUpdate] runs no
    save hook). *)
Definition book_over : Book :=
  set_availability (mkAvailability Available 1 5 []) book2.

(** One copy, on the shelf, and a ledger entry nevertheless. *)
Definition book_stale : Book :=
  set_availability
    (mkAvailability Available 1 1 [mkBorrow "Alice" "a@x.com" 0 10]) book2.

(** Two copies, one of them lent to Alice. *)
Definition book_lent : Book :=
  set_availability
    (mkAvailability Available 2 1 [mkBorrow "Alice" "a@x.com" 0 10]) book2.

Definition book_reserved : Book :=
  set_availability (mkAvailability Reserved 1 1 []) book2.

Definition book_maintenance : Book :=
  set_availability
    (mkAvailability Maintenance 1 0 [mkBorrow "Alice" "a@x.com" 0 10]) book2.

Definition five_stars : Review := mkReview 5 (Some "Superb") "Ann" 2000.
Definition three_stars : Review := mkReview 3 None "Ben" 3000.

(** A collection of [n] created books, the [i]-th created at time [i] with
    a one-letter id and title. *)
Definition letter (i : nat) : string :=
  String (Ascii.ascii_of_nat (65 + i)) EmptyString.

Definition shelf (n : nat) : Collection :=
  List.map (fun i => create (Z.of_nat i) (letter i) (letter i) "Ann" "Fiction" 1 1)
           (seq 0 n).

Definition no_regex (pattern s : string) : bool := false.

(** An engine that compiles every pattern but the unclosed group "(". *)
Definition compiles (pattern : string) : bool :=
  negb (String.eqb pattern "(").

Definition page3 : Query :=
  mkQuery None None None None None None None None None (Some 3) (Some 10)
          None None None.

(** The request [?author=(]. *)
Definition unclosed_author : Query :=
  mkQuery None None None (Some "(") None None None None None None None
          None None None.

(** A stored book of a given author, genre, tags and rating. *)
Definition tagged (id author genre : string) (tag : list string) (rating : Z)
  : Book :=
  mkBook id id author genre None None None (mkAvailability Available 1 1 [])
         [] (inject_Z rating) 0 tag 0 0.

(** A reference book and four others: one shares only its genre, one only
    its author, one only a tag, one nothing. *)
Definition kindred : Collection :=
  [tagged "ref" "Ann" "Fiction" ["space"] 3;
   tagged "g" "Bob" "Fiction" [] 1;
   tagged "a" "Ann" "Poetry" [] 5;
   tagged "t" "Cy" "History" ["war"; "space"] 4;
   tagged "n" "Dee" "Drama" ["war"] 5].

(** A book of a given publication year. *)
Definition published (id : string) (year : Z) : Book :=
  mkBook id id "Ann" "Fiction" (Some year) None None
         (mkAvailability Available 1 1 []) [] (inject_Z 0) 0 [] 0 0.

(** Eleven publication years, 2000 to 2010; only 2000 has two books. *)
Definition eleven_years : Collection :=
  published "x" 2000
  :: List.map (fun i => published (letter i) (2000 + Z.of_nat i)) (seq 0 11).

(** * The rest of the model, the controllers and the middlewares *)

(** ** Static methods of the model ([bookSchema.statics]) *)

Module statics.

(** [bookSchema.statics.findAvailable] *)
Definition findAvailable (db : Collection) : list Book :=
  find (fun d => String.eqb (status_name (status (availability d))) "Available"
                 && (0 <? availableCopies (availability d)))%bool db.

Section AdvancedSearch.
(** [text_match query d]: the store's [$text] search on the text index;
    [RegExp_ok pattern]: [new RegExp(pattern, 'i')] compiles, it throws a
    [SyntaxError] otherwise; [regex_ok pattern]: the store compiles the
    pattern in its turn, it rejects the query otherwise;
    [regex_i pattern s]: the case-insensitive match of a pattern that
    compiles. *)
Variable text_match : string -> Book -> bool.
Variable RegExp_ok : string -> bool.
Variable regex_ok : string -> bool.
Variable regex_i : string -> string -> bool.

(** The filter object of [advancedSearch].  The parameters are those of a
    query string, so a parameter that is present is truthy. *)
Definition search_filter (q : Query) (d : Book) : bool :=
  ((if truthy (q_query q) then text_match (default_to (q_query q) "") d
    else true)
   && (if truthy (q_genre q)
          && negb (String.eqb (default_to (q_genre q) "") "All")
       then String.eqb (genre d) (default_to (q_genre q) "")
       else true)
   && (if truthy (q_author q)
       then regex_i (default_to (q_author q) "") (author d)
       else true)
   && (match q_minYear q, q_maxYear q with
       | None, None => true
       | minYear, maxYear =>
           match publicationYear d with
           | Some y =>
               (match minYear with Some lo => lo <=? y | None => true end)
               && (match maxYear with Some hi => y <=? hi | None => true end)
           | None => false
           end
       end)
   && (match q_minRating q with
       | Some r => Qle_bool r (averageRating d)
       | None => true
       end)
   && (if truthy (q_availability q)
       then String.eqb (status_name (status (availability d)))
                       (default_to (q_availability q) "")
       else true))%bool.

(** [sortOptions[sortBy] = sortOrder === 'desc' ? -1 : 1], with the
    destructuring defaults [sortBy = 'title'], [sortOrder = 'asc']. *)
Definition search_sort (q : Query) : SortSpec :=
  [(default_to (q_sortBy q) "title",
    if String.eqb (default_to (q_sortOrder q) "asc") "desc" then -1 else 1)].

(** [bookSchema.statics.advancedSearch]: [new RegExp(author, 'i')] may
    throw while the filter is built, and the store may reject the query for
    the pattern it is sent. *)
Definition advancedSearch (q : Query) (db : Collection) : result (list Book) :=
  let page := default_to (q_page q) 1 in
  let limit := default_to (q_limit q) 10 in
  let author := default_to (q_author q) "" in
  if truthy (q_author q) && negb (RegExp_ok author) then Throw SyntaxError
  else
    let skip := (page - 1) * limit in
    if truthy (q_author q) && negb (regex_ok author) then Throw MongoError
    else
      rest <- cursor_skip skip
                (cursor_sort (search_sort q) (find (search_filter q) db)) ;;
      Return (cursor_limit limit rest).
End AdvancedSearch.

End statics.

(** ** The remaining handlers of [bookController.js] *)

Record AvailableList : Type := mkAvailableList {
  a_books : list Book;
  a_count : Z
}.

Record SearchResult : Type := mkSearchResult {
  s_books : list Book;
  totalResults : Z;
  searchParams : Query
}.

(** The [overview] row of the statistics. *)
Record Overview : Type := mkOverview {
  o_totalBooks : Z;
  availableBooks : Z;
  borrowedBooks : Z;
  o_averageRating : Q;
  o_totalReviews : Z
}.

Record Stats : Type := mkStats {
  overview : Overview;
  genreDistribution : list GenreStat;
  recentPublications : list YearStat
}.

(** [{ $sum: { $cond: [{ $eq: ['$availability.status', s] }, 1, 0] } }] *)
Definition sum_status (s : string) (docs : list Book) : Z :=
  fold_left (fun acc d =>
               acc + (if String.eqb (status_name (status (availability d))) s
                      then 1 else 0)) docs 0.

(** [{ $sum: '$totalReviews' }] *)
Definition sum_totalReviews (docs : list Book) : Z :=
  fold_left (fun acc d => acc + totalReviews d) docs 0.

(** The list without the first element that satisfies [p]. *)
Fixpoint remove_first {A : Type} (p : A -> bool) (l : list A) : list A :=
  match l with
  | [] => []
  | x :: l' => if p x then l' else x :: remove_first p l'
  end.

Module bookHandlers.

(** [getBookById] *)
Definition getBookById (id : string) (db : Collection) : Reply Book :=
  match findById id db with
  | None => Next (mkAppError "Book not found" 404)
  | Some book => Json 200 book
  end.

(** [deleteBook]: [Book.findByIdAndDelete(id)] takes the document out of the
    collection and hands it back, or hands back nothing. *)
Definition deleteBook (id : string) (db : Collection)
  : Reply string * Collection :=
  match findById id db with
  | None => (Next (mkAppError "Book not found" 404), db)
  | Some book =>
      (Json 200 "Book deleted successfully",
       remove_first (fun d => String.eqb (_id d) id) db)
  end.

(** [getAvailableBooks] *)
Definition getAvailableBooks (db : Collection) : Reply AvailableList :=
  let books := cursor_sort [("averageRating", -1)] (statics.findAvailable db) in
  Json 200 (mkAvailableList books (Zlength_ books)).

(** The first aggregation of [getBookStats]: [$group] with [_id: null]
    yields one row for a collection that has documents and none otherwise. *)
Definition overview_rows (db : Collection) : list Overview :=
  match db with
  | [] => []
  | _ :: _ =>
      [mkOverview (sum1 db) (sum_status "Available" db)
                  (sum_status "Borrowed" db) (avg_rating db)
                  (sum_totalReviews db)]
  end.

(** [getBookStats] *)
Definition getBookStats (db : Collection) : Reply Stats :=
  let stats := overview_rows db in
  Json 200
    (mkStats
       (match stats with
        | row :: _ => row
        | [] => mkOverview 0 0 0 (inject_Z 0) 0
        end)
       (bookController.genreStats db)
       (bookController.yearStats db)).

Section AdvancedSearch.
Variable text_match : string -> Book -> bool.
Variable RegExp_ok : string -> bool.
Variable regex_ok : string -> bool.
Variable regex_i : string -> string -> bool.

(** [advancedSearch] (the handler): what the static method throws goes to
    [catchAsync]; the count is taken over the text matches alone, or over
    the whole collection when there is no query. *)
Definition advancedSearch (q : Query) (db : Collection) : Reply SearchResult :=
  match statics.advancedSearch text_match RegExp_ok regex_ok regex_i q db with
  | Throw e => Rejected e
  | Return books =>
      let totalResults :=
        countDocuments
          (if truthy (q_query q)
           then text_match (default_to (q_query q) "")
           else fun _ => true) db in
      Json 200 (mkSearchResult books totalResults q)
  end.
End AdvancedSearch.

End bookHandlers.


(** The sum of a list of counts. *)
Fixpoint total_count (l : list Z) : Z :=
  match l with
  | [] => 0
  | n :: l' => n + total_count l'
  end.

(** The ids of a collection are those of distinct documents. *)
Definition unique_ids (db : Collection) : Prop := NoDup (List.map _id db).

(** A collection in which two books share the title "A". *)
Definition two_titles : Collection :=
  [create 1 "x" "B" "Ann" "Fiction" 1 1;
   create 2 "y" "A" "Bob" "Poetry" 2 0;
   create 3 "z" "C" "Ann" "Fiction" 1 1].

Definition any_text (query : string) (d : Book) : bool := true.

(** The documents a mutating handler leaves alone: all but those of [id]. *)
Definition untouched (id : string) (db db' : Collection) : Prop :=
  List.length db' = List.length db
  /\ forall id', id' <> id -> findById id' db' = findById id' db.


(** ** Body and parameter validation ([validationMiddleware.js]) *)

(** The body of a review request: a number or nothing for [rating], strings
    or nothing for the two texts. *)
Record ReviewBody : Type := mkReviewBody {
  rb_rating : option Q;
  rb_comment : option string;
  rb_reviewerName : option string
}.

(** What a route answers before any handler runs:
    [res.status(400).json({ success: false, message, errors })]. *)
Inductive Routed (A : Type) : Type :=
| BadRequest (message : string) (errors : list string)
| Handled (a : A).

Arguments BadRequest {A} message errors.
Arguments Handled {A} a.

Module schemas.

(** [Joi.number().integer()] *)
Definition is_integer (q : Q) : bool := Zpos (Qden (Qred q)) =? 1.

Definition required {A : Type} (key : string) (o : option A) : list string :=
  match o with
  | Some _ => []
  | None => [key]
  end.

(** [reviewSchema.validate(body, { stripUnknown: true })]: the keys with an
    error, or the converted value (texts trimmed). *)
Definition review (body : ReviewBody) : list string + ReviewBody :=
  let comment := option_map validationMiddleware.trim (rb_comment body) in
  let reviewerName :=
    option_map validationMiddleware.trim (rb_reviewerName body) in
  let errors :=
    required "rating" (rb_rating body)
    ++ validationMiddleware.check "rating"
         (fun r => is_integer r && Qle_bool (inject_Z 1) r
                   && Qle_bool r (inject_Z 5))%bool
         (rb_rating body)
    ++ validationMiddleware.check "comment"
         (fun s => Z.of_nat (String.length s) <=? 1000) comment
    ++ required "reviewerName" (rb_reviewerName body)
    ++ validationMiddleware.check "reviewerName"
         (fun s => negb (String.eqb s "")
                   && (Z.of_nat (String.length s) <=? 100))%bool
         reviewerName in
  match errors with
  | [] => inr (mkReviewBody (rb_rating body) comment reviewerName)
  | _ => inl errors
  end.

Definition is_hex (c : Ascii.ascii) : bool :=
  let n := Ascii.nat_of_ascii c in
  ((Nat.leb 48 n && Nat.leb n 57)
   || (Nat.leb 97 n && Nat.leb n 102)
   || (Nat.leb 65 n && Nat.leb n 70))%bool.

Fixpoint all_chars (p : Ascii.ascii -> bool) (s : string) : bool :=
  match s with
  | EmptyString => true
  | String c s' => p c && all_chars p s'
  end.

(** [mongoIdSchema]: [/^[0-9a-fA-F]{24}$/] *)
Definition mongoId (s : string) : bool :=
  (Nat.eqb (String.length s) 24 && all_chars is_hex s)%bool.

End schemas.

(** The review document that [reviews.push(body)] makes of a validated
    body; [reviewDate] takes its default, the time of the push. *)
Definition review_of (now : Z) (body : ReviewBody) : Review :=
  mkReview (Qfloor (default_to (rb_rating body) (inject_Z 0)))
           (rb_comment body)
           (default_to (rb_reviewerName body) "")
           now.

(** [router.post('/:id/reviews', validateParams('id', schemas.mongoId),
    validate(schemas.review), addReview)] *)
Definition POST_review (now : Z) (id : string) (body : ReviewBody)
    (db : Collection) : Routed (Reply Book) * Collection :=
  if schemas.mongoId id then
    match schemas.review body with
    | inl errors => (BadRequest "Validation failed" errors, db)
    | inr value =>
        let (reply, db') :=
          bookController.addReview now id (review_of now value) db in
        (Handled reply, db')
    end
  else (BadRequest "Invalid id" ["id"], db).

(** A query with the three parameters that [searchSchema] does not list
    set as given. *)
Definition set_unlisted (search : option string) (yearFrom yearTo : option Z)
    (q : Query) : Query :=
  mkQuery search (q_genre q) (q_availability q) (q_author q) yearFrom yearTo
          (q_minRating q) (q_sortBy q) (q_sortOrder q) (q_page q) (q_limit q)
          (q_query q) (q_minYear q) (q_maxYear q).

(** ** Orders of the listings *)

(** Better rated first, and among equally rated books the greater [key]
    first. *)
Definition rated_then (key : Book -> Z) (a b : Book) : Prop :=
  (averageRating b < averageRating a)%Q
  \/ ((averageRating a == averageRating b)%Q /\ key b <= key a).

(** Invariants of a document. *)
Definition ratings_within (lo hi : Z) (b : Book) : Prop :=
  forall r, In r (reviews b) -> lo <= rating r <= hi.

Definition one_entry_per_email (b : Book) : Prop :=
  NoDup (List.map email (ledger b)).

(** ** The remaining handlers of the recommendation controller *)

(** [.select('title author genre averageRating totalReviews description
    coverImage')] *)
Record Recommendation : Type := mkRecommendation {
  r_id : string;
  r_title : string;
  r_author : string;
  r_genre : string;
  r_averageRating : Q;
  r_totalReviews : Z;
  r_description : option string;
  r_coverImage : option string
}.

Definition select_recommendation (d : Book) : Recommendation :=
  mkRecommendation (_id d) (title d) (author d) (genre d) (averageRating d)
    (totalReviews d) (description d) (coverImage d).

Record Criteria : Type := mkCriteria {
  c_genre : string;
  c_minRating : Q + string;
  c_limit : Z
}.

Record Recommendations : Type := mkRecommendations {
  recommendations : list Recommendation;
  criteria : Criteria
}.

(** [.select('title author genre averageRating description coverImage')] *)
Record Hit : Type := mkHit {
  h_id : string;
  h_title : string;
  h_author : string;
  h_genre : string;
  h_averageRating : Q;
  h_description : option string;
  h_coverImage : option string
}.

Definition select_hit (d : Book) : Hit :=
  mkHit (_id d) (title d) (author d) (genre d) (averageRating d)
    (description d) (coverImage d).

(** The two answers of the intelligent search. *)
Inductive Search : Type :=
| partial_match (results : list Hit) (query : string) (count : Z)
| text_search (results : list Hit) (suggestions : list string)
              (query : string) (count : Z).

Module aiHandlers.

(** The number a validated [minRating] is, when it is truthy. *)
Definition rating_floor (o : option Q) : option Q :=
  match o with
  | Some r => if Qeq_bool r (inject_Z 0) then None else Some r
  | None => None
  end.

Definition recommendation_filter (q_genre : option string)
    (q_minRating : option Q) (d : Book) : bool :=
  ((if truthy q_genre && negb (String.eqb (default_to q_genre "") "All")
    then String.eqb (genre d) (default_to q_genre "")
    else true)
   && (match rating_floor q_minRating with
       | Some r => Qle_bool r (averageRating d)
       | None => true
       end))%bool.

(** [getRecommendations]; [minRating] and [limit] are the numbers that the
    route's [validateQuery] makes of the parameters. *)
Definition getRecommendations (q_genre : option string)
    (q_minRating : option Q) (q_limit : option Z) (db : Collection)
  : Reply Recommendations :=
  let limit := default_to q_limit 10 in
  let recommendations :=
    List.map select_recommendation
      (cursor_limit limit
         (cursor_sort [("averageRating", -1); ("totalReviews", -1)]
            (find (recommendation_filter q_genre q_minRating) db))) in
  Json 200
    (mkRecommendations recommendations
       (mkCriteria
          (if truthy q_genre then default_to q_genre "" else "All genres")
          (match rating_floor q_minRating with
           | Some r => inl r
           | None => inr "Any rating"
           end)
          limit)).

Section IntelligentSearch.
(** [text_ranked query db]: the documents the text index finds for
    [query], by descending text score; [regex_ok pattern]: the store
    compiles [pattern], it rejects a query with a [$regex] it cannot
    compile; [regex_i]: the case-insensitive [$regex] match of a pattern
    that compiles. *)
Variable text_ranked : string -> Collection -> list Book.
Variable regex_ok : string -> bool.
Variable regex_i : string -> string -> bool.

Definition regex_opt (pattern : string) (o : option string) : bool :=
  match o with Some s => regex_i pattern s | None => false end.

(** The [$or] of the fallback search. *)
Definition partial_filter (query : string) (d : Book) : bool :=
  (regex_i query (title d) || regex_i query (author d)
   || regex_opt query (description d)
   || existsb (regex_i query) (tags d))%bool.

(** [intelligentSearch]; [limit] is the number that the route's
    [validateQuery] makes of the parameter.  The fallback search and
    [Book.distinct] both hand the query to [$regex]. *)
Definition intelligentSearch (q_query : option string) (q_limit : option Z)
    (db : Collection) : Reply (string + Search) :=
  let limit := default_to q_limit 10 in
  if truthy q_query then
    let query := default_to q_query "" in
    let searchResults :=
      List.map select_hit (cursor_limit limit (text_ranked query db)) in
    match searchResults with
    | [] =>
        if regex_ok query then
          let regexResults :=
            List.map select_hit
              (cursor_limit limit
                 (cursor_sort [("averageRating", -1)]
                    (find (partial_filter query) db))) in
          Json 200
            (inr (partial_match regexResults query (Zlength_ regexResults)))
        else Rejected MongoError
    | _ =>
        if regex_ok query then
          let suggestions :=
            distinct String.eqb
              (List.map title (find (fun d => regex_i query (title d)) db)) in
          Json 200
            (inr (text_search searchResults (firstn 5 suggestions) query
                              (Zlength_ searchResults)))
        else Rejected MongoError
    end
  else Json 400 (inl "Search query is required").
End IntelligentSearch.

End aiHandlers.


(** ** More concrete requests *)

Definition hex_id : string := "0123456789abcdef01234567".

Definition book_hex : Book := create 1 hex_id "Dune" "Frank Herbert" "Sci-Fi" 1 1.

Definition four_stars_body : ReviewBody :=
  mkReviewBody (Some (inject_Z 4)) None (Some " Ann ").

(** The request [?author=%20Ann%20], for the first page. *)
Definition author_ann : Query :=
  mkQuery None None None (Some " Ann ") None None None None None (Some 1) None
          None None None.

Definition searching : Query :=
  mkQuery (Some "zzz") None None None (Some 1990) None None None None None
          None None None None.


(** ** Authentication ([authMiddleware.js]) *)

(** The decoded token, or the user an API key stands for. *)
Record User : Type := mkUser {
  u_id : option string;
  u_email : option string;
  role : option string;
  apiKey : option string
}.

(** What the middlewares read of a request, and where they leave the
    user. *)
Record Request : Type := mkRequest {
  authorization : option string;
  x_api_key : option string;
  query_apiKey : option string;
  user : option User
}.

Definition set_user (u : User) (req : Request) : Request :=
  mkRequest (authorization req) (x_api_key req) (query_apiKey req) (Some u).

(** A middleware calls [next()] with the request as it now is, or
    [next(err)]. *)
Inductive Passed : Type :=
| Continue (req : Request)
| Refused (err : AppError).

(** The errors [jwt.verify] throws, by [error.name]. *)
Inductive VerifyError : Type :=
| TokenExpiredError
| JsonWebTokenError
| OtherError (name : string).

(** [s.split(sep)] for a separator of one character. *)
Fixpoint split (sep : Ascii.ascii) (s : string) : list string :=
  match s with
  | EmptyString => [EmptyString]
  | String c s' =>
      if Ascii.eqb c sep then EmptyString :: split sep s'
      else match split sep s' with
           | piece :: pieces => String c piece :: pieces
           | [] => [String c EmptyString]
           end
  end.

Definition space : Ascii.ascii := Ascii.ascii_of_nat 32.
Definition comma : Ascii.ascii := Ascii.ascii_of_nat 44.

(** [x || d] on strings that may be missing. *)
Definition or_else (o : option string) (d : option string) : option string :=
  if truthy o then o else d.

Fixpoint has_char (c : Ascii.ascii) (s : string) : bool :=
  match s with
  | EmptyString => false
  | String c' s' => Ascii.eqb c' c || has_char c s'
  end.

Module authMiddleware.

Section Jwt.
(** [jwt.verify(token, secret)] *)
Variable verify : string -> string -> VerifyError + User.
(** [process.env.JWT_SECRET] *)
Variable JWT_SECRET : option string.

Definition secret : string :=
  default_to (or_else JWT_SECRET (Some "fallback-secret")) "fallback-secret".

(** The token of an [Authorization] header:
    [authHeader.split(' ')[1]] when the header starts with ['Bearer ']. *)
Definition bearer (req : Request) : option string :=
  match authorization req with
  | Some authHeader =>
      if truthy (Some authHeader) && String.prefix "Bearer " authHeader
      then nth_error (split space authHeader) 1
      else None
  | None => None
  end.

Definition authenticate (req : Request) : Passed :=
  if truthy (bearer req) then
    match verify (default_to (bearer req) "") secret with
    | inr decoded => Continue (set_user decoded req)
    | inl TokenExpiredError => Refused (mkAppError "Token expired" 401)
    | inl JsonWebTokenError => Refused (mkAppError "Invalid token" 401)
    | inl (OtherError _) => Refused (mkAppError "Token verification failed" 401)
    end
  else Refused (mkAppError "Access denied. No token provided." 401).

Definition optionalAuth (req : Request) : Request :=
  if truthy (bearer req) then
    match verify (default_to (bearer req) "") secret with
    | inr decoded => set_user decoded req
    | inl _ => req
    end
  else req.
End Jwt.

(** [authorize(...roles)] *)
Definition authorize (roles : list string) (req : Request) : Passed :=
  match user req with
  | None => Refused (mkAppError "Access denied. Please authenticate first." 401)
  | Some u =>
      if match role u with
         | Some r => existsb (String.eqb r) roles
         | None => false
         end
      then Continue req
      else Refused (mkAppError "Access denied. Insufficient permissions." 403)
  end.

(** [authenticateApiKey], with [process.env.VALID_API_KEYS]. *)
Definition authenticateApiKey (VALID_API_KEYS : option string) (req : Request)
  : Passed :=
  let apiKey := or_else (x_api_key req) (query_apiKey req) in
  if truthy apiKey then
    let validApiKeys :=
      split comma (default_to (or_else VALID_API_KEYS (Some "")) "") in
    if existsb (String.eqb (default_to apiKey "")) validApiKeys
    then Continue (set_user (mkUser (Some "api-user") None (Some "api") apiKey)
                            req)
    else Refused (mkAppError "Invalid API key" 401)
  else Refused (mkAppError "API key required" 401).

End authMiddleware.

Definition always_valid (token secret : string) : VerifyError + User :=
  inr (mkUser (Some token) None (Some "admin") None).

(** * Properties *)

(** ** [save] and the availability block *)

Lemma availability_save (now : Z) (b : Book) :
  availability (save now b) =
  if total b <? copies b
  then set_availableCopies (total b) (availability b)
  else availability b.
Proof.
  unfold save, pre_save, total, copies.
  destruct (reviews b); cbn [set_rating availability];
    destruct (_ <? _); reflexivity.
Qed.

Lemma copies_save (now : Z) (b : Book) :
  copies (save now b) = Z.min (copies b) (total b).
Proof.
  unfold copies at 1. rewrite availability_save.
  destruct (Z.ltb_spec (total b) (copies b)); cbn; unfold copies, total in *; lia.
Qed.

Lemma total_save (now : Z) (b : Book) : total (save now b) = total b.
Proof.
  unfold total at 1. rewrite availability_save.
  destruct (_ <? _); reflexivity.
Qed.

Lemma ledger_save (now : Z) (b : Book) : ledger (save now b) = ledger b.
Proof.
  unfold ledger at 1. rewrite availability_save.
  destruct (_ <? _); reflexivity.
Qed.

Lemma status_save (now : Z) (b : Book) :
  status (availability (save now b)) = status (availability b).
Proof.
  rewrite availability_save. destruct (_ <? _); reflexivity.
Qed.

Lemma id_save (now : Z) (b : Book) : _id (save now b) = _id b.
Proof.
  unfold save, pre_save.
  destruct (reviews b); cbn [set_rating availability];
    destruct (_ <? _); reflexivity.
Qed.

Lemma reviews_save (now : Z) (b : Book) : reviews (save now b) = reviews b.
Proof.
  unfold save, pre_save.
  destruct (reviews b) eqn:E; cbn [set_rating availability];
    destruct (_ <? _); cbn; auto.
Qed.

(** ** What a successful borrow and a successful return do *)

Lemma borrowBook_throws (now : Z) (info : BorrowerInfo) (b : Book) :
  copies b <= 0 ->
  borrowBook now info b = Throw (Error "No copies available for borrowing").
Proof.
  intros H. unfold borrowBook. fold (copies b).
  destruct (Z.leb_spec (copies b) 0); [reflexivity | lia].
Qed.

Lemma borrowBook_returns (now : Z) (info : BorrowerInfo) (b b' : Book) :
  borrowBook now info b = Return b' ->
  0 < copies b
  /\ copies b' = Z.min (copies b - 1) (total b)
  /\ total b' = total b
  /\ ledger b' = ledger b ++ [new_entry now info]
  /\ status (availability b') =
     (if copies b - 1 =? 0 then Borrowed else status (availability b))
  /\ _id b' = _id b.
Proof.
  unfold borrowBook. fold (copies b).
  destruct (Z.leb_spec (copies b) 0) as [Hle | Hlt]; [discriminate |].
  intros H. injection H as <-.
  rewrite copies_save, total_save, ledger_save, status_save, id_save.
  unfold copies, total, ledger in *. cbn.
  repeat apply conj; try lia; try reflexivity.
  all: destruct (availableCopies (availability b) - 1 =? 0); reflexivity.
Qed.

Lemma borrowBook_succeeds (now : Z) (info : BorrowerInfo) (b : Book) :
  0 < copies b -> exists b', borrowBook now info b = Return b'.
Proof.
  intros H. unfold borrowBook. fold (copies b).
  destruct (Z.leb_spec (copies b) 0); [lia | eauto].
Qed.

Lemma findIndex_None {A : Type} (p : A -> bool) (l : list A) :
  findIndex p l = None <-> (forall x, In x l -> p x = false).
Proof.
  induction l as [| a l IH]; cbn.
  - split; [intros _ x [] | reflexivity].
  - destruct (p a) eqn:Ha.
    + split; [discriminate |].
      intros H. specialize (H a (or_introl eq_refl)). congruence.
    + destruct (findIndex p l).
      * split; [discriminate |].
        intros H. assert (Some n = None) by (apply IH; auto). discriminate.
      * split; [| reflexivity].
        intros _ x [<- | Hx]; [exact Ha | apply IH; auto].
Qed.

Lemma findIndex_Some {A : Type} (p : A -> bool) (l : list A) (i : nat) :
  findIndex p l = Some i ->
  exists l1 x l2,
    l = l1 ++ x :: l2 /\ p x = true /\ (forall y, In y l1 -> p y = false)
    /\ splice1 i l = l1 ++ l2.
Proof.
  revert i. induction l as [| a l IH]; cbn; intros i H; [discriminate |].
  destruct (p a) eqn:Ha.
  - injection H as <-. exists [], a, l. cbn. repeat apply conj; auto.
    intros y [].
  - destruct (findIndex p l) as [j |]; [| discriminate].
    injection H as <-.
    destruct (IH j eq_refl) as (l1 & x & l2 & -> & Hx & Hl1 & Hs).
    exists (a :: l1), x, l2. cbn. repeat apply conj; auto.
    + intros y [<- | Hy]; auto.
    + now rewrite Hs.
Qed.

Lemma findIndex_first {A : Type} (p : A -> bool) (l1 l2 : list A) (x : A) :
  p x = true -> (forall y, In y l1 -> p y = false) ->
  findIndex p (l1 ++ x :: l2) = Some (List.length l1)
  /\ splice1 (List.length l1) (l1 ++ x :: l2) = l1 ++ l2.
Proof.
  intros Hx. induction l1 as [| a l1 IH]; cbn; intros Hl1.
  - now rewrite Hx.
  - rewrite (Hl1 a (or_introl eq_refl)).
    destruct IH as [-> ->]; auto.
Qed.

Lemma returnBook_throws (now : Z) (e : string) (b : Book) :
  (forall x, In x (ledger b) -> email x <> e) ->
  returnBook now e b = Throw (Error "No borrow record found for this email").
Proof.
  intros H. unfold returnBook. fold (ledger b).
  assert (findIndex (fun borrow => String.eqb (email borrow) e) (ledger b) = None)
    as ->; [| reflexivity].
  apply findIndex_None. intros x Hx. apply String.eqb_neq. auto.
Qed.

Lemma returnBook_returns (now : Z) (e : string) (b b' : Book) :
  returnBook now e b = Return b' ->
  exists l1 x l2,
    ledger b = l1 ++ x :: l2 /\ email x = e
    /\ (forall y, In y l1 -> email y <> e)
    /\ ledger b' = l1 ++ l2
    /\ copies b' = Z.min (copies b + 1) (total b)
    /\ total b' = total b
    /\ status (availability b') =
       (if 0 <? copies b + 1 then Available else status (availability b))
    /\ _id b' = _id b.
Proof.
  unfold returnBook. fold (ledger b).
  destruct (findIndex _ (ledger b)) as [i |] eqn:Hi; [| discriminate].
  intros H. injection H as <-.
  destruct (findIndex_Some _ _ _ Hi) as (l1 & x & l2 & Hl & Hx & Hl1 & Hs).
  exists l1, x, l2.
  rewrite copies_save, total_save, ledger_save, status_save, id_save.
  unfold copies, total, ledger in *. cbn.
  repeat apply conj; try lia; try reflexivity; auto.
  - now apply String.eqb_eq.
  - intros y Hy. apply String.eqb_neq. auto.
  - destruct (0 <? availableCopies (availability b) + 1); exact Hs.
  - destruct (0 <? availableCopies (availability b) + 1); reflexivity.
  - destruct (0 <? availableCopies (availability b) + 1); reflexivity.
  - destruct (0 <? availableCopies (availability b) + 1); reflexivity.
Qed.

Lemma returnBook_succeeds (now : Z) (e : string) (b : Book) (x : Borrow) :
  In x (ledger b) -> email x = e -> exists b', returnBook now e b = Return b'.
Proof.
  intros Hin He. unfold returnBook. fold (ledger b).
  destruct (findIndex _ (ledger b)) as [i |] eqn:Hi; [eauto |].
  rewrite findIndex_None in Hi. specialize (Hi x Hin). cbn in Hi.
  apply String.eqb_neq in Hi. contradiction.
Qed.

(** ** Counting copies along a run *)

Lemma Zlength_app {A : Type} (l1 l2 : list A) :
  Zlength_ (l1 ++ l2) = Zlength_ l1 + Zlength_ l2.
Proof. unfold Zlength_. rewrite length_app. lia. Qed.

Lemma Zlength_cons {A : Type} (x : A) (l : list A) :
  Zlength_ (x :: l) = 1 + Zlength_ l.
Proof. unfold Zlength_. cbn [List.length]. lia. Qed.

Lemma Zlength_nonneg {A : Type} (l : list A) : 0 <= Zlength_ l.
Proof. unfold Zlength_. lia. Qed.

Lemma borrows_cons (op : Op) (ops : list Op) :
  borrows (op :: ops) = (if is_borrow op then 1 else 0) + borrows ops.
Proof.
  unfold borrows. cbn [List.filter].
  destruct (is_borrow op); [rewrite Zlength_cons |]; lia.
Qed.

Lemma returns_cons (op : Op) (ops : list Op) :
  returns (op :: ops) = (if is_borrow op then 0 else 1) + returns ops.
Proof.
  unfold returns. cbn [List.filter].
  destruct (is_borrow op); cbn [negb]; [| rewrite Zlength_cons]; lia.
Qed.

Lemma step_accounted (op : Op) (b b' : Book) :
  accounted b -> step op b = Return b' ->
  accounted b'
  /\ copies b' = copies b + (if is_borrow op then -1 else 1)
  /\ total b' = total b.
Proof.
  intros [Hlo Hhi] Hstep. pose proof (Zlength_nonneg (ledger b)) as Hlen.
  destruct op as [now info | now e]; cbn in Hstep.
  - apply borrowBook_returns in Hstep as (Hpos & Hc & Ht & Hl & _).
    unfold accounted. rewrite Hc, Ht, Hl, Zlength_app.
    cbn [is_borrow]. change (Zlength_ [new_entry now info]) with 1. lia.
  - apply returnBook_returns in Hstep
      as (l1 & x & l2 & Hl & _ & _ & Hl' & Hc & Ht & _).
    unfold accounted. rewrite Hc, Ht, Hl'.
    rewrite Hl, Zlength_app, Zlength_cons in Hhi, Hlen.
    rewrite Zlength_app. cbn [is_borrow].
    pose proof (Zlength_nonneg l1). pose proof (Zlength_nonneg l2). lia.
Qed.

Lemma run_accounted (ops : list Op) (b b' : Book) :
  accounted b -> run ops b = Return b' ->
  accounted b'
  /\ copies b' = copies b - borrows ops + returns ops
  /\ total b' = total b.
Proof.
  revert b. induction ops as [| op ops IH]; intros b Hacc Hrun.
  - cbn in Hrun. injection Hrun as <-.
    change (borrows []) with 0. change (returns []) with 0.
    split; [exact Hacc | split; [lia | reflexivity]].
  - cbn [run] in Hrun. unfold bind in Hrun.
    destruct (step op b) as [b1 | e] eqn:Hstep; [| discriminate].
    destruct (step_accounted _ _ _ Hacc Hstep) as (Hacc1 & Hc1 & Ht1).
    destruct (IH _ Hacc1 Hrun) as (Hacc' & Hc' & Ht').
    rewrite borrows_cons, returns_cons.
    split; [exact Hacc' | split; [destruct (is_borrow op); lia | congruence]].
Qed.

(** A created book with non-negative counts is accounted for. *)
Lemma create_accounted (now : Z) (id title author genre : string)
    (total_ available : Z) :
  0 <= total_ -> 0 <= available ->
  accounted (create now id title author genre total_ available).
Proof.
  intros Ht Ha. unfold accounted, create.
  rewrite copies_save, ledger_save, total_save.
  unfold copies, total, ledger. cbn. change (Zlength_ (@nil Borrow)) with 0.
  lia.
Qed.

(** The scenario of a book with two copies: two borrows, a refused third,
    and a return. *)
Example borrow_scenario :
  exists b1 b2 b3,
    borrowBook 1 alice book2 = Return b1
    /\ copies b1 = 1 /\ status (availability b1) = Available
    /\ borrowBook 2 bob b1 = Return b2
    /\ copies b2 = 0 /\ status (availability b2) = Borrowed
    /\ borrowBook 3 carol b2
       = Throw (Error "No copies available for borrowing")
    /\ returnBook 4 "a@x.com" b2 = Return b3
    /\ copies b3 = 1 /\ status (availability b3) = Available.
Proof.
  do 3 eexists.
  split; [vm_compute; reflexivity |].
  split; [reflexivity |]. split; [reflexivity |].
  split; [vm_compute; reflexivity |].
  split; [reflexivity |]. split; [reflexivity |].
  split; [vm_compute; reflexivity |].
  split; [vm_compute; reflexivity |].
  split; reflexivity.
Qed.

(** C1 (as amended).  The pre-save clamp acts at every save: a successful
    borrow leaves [min (availableCopies - 1) totalCopies] and a successful
    return [min (availableCopies + 1) totalCopies].  For a book whose ledger
    entries each account for a copy that is out ([accounted]), a successful
    borrow decrements [availableCopies] by exactly one, a successful return
    increments it by exactly one, and after a run of N successful borrows
    and M successful returns [availableCopies] is [initial - N + M], which
    lies within [0, totalCopies]. *)
Theorem copies_after_borrows_and_returns (b : Book) :
  (forall now info b', borrowBook now info b = Return b' ->
     copies b' = Z.min (copies b - 1) (total b))
  /\ (forall now e b', returnBook now e b = Return b' ->
     copies b' = Z.min (copies b + 1) (total b))
  /\ (accounted b ->
      (forall now info b', borrowBook now info b = Return b' ->
         copies b' = copies b - 1)
      /\ (forall now e b', returnBook now e b = Return b' ->
         copies b' = copies b + 1)
      /\ (forall ops b', run ops b = Return b' ->
         copies b' = copies b - borrows ops + returns ops
         /\ copies b' = clamp 0 (total b) (copies b - borrows ops + returns ops)
         /\ 0 <= copies b' <= total b')).
Proof.
  split; [| split].
  - intros now info b' H. now apply borrowBook_returns in H.
  - intros now e b' H.
    apply returnBook_returns in H as (l1 & x & l2 & H). tauto.
  - intros Hacc. split; [| split].
    + intros now info b' H.
      destruct (step_accounted (OpBorrow now info) b b' Hacc H) as (_ & Hc & _).
      cbn in Hc. lia.
    + intros now e b' H.
      destruct (step_accounted (OpReturn now e) b b' Hacc H) as (_ & Hc & _).
      cbn in Hc. lia.
    + intros ops b' H.
      destruct (run_accounted ops b b' Hacc H) as ([Hlo Hhi] & Hc & Ht).
      pose proof (Zlength_nonneg (ledger b')).
      unfold clamp. repeat apply conj; lia.
Qed.

Lemma copies_after_borrows_and_returns_witness :
  accounted book2
  /\ exists b',
       run [OpBorrow 1 alice; OpBorrow 2 bob; OpReturn 3 "a@x.com"] book2
       = Return b'
       /\ copies b' = 2 - 2 + 1.
Proof.
  assert (Hacc : accounted book2)
    by (unfold accounted; vm_compute; split; discriminate).
  split; [exact Hacc |].
  eexists. split; [vm_compute; reflexivity |].
  destruct (copies_after_borrows_and_returns book2) as (_ & _ & H).
  destruct (H Hacc) as (_ & _ & Hrun).
  refine (proj1 (Hrun
    [OpBorrow 1 alice; OpBorrow 2 bob; OpReturn 3 "a@x.com"] _ _)).
  vm_compute. reflexivity.
Defined.

(** C1 (as stated) fails.  With one copy in total and five marked
    available, the first borrow takes [availableCopies] from 5 to 1 and two
    borrows leave 0, where [clamp (5 - 2)] is 1; and with the count in range
    but a stale ledger entry, a return followed by a borrow leaves 0 where
    [clamp (1 - 1 + 1)] is 1. *)
Lemma copies_formula_counterexample :
  (exists b1 b2,
      borrowBook 1 alice book_over = Return b1
      /\ copies book_over = 5 /\ copies b1 = 1
      /\ run [OpBorrow 1 alice; OpBorrow 2 bob] book_over = Return b2
      /\ copies b2 = 0
      /\ clamp 0 (total book_over)
           (copies book_over - borrows [OpBorrow 1 alice; OpBorrow 2 bob]
            + returns [OpBorrow 1 alice; OpBorrow 2 bob]) = 1)
  /\ (exists b2,
      0 <= copies book_stale <= total book_stale
      /\ run [OpReturn 1 "a@x.com"; OpBorrow 2 bob] book_stale = Return b2
      /\ copies b2 = 0
      /\ clamp 0 (total book_stale)
           (copies book_stale
            - borrows [OpReturn 1 "a@x.com"; OpBorrow 2 bob]
            + returns [OpReturn 1 "a@x.com"; OpBorrow 2 bob]) = 1).
Proof.
  split.
  - eexists. eexists.
    split; [vm_compute; reflexivity |].
    split; [reflexivity |]. split; [reflexivity |].
    split; [vm_compute; reflexivity |].
    split; reflexivity.
  - eexists.
    split; [vm_compute; split; discriminate |].
    split; [vm_compute; reflexivity |].
    split; reflexivity.
Qed.

(** ** The controllers of borrow and return *)

Lemma findById_id (id : string) (db : Collection) (book : Book) :
  findById id db = Some book -> _id book = id.
Proof.
  intros H. apply find_some in H as [_ H]. now apply String.eqb_eq.
Qed.

Lemma findById_persist (id : string) (db : Collection) (book book' : Book) :
  findById id db = Some book -> _id book' = id ->
  findById id (persist book' db) = Some book'.
Proof.
  intros H Hid. subst id. unfold findById, persist in *.
  induction db as [| d db IH]; cbn in *; [discriminate |].
  destruct (String.eqb (_id d) (_id book')) eqn:Hd; cbn.
  - now rewrite String.eqb_refl.
  - rewrite Hd. auto.
Qed.

Lemma find_email_Some (e : string) (l : list Borrow) :
  (exists x, In x l /\ email x = e) ->
  exists x, List.find (fun borrow => String.eqb (email borrow) e) l = Some x.
Proof.
  intros (x & Hin & He).
  destruct (List.find _ l) as [y |] eqn:Hf; [eauto |].
  pose proof (find_none _ _ Hf x Hin) as H. cbn in H.
  apply String.eqb_neq in H. contradiction.
Qed.

(** C2.  A borrow request on an existing book with no copy available is
    answered with the 400 error "No copies available for borrowing"; one
    from an email that already has a ledger entry is answered with a 400
    error, which is "You have already borrowed this book" whenever a copy is
    available.  In both cases the store is left as it was, so the book keeps
    its availableCopies, status and ledger. *)
Theorem borrow_conflicts_leave_state (now : Z) (id : string)
    (body : BorrowerInfo) (db : Collection) (book : Book) :
  findById id db = Some book ->
  (copies book <= 0 ->
     borrowBook now body book
     = Throw (Error "No copies available for borrowing")
     /\ bookController.borrowBook now id body db
        = (Next (mkAppError "No copies available for borrowing" 400), db))
  /\ ((exists x, In x (ledger book) /\ email x = req_email body) ->
      exists msg,
        bookController.borrowBook now id body db
        = (Next (mkAppError msg 400), db)
        /\ (0 < copies book -> msg = "You have already borrowed this book"))
  /\ (forall err db',
        bookController.borrowBook now id body db = (Next err, db') ->
        db' = db /\ findById id db' = Some book).
Proof.
  intros Hfind. unfold bookController.borrowBook. rewrite Hfind.
  fold (copies book). fold (ledger book).
  split; [| split].
  - intros Hle. split; [now apply borrowBook_throws |].
    destruct (Z.leb_spec (copies book) 0); [reflexivity | lia].
  - intros Hdup. destruct (Z.leb_spec (copies book) 0).
    + eexists. split; [reflexivity | lia].
    + destruct (find_email_Some _ _ Hdup) as [x ->].
      eexists. split; [reflexivity | reflexivity].
  - intros err db'.
    destruct (copies book <=? 0).
    + intros H. injection H as _ <-. auto.
    + destruct (List.find _ (ledger book)).
      * intros H. injection H as _ <-. auto.
      * destruct (borrowBook now body book); discriminate.
Qed.

Lemma borrow_conflicts_leave_state_witness :
  (findById "b1" [book_maintenance] = Some book_maintenance
   /\ bookController.borrowBook 5 "b1" carol [book_maintenance]
      = (Next (mkAppError "No copies available for borrowing" 400),
         [book_maintenance]))
  /\ (findById "b1" [book_lent] = Some book_lent
      /\ bookController.borrowBook 5 "b1" alice [book_lent]
         = (Next (mkAppError "You have already borrowed this book" 400),
            [book_lent])).
Proof.
  split.
  - split; [reflexivity |].
    refine (proj2 (proj1 (borrow_conflicts_leave_state 5 "b1" carol
                            [book_maintenance] book_maintenance _) _)).
    + reflexivity.
    + vm_compute. discriminate.
  - split; [reflexivity |].
    destruct (proj1 (proj2 (borrow_conflicts_leave_state 5 "b1" alice
                              [book_lent] book_lent eq_refl)))
      as (msg & Hreply & Hmsg).
    + eexists. split; [left; reflexivity | reflexivity].
    + rewrite Hreply, Hmsg; [reflexivity | reflexivity].
Defined.

(** C3.  A return request on an existing book whose ledger has no entry for
    the email is answered with the error "No borrow record found for this
    email" (thrown by the model, passed on by the controller with status
    400) and the store is left as it was.  Otherwise the first matching
    entry is removed, availableCopies becomes
    [min (availableCopies + 1) totalCopies], the status becomes Available
    (the incremented count of a schema-valid document being positive), and
    the document is stored. *)
Theorem return_not_found_or_restores (now : Z) (id e : string)
    (db : Collection) (book : Book) :
  findById id db = Some book ->
  ((forall x, In x (ledger book) -> email x <> e) ->
     returnBook now e book
     = Throw (Error "No borrow record found for this email")
     /\ bookController.returnBook now id e db
        = (Next (mkAppError "No borrow record found for this email" 400), db))
  /\ (forall l1 x l2,
        ledger book = l1 ++ x :: l2 -> email x = e ->
        (forall y, In y l1 -> email y <> e) ->
        0 <= copies book ->
        exists book',
          bookController.returnBook now id e db
          = (Json 200 book', persist book' db)
          /\ findById id (persist book' db) = Some book'
          /\ ledger book' = l1 ++ l2
          /\ copies book' = Z.min (copies book + 1) (total book)
          /\ total book' = total book
          /\ status (availability book') = Available).
Proof.
  intros Hfind. unfold bookController.returnBook. rewrite Hfind.
  split.
  - intros Hnone. rewrite (returnBook_throws now e book Hnone). auto.
  - intros l1 x l2 Hl He Hl1 Hnonneg.
    assert (Hin : In x (ledger book))
      by (rewrite Hl; apply in_or_app; right; left; reflexivity).
    destruct (returnBook_succeeds now e book x Hin He) as [book' Hret].
    rewrite Hret. exists book'.
    apply returnBook_returns in Hret
      as (k1 & y & k2 & Hk & Hy & Hk1 & Hl' & Hc & Ht & Hs & Hid).
    assert (k1 = l1 /\ k2 = l2) as [-> ->].
    { rewrite Hl in Hk. clear - Hk He Hy Hl1 Hk1. subst e.
      revert k1 Hk Hk1. induction l1 as [| a l1 IH]; intros [| c k1] Hk Hk1.
      - cbn in Hk. injection Hk as _ Hk. auto.
      - cbn in Hk. injection Hk as -> _.
        exfalso. apply (Hk1 c (or_introl eq_refl)). congruence.
      - cbn in Hk. injection Hk as -> _.
        exfalso. apply (Hl1 y (or_introl eq_refl)). exact Hy.
      - cbn in Hk. injection Hk as -> Hk.
        destruct (IH (fun z Hz => Hl1 z (or_intror Hz)) k1 Hk
                     (fun z Hz => Hk1 z (or_intror Hz))) as [-> ->]. auto. }
    repeat apply conj; auto.
    + apply (findById_persist id db book book' Hfind).
      rewrite Hid. now apply findById_id with db.
    + rewrite Hs.
      destruct (Z.ltb_spec 0 (copies book + 1)); [reflexivity | lia].
Qed.

Lemma return_not_found_or_restores_witness :
  let db := [book_maintenance] in
  findById "b1" db = Some book_maintenance
  /\ bookController.returnBook 5 "b1" "z@x.com" db
     = (Next (mkAppError "No borrow record found for this email" 400), db)
  /\ exists book',
       bookController.returnBook 5 "b1" "a@x.com" db
       = (Json 200 book', persist book' db)
       /\ ledger book' = [] /\ copies book' = 1
       /\ status (availability book') = Available.
Proof.
  assert (Hfind : findById "b1" [book_maintenance] = Some book_maintenance)
    by reflexivity.
  destruct (return_not_found_or_restores 5 "b1" "z@x.com"
              [book_maintenance] book_maintenance Hfind) as [Hmiss _].
  destruct (return_not_found_or_restores 5 "b1" "a@x.com"
              [book_maintenance] book_maintenance Hfind) as [_ Hhit].
  split; [exact Hfind |]. split.
  - apply Hmiss. vm_compute. intros x [<- | []]. cbn. discriminate.
  - destruct (Hhit [] (mkBorrow "Alice" "a@x.com" 0 10) [])
      as (book' & H1 & _ & H2 & H3 & _ & H4).
    + reflexivity.
    + reflexivity.
    + intros y [].
    + vm_compute. discriminate.
    + exists book'. repeat apply conj; auto.
Defined.

(** ** The status after a borrow or a return *)

(** C5 (as amended).  For a book with [0 <= availableCopies <= totalCopies]
    whose status is Borrowed only when no copy is available, after every
    successful borrow or return the status is Borrowed iff
    [availableCopies = 0] and [totalCopies > 0].  The status is assigned
    whatever it was before, Reserved and Maintenance included: a borrow sets
    Borrowed when it takes the last copy and keeps the status otherwise, a
    return sets Available. *)
Theorem status_follows_copies (b : Book) :
  0 <= copies b <= total b ->
  (status (availability b) = Borrowed -> copies b = 0) ->
  (forall now info b', borrowBook now info b = Return b' ->
     (status (availability b') = Borrowed <-> copies b' = 0 /\ 0 < total b')
     /\ status (availability b')
        = (if copies b - 1 =? 0 then Borrowed else status (availability b)))
  /\ (forall now e b', returnBook now e b = Return b' ->
     (status (availability b') = Borrowed <-> copies b' = 0 /\ 0 < total b')
     /\ status (availability b') = Available).
Proof.
  intros Hrange Hinv. split.
  - intros now info b' H.
    apply borrowBook_returns in H as (Hpos & Hc & Ht & _ & Hs & _).
    split; [| exact Hs].
    rewrite Hs, Hc, Ht.
    destruct (Z.eqb_spec (copies b - 1) 0) as [Hz | Hnz].
    + split; [intros _; lia | reflexivity].
    + split; [intros Hb; apply Hinv in Hb; lia | lia].
  - intros now e b' H.
    apply returnBook_returns in H
      as (l1 & x & l2 & _ & _ & _ & _ & Hc & Ht & Hs & _).
    assert (Hav : status (availability b') = Available).
    { rewrite Hs. destruct (Z.ltb_spec 0 (copies b + 1)); [reflexivity | lia]. }
    split; [| exact Hav].
    rewrite Hav, Hc, Ht. split; [discriminate | lia].
Qed.

Lemma status_follows_copies_witness :
  exists b1 b2,
    borrowBook 1 alice book2 = Return b1
    /\ status (availability b1) = Available /\ copies b1 = 1
    /\ borrowBook 2 bob b1 = Return b2
    /\ (status (availability b2) = Borrowed <-> copies b2 = 0 /\ 0 < total b2).
Proof.
  eexists. eexists.
  split; [vm_compute; reflexivity |].
  split; [reflexivity |]. split; [reflexivity |].
  split; [vm_compute; reflexivity |].
  match goal with
  | |- status (availability ?b2) = _ <-> _ =>
      refine (proj1 (proj1 (status_follows_copies
        (save 1 (set_availability
                   (mkAvailability Available 2 1 [new_entry 1 alice]) book2))
        _ _) 2 bob b2 _))
  end.
  - vm_compute. split; discriminate.
  - vm_compute. discriminate.
  - vm_compute. reflexivity.
Defined.

(** C5 (as stated) fails: borrowing the only copy of a Reserved book sets
    its status to Borrowed, and a return to a book under Maintenance sets it
    to Available. *)
Lemma status_override_counterexample :
  (status (availability book_reserved) = Reserved
   /\ exists b', borrowBook 1 alice book_reserved = Return b'
                 /\ status (availability b') = Borrowed)
  /\ (status (availability book_maintenance) = Maintenance
      /\ exists b', returnBook 1 "a@x.com" book_maintenance = Return b'
                    /\ status (availability b') = Available).
Proof.
  split; (split; [reflexivity |]); eexists;
    (split; [vm_compute; reflexivity | reflexivity]).
Qed.

(** ** Review aggregation *)

Lemma totalRating_sum (l : list Review) : totalRating l = sum_ratings l.
Proof.
  unfold totalRating.
  enough (H : forall a, fold_left (fun sum review => sum + rating review) l a
                        = a + sum_ratings l) by (rewrite H; lia).
  induction l as [| r l IH]; intros a; cbn; [lia |].
  rewrite IH. lia.
Qed.

Lemma rating_save (now : Z) (b : Book) :
  averageRating (save now b) =
  match reviews b with
  | _ :: _ =>
      (inject_Z (Math_round
         ((inject_Z (totalRating (reviews b))
           / inject_Z (Zlength_ (reviews b))) * inject_Z 10))
       / inject_Z 10)%Q
  | [] => inject_Z 0
  end
  /\ totalReviews (save now b) = Zlength_ (reviews b).
Proof.
  unfold save, pre_save.
  destruct (reviews b); cbn [set_rating availability];
    destruct (_ <? _); cbn; auto.
Qed.

Lemma Math_round_rounded1 (x : Q) :
  rounded1 x (inject_Z (Math_round (x * inject_Z 10)) / inject_Z 10).
Proof.
  unfold rounded1, Math_round.
  set (y := (x * inject_Z 10 + (1 # 2))%Q).
  pose proof (Qfloor_le y) as Hle.
  pose proof (Qlt_floor y) as Hlt.
  rewrite inject_Z_plus in Hlt.
  set (k := inject_Z (Qfloor y)) in *.
  change (inject_Z 1) with 1%Q in Hlt.
  change (inject_Z 10) with (10 # 1)%Q in *.
  subst y.
  split; [exists (Qfloor (x * (10 # 1) + (1 # 2))); reflexivity |].
  split.
  - apply Qlt_shift_div_l; [reflexivity | lra].
  - apply Qle_shift_div_r; [reflexivity | lra].
Qed.

Lemma save_rating_invariant (now : Z) (b : Book) :
  rating_invariant (save now b).
Proof.
  unfold rating_invariant.
  destruct (rating_save now b) as [Havg Htot].
  rewrite reviews_save, Havg, Htot.
  split; [| reflexivity].
  destruct (reviews b) as [| r l] eqn:E; [reflexivity |].
  rewrite totalRating_sum. apply Math_round_rounded1.
Qed.

Lemma addReviews_snoc (l : list (Z * Review)) (x : Z * Review) (b : Book) :
  addReviews (l ++ [x]) b = addReview (fst x) (snd x) (addReviews l b).
Proof. unfold addReviews. now rewrite fold_left_app. Qed.

Lemma reviews_addReviews (l : list (Z * Review)) (b : Book) :
  reviews (addReviews l b) = reviews b ++ List.map snd l.
Proof.
  induction l as [| x l IH] using rev_ind.
  - cbn. now rewrite app_nil_r.
  - rewrite addReviews_snoc. unfold addReview.
    rewrite reviews_save. cbn. rewrite IH, map_app, app_assoc. reflexivity.
Qed.

(** C4.  Every save recomputes the two derived fields, so that after any
    sequence of review additions to a created book, and after any non-empty
    sequence of additions to any document, [averageRating] is the mean of
    the ratings rounded to one decimal (0 when there are no reviews) and
    [totalReviews] is the number of reviews; the reviews are those already
    there followed by the added ones.  Adding ratings 5 and 3 to a new book
    yields 4.0 and 2. *)
Theorem rating_follows_reviews :
  (forall now id title author genre total available l,
      let b := addReviews l (create now id title author genre total available) in
      rating_invariant b /\ reviews b = List.map snd l)
  /\ (forall b r l,
      rating_invariant (addReviews (r :: l) b)
      /\ reviews (addReviews (r :: l) b) = reviews b ++ List.map snd (r :: l))
  /\ (let b := addReviews [(2000, five_stars); (3000, three_stars)] book2 in
      (averageRating b == 4)%Q /\ totalReviews b = 2).
Proof.
  assert (Hne : forall b r l, rating_invariant (addReviews (r :: l) b)).
  { intros b r l.
    destruct (@exists_last _ (r :: l)) as (l' & x & ->); [discriminate |].
    rewrite addReviews_snoc. apply save_rating_invariant. }
  split; [| split].
  - intros now id title author genre total available l b. subst b. split.
    + destruct l as [| r l]; [apply save_rating_invariant | apply Hne].
    + rewrite reviews_addReviews. unfold create. now rewrite reviews_save.
  - intros b r l. split; [apply Hne | apply reviews_addReviews].
  - cbv zeta. split; [vm_compute; reflexivity | reflexivity].
Qed.

(** ** Sorting *)

Section SortFacts.
Context {A : Type} (cmp : A -> A -> comparison).

Let le (x y : A) : Prop := leb_of cmp x y = true.

Lemma insert_sorted_perm (x : A) (l : list A) :
  Permutation (insert_sorted cmp x l) (x :: l).
Proof.
  induction l as [| y l IH]; cbn; [reflexivity |].
  destruct (leb_of cmp y x); [| reflexivity].
  rewrite IH. apply perm_swap.
Qed.

Lemma sort_by_perm (l : list A) : Permutation (sort_by cmp l) l.
Proof.
  unfold sort_by.
  enough (H : forall acc,
             Permutation (fold_left (fun acc x => insert_sorted cmp x acc) l acc)
                         (acc ++ l))
    by (apply (H [])).
  induction l as [| x l IH]; intros acc; cbn.
  - now rewrite app_nil_r.
  - rewrite IH, insert_sorted_perm. apply Permutation_middle.
Qed.

Lemma sort_by_length (l : list A) :
  List.length (sort_by cmp l) = List.length l.
Proof. apply Permutation_length, sort_by_perm. Qed.

Lemma sort_by_In (l : list A) (x : A) : In x (sort_by cmp l) <-> In x l.
Proof.
  split; apply Permutation_in;
    [apply sort_by_perm | symmetry; apply sort_by_perm].
Qed.

(** Any two elements compare one way or the other. *)
Hypothesis cmp_total : forall x y, leb_of cmp x y = false -> leb_of cmp y x = true.

Lemma insert_sorted_Sorted (x : A) (l : list A) :
  Sorted le l -> Sorted le (insert_sorted cmp x l).
Proof.
  induction 1 as [| y l Hs IH Hhd]; cbn.
  - repeat constructor.
  - destruct (leb_of cmp y x) eqn:Hyx.
    + constructor; [exact IH |].
      destruct l as [| z l]; cbn.
      * constructor. exact Hyx.
      * destruct (leb_of cmp z x); constructor;
          [now inversion Hhd | exact Hyx].
    + constructor; [constructor; assumption |].
      constructor. now apply cmp_total.
Qed.

Lemma sort_by_Sorted (l : list A) : Sorted le (sort_by cmp l).
Proof.
  unfold sort_by.
  enough (H : forall acc, Sorted le acc ->
             Sorted le (fold_left (fun acc x => insert_sorted cmp x acc) l acc))
    by (apply H; constructor).
  induction l as [| x l IH]; intros acc Hacc; cbn; [exact Hacc |].
  apply IH, insert_sorted_Sorted, Hacc.
Qed.
End SortFacts.

Lemma Sorted_firstn {A : Type} (R : A -> A -> Prop) (n : nat) (l : list A) :
  Sorted R l -> Sorted R (firstn n l).
Proof.
  revert l. induction n as [| n IH]; intros l Hs; cbn; [constructor |].
  destruct Hs as [| x l Hs Hhd]; constructor; [now apply IH |].
  destruct Hhd; destruct n; cbn; constructor; assumption.
Qed.

Lemma Sorted_map {A B : Type} (R : A -> A -> Prop) (S : B -> B -> Prop)
    (f : A -> B) (l : list A) :
  (forall x y, R x y -> S (f x) (f y)) ->
  Sorted R l -> Sorted S (List.map f l).
Proof.
  intros Hf. induction 1 as [| x l Hs IH Hhd]; cbn; constructor; auto.
  destruct Hhd; cbn; constructor; auto.
Qed.

Lemma Zlength_firstn {A : Type} (n : Z) (l : list A) :
  0 <= n -> Zlength_ (firstn (Z.to_nat n) l) = Z.min n (Zlength_ l).
Proof. intros H. unfold Zlength_. rewrite length_firstn. lia. Qed.

Lemma Zlength_skipn {A : Type} (n : Z) (l : list A) :
  0 <= n -> Zlength_ (skipn (Z.to_nat n) l) = Z.max 0 (Zlength_ l - n).
Proof. intros H. unfold Zlength_. rewrite length_skipn. lia. Qed.

(** ** Pagination *)

Lemma Math_ceil_div (a b : Z) :
  Math_ceil (inject_Z a / inject_Z b) = - ((- a) / b).
Proof.
  unfold Math_ceil, Qceiling. f_equal.
  rewrite Zdiv_Qdiv. apply Qfloor_comp.
  rewrite inject_Z_opp.
  destruct (Z.eq_dec b 0) as [-> | Hb].
  - unfold Qdiv. change (/ inject_Z 0)%Q with 0%Q. ring.
  - field. intros H. apply Hb.
    apply (eq_sym (A := Z)), (proj1 (inject_Z_injective 0 b)).
    now symmetry.
Qed.

Lemma ceil_div_bounds (a b : Z) :
  0 < b -> (- ((- a) / b) - 1) * b < a <= - ((- a) / b) * b.
Proof.
  intros Hb.
  pose proof (Z.div_mod (- a) b ltac:(lia)) as Hdm.
  pose proof (Z.mod_pos_bound (- a) b Hb) as Hm.
  nia.
Qed.

Lemma check_nil {A : Type} (key : string) (ok : A -> bool) (o : option A) :
  validationMiddleware.check key ok o = [] ->
  forall a, o = Some a -> ok a = true.
Proof.
  intros H a ->. cbn in H. destruct (ok a); [reflexivity | discriminate].
Qed.

(** What the validation hands to the controller. *)
Lemma searchSchema_value (currentYear : Z) (q q' : Query) :
  validationMiddleware.searchSchema currentYear q = inr q' ->
  q_sortBy q' = Some (default_to (q_sortBy q) "title")
  /\ q_sortOrder q' = Some (default_to (q_sortOrder q) "asc")
  /\ q_page q' = Some (default_to (q_page q) 1)
  /\ q_limit q' = Some (default_to (q_limit q) 10)
  /\ q_search q' = None
  /\ 1 <= parseInt_or (q_page q') 1
  /\ 1 <= parseInt_or (q_limit q') 10 <= 100
  /\ (forall s, q_sortBy q = Some s -> s <> "")
  /\ 1 <= default_to (q_page q) 1
  /\ 1 <= default_to (q_limit q) 10 <= 100.
Proof.
  unfold validationMiddleware.searchSchema.
  match goal with
  | |- match ?errs with _ => _ end = _ -> _ => destruct errs eqn:E
  end; [| discriminate].
  intros H. injection H as <-. cbn [q_sortBy q_sortOrder q_page q_limit q_search].
  repeat (apply app_eq_nil in E; destruct E as [? E]).
  match goal with
  | Hp : validationMiddleware.check "page" _ _ = [],
    Hs : validationMiddleware.check "sortBy" _ _ = [] |- _ =>
      pose proof (check_nil _ _ _ Hp) as Hpage;
      pose proof (check_nil _ _ _ E) as Hlimit;
      pose proof (check_nil _ _ _ Hs) as Hsort
  end.
  repeat apply conj.
  - destruct (q_sortBy q); reflexivity.
  - destruct (q_sortOrder q); reflexivity.
  - destruct (q_page q); reflexivity.
  - destruct (q_limit q); reflexivity.
  - reflexivity.
  - destruct (q_page q) as [n |]; cbn; [| lia].
    specialize (Hpage n eq_refl). destruct (Z.eqb_spec n 0); lia.
  - destruct (q_limit q) as [n |]; cbn; [| lia].
    specialize (Hlimit n eq_refl). destruct (Z.eqb_spec n 0); lia.
  - destruct (q_limit q) as [n |]; cbn; [| lia].
    specialize (Hlimit n eq_refl). destruct (Z.eqb_spec n 0); lia.
  - intros s Hs -> . specialize (Hsort _ Hs). discriminate.
  - destruct (q_page q) as [n |]; cbn; [| lia].
    specialize (Hpage n eq_refl). lia.
  - destruct (q_limit q) as [n |]; cbn; [| lia].
    specialize (Hlimit n eq_refl). lia.
  - destruct (q_limit q) as [n |]; cbn; [| lia].
    specialize (Hlimit n eq_refl). lia.
Qed.

Lemma getAllBooks_rejects (regex_ok : string -> bool)
    (regex_i : string -> string -> bool) (q : Query) (db : Collection) :
  forallb regex_ok (bookController.filter_patterns q) = false ->
  bookController.getAllBooks regex_ok regex_i q db = Rejected MongoError.
Proof.
  intros H. unfold bookController.getAllBooks. now rewrite H.
Qed.

Lemma getAllBooks_paginates (regex_ok : string -> bool)
    (regex_i : string -> string -> bool) (q : Query) (db : Collection) :
  forallb regex_ok (bookController.filter_patterns q) = true ->
  1 <= parseInt_or (q_page q) 1 -> 1 <= parseInt_or (q_limit q) 10 ->
  exists r,
    bookController.getAllBooks regex_ok regex_i q db = Json 200 r
    /\ currentPage (pagination r) = parseInt_or (q_page q) 1
    /\ limit (pagination r) = parseInt_or (q_limit q) 10
    /\ paginates (Zlength_ (find (bookController.build_filter regex_i q) db))
                 (pagination r) (books r).
Proof.
  set (page := parseInt_or (q_page q) 1).
  set (lim := parseInt_or (q_limit q) 10).
  intros Hok Hpage Hlim.
  unfold bookController.getAllBooks. fold page. fold lim. rewrite Hok.
  unfold cursor_skip.
  destruct (Z.ltb_spec ((page - 1) * lim) 0) as [Hneg | Hskip]; [nia |].
  eexists. split; [reflexivity |].
  split; [reflexivity |]. split; [reflexivity |].
  unfold paginates.
  cbn [pagination books currentPage limit totalBooks totalPages hasNextPage
       hasPrevPage].
  unfold countDocuments, find.
  set (n := Zlength_ (List.filter (bookController.build_filter regex_i q) db)).
  assert (Hceil : Math_ceil (inject_Z n / inject_Z lim) = - ((- n) / lim))
    by apply Math_ceil_div.
  pose proof (ceil_div_bounds n lim ltac:(lia)) as Hb.
  set (tp := Math_ceil (inject_Z n / inject_Z lim)) in *.
  rewrite <- Hceil in Hb.
  split; [reflexivity |]. split; [reflexivity |].
  split; [apply Qle_ceiling |]. split; [exact Hb |].
  split; [reflexivity |]. split; [| split; [reflexivity |]].
  - destruct (Z.ltb_spec page tp) as [Hlt | Hge]; split.
    + intros _. nia.
    + reflexivity.
    + discriminate.
    + intros Hmore. exfalso. nia.
  - unfold cursor_limit. destruct (Z.eqb_spec lim 0); [lia |].
    rewrite Z.abs_eq by lia.
    rewrite Zlength_firstn, Zlength_skipn by lia.
    unfold Zlength_ at 1, cursor_sort. rewrite sort_by_length.
    reflexivity.
Qed.



(** The sort the controller builds from a validated query: the schema
    default [sortBy = 'title'] is always there, so the controller's own
    default ([createdAt], descending) is never taken. *)
Lemma build_sort_validated (currentYear : Z) (q q' : Query) :
  validationMiddleware.searchSchema currentYear q = inr q' ->
  q_sortBy q = None ->
  bookController.build_sort q'
  = [("title", match q_sortOrder q with
               | Some o => if String.eqb o "desc" then -1 else 1
               | None => 1
               end)]
  /\ bookController.build_sort q
     = [("createdAt", -1)].
Proof.
  intros H Hs. apply searchSchema_value in H as (H1 & H2 & _).
  unfold bookController.build_sort. rewrite H1, H2, Hs. cbn.
  destruct (q_sortOrder q); auto.
Qed.

(** C7, at the request with no parameters on three books created in the
    order A, B, C: the route answers them by title ascending (A, B, C),
    first page, limit 10, and reports [sortBy = title]; the controller
    without the validation in front answers newest first (C, B, A). *)
Theorem list_default_sort_is_title :
  (exists r,
      bookController.GET_books compiles no_regex 2025 emptyQuery (shelf 3)
      = inr (Json 200 r)
      /\ List.map _id (books r) = ["A"; "B"; "C"]
      /\ List.map createdAt (books r) = [0; 1; 2]
      /\ f_sortBy (filters r) = "title" /\ f_sortOrder (filters r) = "asc"
      /\ currentPage (pagination r) = 1 /\ limit (pagination r) = 10)
  /\ (exists r,
      bookController.getAllBooks compiles no_regex emptyQuery (shelf 3)
      = Json 200 r
      /\ List.map _id (books r) = ["C"; "B"; "A"]
      /\ f_sortBy (filters r) = "createdAt").
Proof.
  split; eexists; (split; [vm_compute; reflexivity |]);
    repeat split; reflexivity.
Qed.

(** ** Similar books *)

Lemma StronglySorted_app_Forall {A : Type} (R : A -> A -> Prop)
    (l1 l2 : list A) :
  StronglySorted R (l1 ++ l2) ->
  forall a b, In a l1 -> In b l2 -> R a b.
Proof.
  induction l1 as [| x l1 IH]; cbn; intros Hs a b Ha Hb; [contradiction |].
  inversion Hs as [| ? ? Hs' Hall]; subst.
  destruct Ha as [<- | Ha].
  - rewrite Forall_forall in Hall. apply Hall, in_or_app. now right.
  - now apply (IH Hs').
Qed.

Lemma Zlength_cursor_limit {A : Type} (n : Z) (l : list A) :
  n <> 0 -> Zlength_ (cursor_limit n l) <= Z.abs n.
Proof.
  intros Hn. unfold cursor_limit.
  destruct (Z.eqb_spec n 0); [contradiction |].
  rewrite Zlength_firstn by lia. lia.
Qed.

Lemma In_cursor_limit {A : Type} (n : Z) (l : list A) (x : A) :
  In x (cursor_limit n l) -> In x l.
Proof.
  unfold cursor_limit. destruct (n =? 0); [auto |].
  intros H. rewrite <- (firstn_skipn (Z.to_nat (Z.abs n)) l).
  apply in_or_app. now left.
Qed.

Lemma Sorted_cursor_limit {A : Type} (R : A -> A -> Prop) (n : Z) (l : list A) :
  Sorted R l -> Sorted R (cursor_limit n l).
Proof.
  unfold cursor_limit. destruct (n =? 0); [auto |]. apply Sorted_firstn.
Qed.

Lemma parseInt_or_nonzero (o : option Z) (d : Z) : d <> 0 -> parseInt_or o d <> 0.
Proof.
  intros Hd. unfold parseInt_or.
  destruct o as [n |]; [| exact Hd]. destruct (Z.eqb_spec n 0); auto.
Qed.

Lemma compare_by_rating (x y : Book) :
  compare_by [("averageRating", -1)] x y
  = CompOpp (averageRating x ?= averageRating y)%Q.
Proof.
  change (compare_by [("averageRating", -1)] x y)
    with (match CompOpp (averageRating x ?= averageRating y)%Q with
          | Eq => Eq
          | c => c
          end).
  destruct (averageRating x ?= averageRating y)%Q; reflexivity.
Qed.

Lemma rating_desc_total (x y : Book) :
  leb_of (compare_by [("averageRating", -1)]) x y = false ->
  leb_of (compare_by [("averageRating", -1)]) y x = true.
Proof.
  unfold leb_of. rewrite !compare_by_rating.
  rewrite <- (Qcompare_antisym (averageRating x) (averageRating y)).
  destruct (averageRating x ?= averageRating y)%Q; cbn; congruence.
Qed.

Lemma rating_desc_le (x y : Book) :
  leb_of (compare_by [("averageRating", -1)]) x y = true ->
  (averageRating y <= averageRating x)%Q.
Proof.
  unfold leb_of. rewrite compare_by_rating. intros H. apply Qle_alt.
  rewrite <- (Qcompare_antisym (averageRating x) (averageRating y)).
  destruct (averageRating x ?= averageRating y)%Q; cbn in *; congruence.
Qed.

Lemma rating_sorted (l : list Book) :
  StronglySorted (fun a b => (averageRating b <= averageRating a)%Q)
                 (cursor_sort [("averageRating", -1)] l).
Proof.
  apply Sorted_StronglySorted.
  - intros x y z Hxy Hyz. eapply Qle_trans; eassumption.
  - pose proof (Sorted_map
              (fun x y => leb_of (compare_by [("averageRating", -1)]) x y = true)
              (fun a b => (averageRating b <= averageRating a)%Q)
              (fun d => d)
              (cursor_sort [("averageRating", -1)] l)) as H.
    rewrite map_id in H. apply H.
    + intros x y. apply rating_desc_le.
    + apply sort_by_Sorted. exact rating_desc_total.
Qed.

(** What [.limit(n)] cuts off a sorted list are entries that none of the
    [|n|] entries kept comes after. *)
Lemma cursor_limit_cut {A : Type} (R : A -> A -> Prop) (n : Z) (l : list A)
    (x : A) :
  StronglySorted R l -> In x l ->
  In x (cursor_limit n l)
  \/ (Zlength_ (cursor_limit n l) = Z.abs n
      /\ forall y, In y (cursor_limit n l) -> R y x).
Proof.
  intros Hs Hx. unfold cursor_limit. destruct (n =? 0); [now left |].
  set (k := Z.to_nat (Z.abs n)).
  pose proof (firstn_skipn k l) as Hsplit.
  rewrite <- Hsplit in Hx. apply in_app_or in Hx as [Hx | Hx]; [now left |].
  right. split.
  - assert (Hk : (k < List.length l)%nat).
    { destruct (Nat.lt_ge_cases k (List.length l)) as [Hlt | Hge]; [exact Hlt |].
      rewrite skipn_all2 in Hx by exact Hge. contradiction. }
    unfold Zlength_. rewrite length_firstn. unfold k in *. lia.
  - intros y Hy. rewrite <- Hsplit in Hs.
    now apply (StronglySorted_app_Forall R _ _ Hs).
Qed.

Lemma similar_filter_shares (id : string) (ref d : Book) :
  aiController.similar_filter id ref d = true
  <-> _id d <> id
      /\ (genre d = genre ref \/ author d = author ref
          \/ exists t, In t (tags d) /\ In t (tags ref)).
Proof.
  unfold aiController.similar_filter.
  rewrite andb_true_iff, !orb_true_iff, negb_true_iff, String.eqb_neq,
    !String.eqb_eq, existsb_exists.
  split; intros [Hne Hshare]; (split; [exact Hne |]).
  - destruct Hshare as [[Hg | Ha] | (t & Ht & Hex)]; [tauto | tauto |].
    apply existsb_exists in Hex as (t' & Ht' & Heq).
    apply String.eqb_eq in Heq. subst t'. right; right. eauto.
  - destruct Hshare as [Hg | [Ha | (t & Ht & Hin)]]; [tauto | tauto |].
    right. exists t. split; [exact Ht |].
    apply existsb_exists. exists t. split; [exact Hin | apply String.eqb_refl].
Qed.

(** C9.  A similar-books request for an unknown id is answered with the 404
    error "Reference book not found".  Otherwise the answer lists only
    books of the collection other than the reference that share its genre,
    its author or one of its tags, in descending order of averageRating, at
    most [limit] of them ([limit] being 5 when the request names none).
    Conversely every such book of the collection is listed, unless the list
    is full, holding [limit] books that are each rated at least as well. *)
Theorem similar_books (id : string) (q_limit : option Z) (db : Collection) :
  let cap :=
    match q_limit with
    | Some n => if n =? 0 then 5 else Z.abs n
    | None => 5
    end in
  (findById id db = None ->
     aiController.getSimilarBooks id q_limit db
     = Next (mkAppError "Reference book not found" 404))
  /\ (forall ref, findById id db = Some ref ->
      exists r,
        aiController.getSimilarBooks id q_limit db = Json 200 r
        /\ (forall s, In s (similarBooks r) ->
              sb_id s <> id
              /\ (exists d, In d db /\ s = select_similar d)
              /\ (sb_genre s = genre ref \/ sb_author s = author ref
                  \/ exists t, In t (sb_tags s) /\ In t (tags ref)))
        /\ StronglySorted
             (fun s t => (sb_averageRating t <= sb_averageRating s)%Q)
             (similarBooks r)
        /\ Zlength_ (similarBooks r) <= Z.abs (parseInt_or q_limit 5)
        /\ (q_limit = None -> Zlength_ (similarBooks r) <= 5)
        /\ count r = Zlength_ (similarBooks r)
        /\ Zlength_ (similarBooks r) <= cap
        /\ (forall d, In d db -> _id d <> id ->
              (genre d = genre ref \/ author d = author ref
               \/ exists t, In t (tags d) /\ In t (tags ref)) ->
              In (select_similar d) (similarBooks r)
              \/ (Zlength_ (similarBooks r) = cap
                  /\ forall s, In s (similarBooks r) ->
                       (averageRating d <= sb_averageRating s)%Q))).
Proof.
  intros cap.
  assert (Hcap : Z.abs (parseInt_or q_limit 5) = cap).
  { unfold cap, parseInt_or. destruct q_limit as [n |]; [| reflexivity].
    destruct (n =? 0); reflexivity. }
  unfold aiController.getSimilarBooks. split.
  - intros ->. reflexivity.
  - intros ref ->. eexists. split; [reflexivity |].
    cbn [similarBooks count].
    set (found := find (aiController.similar_filter id ref) db).
    set (lim := parseInt_or q_limit 5) in *.
    assert (Hlen : Zlength_ (List.map select_similar
                     (cursor_limit lim (cursor_sort [("averageRating", -1)] found)))
                   <= Z.abs lim).
    { unfold Zlength_ at 1. rewrite length_map.
      apply Zlength_cursor_limit, parseInt_or_nonzero. lia. }
    split; [| split; [| split; [| split; [| split; [| split]]]]].
    + intros s Hs. apply in_map_iff in Hs as (d & <- & Hd).
      apply In_cursor_limit in Hd. apply sort_by_In in Hd.
      apply filter_In in Hd as [Hdb Hf].
      apply similar_filter_shares in Hf as [Hne Hshare]. cbn.
      split; [exact Hne |]. split; [eauto | exact Hshare].
    + apply Sorted_StronglySorted.
      * intros x y z Hxy Hyz. eapply Qle_trans; eassumption.
      * apply Sorted_map with
          (R := fun x y => leb_of (compare_by [("averageRating", -1)]) x y = true).
        -- intros x y. apply rating_desc_le.
        -- apply Sorted_cursor_limit, sort_by_Sorted. exact rating_desc_total.
    + exact Hlen.
    + intros ->. exact Hlen.
    + reflexivity.
    + rewrite <- Hcap. exact Hlen.
    + intros d Hdb Hne Hshare.
      assert (Hd : In d (cursor_sort [("averageRating", -1)] found)).
      { apply sort_by_In, filter_In. split; [exact Hdb |].
        apply similar_filter_shares. auto. }
      destruct (cursor_limit_cut _ lim _ d (rating_sorted found) Hd)
        as [Hin | [Hfull Hbetter]].
      * left. now apply in_map.
      * right. split.
        -- unfold Zlength_ at 1. rewrite length_map. fold (Zlength_
             (cursor_limit lim (cursor_sort [("averageRating", -1)] found))).
           now rewrite Hfull.
        -- intros s Hs. apply in_map_iff in Hs as (d' & <- & Hd').
           cbn. now apply Hbetter.
Qed.

Lemma similar_books_witness :
  (exists r,
    aiController.getSimilarBooks "A" None (shelf 8) = Json 200 r
    /\ Zlength_ (similarBooks r) = 5
    /\ (forall s, In s (similarBooks r) -> sb_id s <> "A")
    /\ aiController.getSimilarBooks "z" None (shelf 8)
       = Next (mkAppError "Reference book not found" 404))
  /\ (exists r,
      aiController.getSimilarBooks "ref" None kindred = Json 200 r
      /\ In (select_similar (tagged "a" "Ann" "Poetry" [] 5)) (similarBooks r)
      /\ In (select_similar (tagged "t" "Cy" "History" ["war"; "space"] 4))
            (similarBooks r)
      /\ List.map sb_id (similarBooks r) = ["a"; "t"; "g"]).
Proof.
  split.
  - destruct (similar_books "A" None (shelf 8)) as [_ Hsome].
    destruct (similar_books "z" None (shelf 8)) as [Hnone _].
    destruct (Hsome (create 0 "A" "A" "Ann" "Fiction" 1 1))
      as (r & Hr & Hin & _); [vm_compute; reflexivity |].
    exists r. repeat apply conj.
    + exact Hr.
    + vm_compute in Hr. injection Hr as <-. reflexivity.
    + intros s Hs. apply (Hin s Hs).
    + apply Hnone. vm_compute. reflexivity.
  - destruct (similar_books "ref" None kindred) as [_ Hsome].
    destruct (Hsome (tagged "ref" "Ann" "Fiction" ["space"] 3) eq_refl)
      as (r & Hr & _ & _ & _ & _ & _ & _ & Hall).
    assert (Hids : List.map sb_id (similarBooks r) = ["a"; "t"; "g"])
      by (vm_compute in Hr; injection Hr as <-; reflexivity).
    assert (Hshort : Zlength_ (similarBooks r) <> 5).
    { unfold Zlength_. rewrite <- (length_map sb_id), Hids. discriminate. }
    exists r. split; [exact Hr |]. split; [| split; [| exact Hids]].
    + destruct (Hall (tagged "a" "Ann" "Poetry" [] 5)) as [Hin | [Hfull _]];
        [cbn; tauto | discriminate | right; left; reflexivity | exact Hin
        | contradiction].
    + destruct (Hall (tagged "t" "Cy" "History" ["war"; "space"] 4))
        as [Hin | [Hfull _]];
        [cbn; tauto | discriminate
        | right; right; exists "space"; cbn; tauto | exact Hin
        | contradiction].
Defined.

(** ** Books by genre *)

(** C10.  A genre listing never answers with an empty list: whenever the
    requested page holds no book it is answered with the 404 error
    "No books found in <genre> genre", also when the genre has books and the
    page lies past the last one; otherwise the page is returned. *)
Theorem genre_empty_page_not_found (genre_ : string) (q : Query)
    (db : Collection) :
  let page := parseInt_or (q_page q) 1 in
  let lim := parseInt_or (q_limit q) 10 in
  let n := countDocuments (fun d => String.eqb (genre d) genre_) db in
  (forall code r, bookController.getBooksByGenre genre_ q db = Json code r ->
                  g_books r <> [])
  /\ (1 <= page -> 1 <= lim ->
      (n <= (page - 1) * lim ->
         bookController.getBooksByGenre genre_ q db
         = Next (mkAppError ("No books found in " ++ genre_ ++ " genre")%string
                            404))
      /\ ((page - 1) * lim < n ->
          exists r, bookController.getBooksByGenre genre_ q db = Json 200 r
                    /\ g_books r <> []
                    /\ totalBooks (g_pagination r) = n)).
Proof.
  intros page lim n.
  unfold bookController.getBooksByGenre. fold page. fold lim. fold n.
  split.
  - intros code r. destruct (cursor_skip _ _) as [rest | e]; [| discriminate].
    destruct (cursor_limit lim rest); [discriminate |].
    intros Hr. injection Hr as _ <-. discriminate.
  - intros Hpage Hlim. unfold cursor_skip.
    destruct (Z.ltb_spec ((page - 1) * lim) 0) as [Hneg | Hskip]; [nia |].
    set (bs := cursor_limit lim _).
    assert (Hlen : Zlength_ bs = Z.min lim (Z.max 0 (n - (page - 1) * lim))).
    { subst bs. unfold cursor_limit. destruct (Z.eqb_spec lim 0); [lia |].
      rewrite Z.abs_eq by lia.
      rewrite Zlength_firstn, Zlength_skipn by lia.
      unfold Zlength_ at 1, cursor_sort, find. rewrite sort_by_length.
      reflexivity. }
    destruct bs as [| b bs'] eqn:Hbs.
    + change (Zlength_ (@nil Book)) with 0 in Hlen.
      split; [reflexivity | intros; lia].
    + rewrite Zlength_cons in Hlen. pose proof (Zlength_nonneg bs') as Hbs'.
      split; [intros; lia |].
      intros _. eexists. split; [reflexivity |].
      split; [discriminate | reflexivity].
Qed.

Lemma genre_empty_page_not_found_witness :
  bookController.getBooksByGenre "Fiction"
    (mkQuery None None None None None None None None None (Some 2) None
             None None None)
    (shelf 3)
  = Next (mkAppError "No books found in Fiction genre" 404)
  /\ countDocuments (fun d => String.eqb (genre d) "Fiction") (shelf 3) = 3.
Proof.
  split; [| reflexivity].
  refine (proj1 (proj2 (genre_empty_page_not_found "Fiction"
    (mkQuery None None None None None None None None None (Some 2) None
             None None None) (shelf 3)) _ _) _).
  - vm_compute. discriminate.
  - vm_compute. discriminate.
  - vm_compute. discriminate.
Defined.

(** ** Statistics *)

Lemma distinct_In {K : Type} (eqb : K -> K -> bool) (l : list K) :
  (forall x y, eqb x y = true <-> x = y) ->
  forall k, In k (distinct eqb l) <-> In k l.
Proof.
  intros Heqb. unfold distinct.
  enough (H : forall seen k,
             In k (fold_left (fun seen k => if existsb (eqb k) seen then seen
                                            else seen ++ [k]) l seen)
             <-> In k seen \/ In k l).
  { intros k. rewrite H. cbn. tauto. }
  induction l as [| x l IH]; intros seen k; cbn; [tauto |].
  rewrite IH. destruct (existsb (eqb x) seen) eqn:Hx.
  - apply existsb_exists in Hx as (y & Hy & Hxy). apply Heqb in Hxy. subst y.
    split; [tauto |]. intros [Hk | [<- | Hk]]; auto.
  - rewrite in_app_iff. cbn. tauto.
Qed.

Lemma group_In {K R : Type} (eqb : K -> K -> bool) (key : Book -> K)
    (row : K -> list Book -> R) (docs : list Book) :
  (forall x y, eqb x y = true <-> x = y) ->
  forall r, In r (group eqb key row docs) <->
            exists d, In d docs
                      /\ r = row (key d)
                             (List.filter (fun d' => eqb (key d') (key d)) docs).
Proof.
  intros Heqb r. unfold group. rewrite in_map_iff. split.
  - intros (k & <- & Hk). apply (proj1 (distinct_In eqb _ Heqb k)) in Hk.
    apply in_map_iff in Hk as (d & <- & Hd). eauto.
  - intros (d & Hd & ->). exists (key d). split; [reflexivity |].
    apply (proj2 (distinct_In eqb _ Heqb (key d))), in_map. exact Hd.
Qed.

Lemma count_desc_total (r s : GenreStat) :
  leb_of (fun r s => CompOpp (gs_count r ?= gs_count s)) r s = false ->
  leb_of (fun r s => CompOpp (gs_count r ?= gs_count s)) s r = true.
Proof.
  unfold leb_of. rewrite (Z.compare_antisym (gs_count r) (gs_count s)).
  destruct (gs_count r ?= gs_count s); cbn; congruence.
Qed.

Lemma year_desc_total (r s : YearStat) :
  leb_of (fun r s => CompOpp (ys_id r ?= ys_id s)) r s = false ->
  leb_of (fun r s => CompOpp (ys_id r ?= ys_id s)) s r = true.
Proof.
  unfold leb_of. rewrite (Z.compare_antisym (ys_id r) (ys_id s)).
  destruct (ys_id r ?= ys_id s); cbn; congruence.
Qed.

Lemma distinct_NoDup {K : Type} (eqb : K -> K -> bool) (l : list K) :
  (forall x y, eqb x y = true <-> x = y) -> NoDup (distinct eqb l).
Proof.
  intros Heqb. unfold distinct.
  enough (H : forall seen, NoDup seen ->
             NoDup (fold_left (fun seen k => if existsb (eqb k) seen then seen
                                             else seen ++ [k]) l seen))
    by (apply H; constructor).
  induction l as [| x l IH]; intros seen Hseen; cbn; [exact Hseen |].
  apply IH. destruct (existsb (eqb x) seen) eqn:Hx; [exact Hseen |].
  apply NoDup_app; [exact Hseen | repeat constructor; intros [] |].
  intros y Hy [Hxy | []]. subst y.
  assert (existsb (eqb x) seen = true); [| congruence].
  apply existsb_exists. exists x. split; [exact Hy | now apply Heqb].
Qed.

Lemma NoDup_firstn {A : Type} (n : nat) (l : list A) :
  NoDup l -> NoDup (firstn n l).
Proof.
  intros H. rewrite <- (firstn_skipn n l) in H.
  now apply NoDup_app_remove_r in H.
Qed.

Lemma year_filter (y : Z) (db : Collection) :
  List.filter (fun d => default_to (publicationYear d) 0 =? y)
    (List.filter (fun d => match publicationYear d with
                           | Some _ => true
                           | None => false
                           end) db)
  = books_of_year y db.
Proof.
  unfold books_of_year. induction db as [| d db IH]; cbn; [reflexivity |].
  destruct (publicationYear d) as [y' |] eqn:Hy; cbn; [| exact IH].
  rewrite Hy. cbn. destruct (y' =? y); now rewrite IH.
Qed.

Lemma Zeqb_iff (x y : Z) : (x =? y) = true <-> x = y.
Proof. apply Z.eqb_eq. Qed.

(** C8 (as amended).  The per-genre breakdown has one row per genre of the
    collection with its number of books, in descending order of count.  The
    per-year breakdown has one row per publication year, most recent year
    first, cut after the ten most recent years: a year of the collection
    either has its row (with its number of books), or ten rows of more
    recent years are listed instead. *)
Theorem stats_breakdowns (db : Collection) :
  StronglySorted (fun r s => gs_count s <= gs_count r)
                 (bookController.genreStats db)
  /\ (forall r, In r (bookController.genreStats db) ->
        gs_count r = Zlength_ (books_of_genre (gs_id r) db))
  /\ (forall d, In d db ->
        exists r, In r (bookController.genreStats db) /\ gs_id r = genre d)
  /\ StronglySorted (fun r s => ys_id s <= ys_id r)
                    (bookController.yearStats db)
  /\ NoDup (List.map ys_id (bookController.yearStats db))
  /\ Zlength_ (bookController.yearStats db) <= 10
  /\ (forall d y, In d db -> publicationYear d = Some y ->
        (exists r, In r (bookController.yearStats db) /\ ys_id r = y
                   /\ ys_count r = Zlength_ (books_of_year y db))
        \/ (Zlength_ (bookController.yearStats db) = 10
            /\ forall r, In r (bookController.yearStats db) -> y < ys_id r)).
Proof.
  unfold bookController.genreStats, bookController.yearStats.
  set (gcmp := fun r s => CompOpp (gs_count r ?= gs_count s)).
  set (ycmp := fun r s => CompOpp (ys_id r ?= ys_id s)).
  set (ggroups := group String.eqb genre _ db).
  set (dated := List.filter _ db).
  set (ygroups := group Z.eqb _ _ dated).
  assert (Hgle : forall r s, leb_of gcmp r s = true -> gs_count s <= gs_count r).
  { intros r s. unfold leb_of, gcmp.
    destruct (Z.compare_spec (gs_count r) (gs_count s)); cbn; intros;
      try lia; try discriminate. }
  assert (Hyle : forall r s, leb_of ycmp r s = true -> ys_id s <= ys_id r).
  { intros r s. unfold leb_of, ycmp.
    destruct (Z.compare_spec (ys_id r) (ys_id s)); cbn; intros;
      try lia; try discriminate. }
  assert (Hysorted : StronglySorted (fun r s => ys_id s <= ys_id r)
                                    (sort_by ycmp ygroups)).
  { apply Sorted_StronglySorted; [intros x y z; lia |].
    apply Sorted_map with (f := fun r => r) (l := sort_by ycmp ygroups)
                          (R := fun r s => leb_of ycmp r s = true) in Hyle.
    - now rewrite map_id in Hyle.
    - apply sort_by_Sorted. exact year_desc_total. }
  assert (Hyrow : forall r, In r (sort_by ycmp ygroups) ->
                    ys_count r = Zlength_ (books_of_year (ys_id r) db)).
  { intros r Hr. apply sort_by_In in Hr.
    apply (group_In Z.eqb _ _ dated Zeqb_iff) in Hr as (d & _ & ->).
    cbn [ys_count ys_id]. unfold sum1, dated. now rewrite year_filter. }
  change (cursor_limit 10 (sort_by ycmp ygroups))
    with (firstn 10 (sort_by ycmp ygroups)).
  repeat apply conj.
  - apply Sorted_StronglySorted; [intros x y z; lia |].
    apply Sorted_map with (f := fun r => r) (l := sort_by gcmp ggroups)
                          (R := fun r s => leb_of gcmp r s = true) in Hgle.
    + now rewrite map_id in Hgle.
    + apply sort_by_Sorted. exact count_desc_total.
  - intros r Hr. apply sort_by_In in Hr.
    apply (group_In String.eqb _ _ db String.eqb_eq) in Hr as (d & _ & ->).
    reflexivity.
  - intros d Hd.
    exists (mkGenreStat (genre d) (sum1 (books_of_genre (genre d) db))
                        (avg_rating (books_of_genre (genre d) db))).
    split; [| reflexivity].
    apply sort_by_In. apply (group_In String.eqb _ _ db String.eqb_eq).
    exists d. split; [exact Hd | reflexivity].
  - apply Sorted_StronglySorted; [intros x y z; lia |].
    apply Sorted_firstn, StronglySorted_Sorted, Hysorted.
  - rewrite <- firstn_map. apply NoDup_firstn.
    apply Permutation_NoDup with (l := List.map ys_id ygroups).
    + apply Permutation_map. symmetry. apply sort_by_perm.
    + unfold ygroups, group. rewrite map_map. cbn. rewrite map_id.
      apply distinct_NoDup, Zeqb_iff.
  - unfold Zlength_. rewrite length_firstn. lia.
  - intros d y Hd Hy.
    set (row := mkYearStat y (sum1 (List.filter
                  (fun d' => default_to (publicationYear d') 0 =? y) dated))).
    assert (Hrow : In row (sort_by ycmp ygroups)).
    { apply sort_by_In. apply (group_In Z.eqb _ _ dated Zeqb_iff).
      exists d. split.
      - apply filter_In. split; [exact Hd | now rewrite Hy].
      - rewrite Hy. reflexivity. }
    rewrite <- (firstn_skipn 10 (sort_by ycmp ygroups)) in Hrow, Hysorted.
    apply in_app_or in Hrow as [Hin | Hout].
    + left. exists row. repeat apply conj; auto.
      apply (Hyrow row).
      rewrite <- (firstn_skipn 10 (sort_by ycmp ygroups)).
      apply in_or_app. now left.
    + destruct (in_dec Z.eq_dec y
                  (List.map ys_id (firstn 10 (sort_by ycmp ygroups))))
        as [Hy10 | Hy10].
      * left. apply in_map_iff in Hy10 as (r & Hr & Hin).
        exists r. repeat apply conj; auto. rewrite <- Hr.
        apply Hyrow. rewrite <- (firstn_skipn 10 (sort_by ycmp ygroups)).
        apply in_or_app. now left.
      * right. split.
        -- unfold Zlength_. rewrite length_firstn.
           assert (List.length (skipn 10 (sort_by ycmp ygroups)) <> 0)%nat
             by (destruct (skipn 10 (sort_by ycmp ygroups)); [destruct Hout | discriminate]).
           rewrite length_skipn in *. lia.
        -- intros r Hr.
           pose proof (StronglySorted_app_Forall _ _ _ Hysorted r row Hr Hout)
             as Hle. cbn in Hle.
           assert (ys_id r <> y); [| lia].
           intros Heq. apply Hy10. rewrite <- Heq. now apply in_map.
Qed.

Lemma stats_breakdowns_witness :
  In (published "x" 2000) eleven_years
  /\ publicationYear (published "x" 2000) = Some 2000
  /\ forall r, In r (bookController.yearStats eleven_years) -> 2000 < ys_id r.
Proof.
  assert (Hin : In (published "x" 2000) eleven_years) by (left; reflexivity).
  split; [exact Hin |]. split; [reflexivity |].
  destruct (stats_breakdowns eleven_years) as (_ & _ & _ & _ & _ & _ & Hyears).
  destruct (Hyears (published "x" 2000) 2000 Hin eq_refl)
    as [(r & Hr & Hid & _) | [_ Hrecent]]; [| exact Hrecent].
  exfalso. vm_compute in Hr.
  repeat (destruct Hr as [<- | Hr]; [discriminate Hid |]).
  exact Hr.
Defined.

(** C8 (as stated) fails on the years: of eleven publication years, 2000
    is the only one with two books, and it is the one left out; the rows are
    the ten most recent years. *)
Lemma year_top10_counterexample :
  Zlength_ (books_of_year 2000 eleven_years) = 2
  /\ bookController.yearStats eleven_years
     = [mkYearStat 2010 1; mkYearStat 2009 1; mkYearStat 2008 1;
        mkYearStat 2007 1; mkYearStat 2006 1; mkYearStat 2005 1;
        mkYearStat 2004 1; mkYearStat 2003 1; mkYearStat 2002 1;
        mkYearStat 2001 1].
Proof. split; vm_compute; reflexivity. Qed.


(** ** The exact model against double precision *)

Lemma In_Zrange (lo hi z : Z) : lo <= z <= hi -> In z (Zrange lo hi).
Proof.
  intros H. unfold Zrange. apply in_map_iff.
  exists (Z.to_nat (z - lo)). split; [lia |].
  apply in_seq. lia.
Qed.

(** Up to 100 reviews with ratings between 1 and 5, the value that
    [Math.round((totalRating / length) * 10)] has in double precision is the
    one of the exact model. *)
Lemma rating_tenths_binary64 (length totalRating : Z) :
  1 <= length <= 100 -> length <= totalRating <= 5 * length ->
  Binary64.rating_tenths totalRating length
  = Some (Math_round ((inject_Z totalRating / inject_Z length) * inject_Z 10)).
Proof.
  intros Hn Ht.
  assert (Hall : forallb (fun n => forallb (rating_agrees n) (Zrange n (5 * n)))
                         (Zrange 1 100) = true)
    by (vm_compute; reflexivity).
  rewrite forallb_forall in Hall.
  specialize (Hall length (In_Zrange _ _ _ Hn)).
  rewrite forallb_forall in Hall.
  specialize (Hall totalRating (In_Zrange _ _ _ Ht)).
  unfold rating_agrees in Hall.
  destruct (Binary64.rating_tenths totalRating length) as [k |];
    [| discriminate].
  apply Z.eqb_eq in Hall. now subst k.
Qed.

(** Up to 1000 books in pages of up to 100, [Math.ceil(totalBooks / limit)]
    has in double precision the value of the exact model. *)
Lemma pages_binary64 (totalBooks limit : Z) :
  1 <= limit <= 100 -> 0 <= totalBooks <= 1000 ->
  Binary64.pages totalBooks limit
  = Some (Math_ceil (inject_Z totalBooks / inject_Z limit)).
Proof.
  intros Hl Hn.
  assert (Hall : forallb (fun l => forallb (pages_agree l) (Zrange 0 1000))
                         (Zrange 1 100) = true)
    by (vm_compute; reflexivity).
  rewrite forallb_forall in Hall.
  specialize (Hall limit (In_Zrange _ _ _ Hl)).
  rewrite forallb_forall in Hall.
  specialize (Hall totalBooks (In_Zrange _ _ _ Hn)).
  unfold pages_agree in Hall.
  destruct (Binary64.pages totalBooks limit) as [k |]; [| discriminate].
  apply Z.eqb_eq in Hall. now subst k.
Qed.

(** * Properties of the rest of the code *)

(** ** Looking up, listing and deleting *)

Lemma status_name_Available (s : Status) :
  String.eqb (status_name s) "Available" = true <-> s = Available.
Proof. destruct s; cbn; split; congruence. Qed.

Lemma findById_persist_other (id : string) (doc : Book) (db : Collection) :
  _id doc <> id -> findById id (persist doc db) = findById id db.
Proof.
  intros Hne. unfold findById, persist.
  induction db as [| d db IH]; cbn; [reflexivity |].
  destruct (String.eqb (_id d) (_id doc)) eqn:Hd.
  - apply String.eqb_eq in Hd.
    assert (String.eqb (_id doc) id = false) as -> by now apply String.eqb_neq.
    assert (String.eqb (_id d) id = false) as ->
      by (apply String.eqb_neq; congruence).
    exact IH.
  - destruct (String.eqb (_id d) id); [reflexivity | exact IH].
Qed.

Lemma persist_length (doc : Book) (db : Collection) :
  List.length (persist doc db) = List.length db.
Proof. unfold persist. apply length_map. Qed.

Lemma persist_In (doc : Book) (db : Collection) (d : Book) :
  In d (persist doc db) ->
  (d = doc /\ exists d0, In d0 db /\ _id d0 = _id doc)
  \/ (In d db /\ _id d <> _id doc).
Proof.
  unfold persist. intros H. apply in_map_iff in H as (d0 & Hd & Hin).
  destruct (String.eqb (_id d0) (_id doc)) eqn:E.
  - left. apply String.eqb_eq in E. split; [congruence | eauto].
  - right. apply String.eqb_neq in E. subst d0. auto.
Qed.

Lemma findById_In (id : string) (db : Collection) (book : Book) :
  findById id db = Some book -> In book db.
Proof. intros H. now apply find_some in H. Qed.

Lemma persist_In_doc (id : string) (doc book : Book) (db : Collection) :
  findById id db = Some book -> _id doc = id -> In doc (persist doc db).
Proof.
  intros Hf Hid. unfold persist. apply in_map_iff.
  exists book. split; [| now apply findById_In with id].
  rewrite (findById_id _ _ _ Hf), Hid. now rewrite String.eqb_refl.
Qed.

Lemma findAvailable_In (db : Collection) (d : Book) :
  In d (statics.findAvailable db)
  <-> In d db /\ status (availability d) = Available /\ 0 < copies d.
Proof.
  unfold statics.findAvailable, find. rewrite filter_In, andb_true_iff.
  rewrite status_name_Available, Z.ltb_lt. unfold copies. tauto.
Qed.

(** The listing of available books holds exactly the books of the
    collection whose status is Available and which have a copy left, best
    rated first, and [count] is their number. *)
Theorem available_listing (db : Collection) :
  exists r,
    bookHandlers.getAvailableBooks db = Json 200 r
    /\ (forall d, In d (a_books r)
                  <-> In d db /\ status (availability d) = Available
                      /\ 0 < copies d)
    /\ Permutation (a_books r) (statics.findAvailable db)
    /\ StronglySorted (fun a b => (averageRating b <= averageRating a)%Q)
                      (a_books r)
    /\ a_count r = Zlength_ (a_books r).
Proof.
  eexists. split; [reflexivity |]. cbn [a_books a_count].
  split; [| split; [| split]].
  - intros d. unfold cursor_sort. rewrite sort_by_In. apply findAvailable_In.
  - apply sort_by_perm.
  - apply rating_sorted.
  - reflexivity.
Qed.

(** Once the last copy of a book has been borrowed through the controller,
    no document with its id is listed as available. *)
Theorem last_copy_borrowed_not_listed (now : Z) (id : string)
    (body : BorrowerInfo) (db db' : Collection) (book book' : Book)
    (r : AvailableList) :
  findById id db = Some book -> copies book = 1 ->
  bookController.borrowBook now id body db = (Json 200 book', db') ->
  bookHandlers.getAvailableBooks db' = Json 200 r ->
  copies book' <= 0
  /\ forall d, In d (a_books r) -> _id d <> id.
Proof.
  intros Hfind Hone Hborrow Hlist.
  unfold bookController.borrowBook in Hborrow. rewrite Hfind in Hborrow.
  destruct (availableCopies (availability book) <=? 0); [discriminate |].
  destruct (List.find _ _); [discriminate |].
  destruct (borrowBook now body book) as [b1 | e] eqn:Hb; [| discriminate].
  injection Hborrow as <- <-.
  apply borrowBook_returns in Hb as (_ & Hc & _ & _ & _ & Hid).
  assert (Hzero : copies b1 <= 0) by lia.
  split; [exact Hzero |].
  injection Hlist as <-. cbn [a_books].
  intros d Hd Heq. unfold cursor_sort in Hd. apply sort_by_In in Hd.
  apply findAvailable_In in Hd as (Hin & _ & Hpos).
  apply persist_In in Hin as [[-> _] | [_ Hne]].
  - lia.
  - apply Hne. rewrite Hid, Heq. symmetry. now apply findById_id with db.
Qed.

Lemma last_copy_borrowed_not_listed_witness :
  exists book' db' r,
    bookController.borrowBook 5 "b1" bob [book_lent] = (Json 200 book', db')
    /\ bookHandlers.getAvailableBooks db' = Json 200 r
    /\ copies book' <= 0
    /\ forall d, In d (a_books r) -> _id d <> "b1".
Proof.
  eexists. eexists. eexists.
  split; [vm_compute; reflexivity |].
  split; [vm_compute; reflexivity |].
  refine (last_copy_borrowed_not_listed 5 "b1" bob [book_lent] _ book_lent _ _
            _ _ _ _).
  - reflexivity.
  - reflexivity.
  - vm_compute. reflexivity.
  - vm_compute. reflexivity.
Defined.

(** A book that has copies at all is listed as available again as soon as
    one of them is returned through the controller, whatever its status
    was. *)
Theorem returned_book_listed (now : Z) (id e : string)
    (db db' : Collection) (book book' : Book) :
  findById id db = Some book -> 0 <= copies book -> 0 < total book ->
  bookController.returnBook now id e db = (Json 200 book', db') ->
  exists r, bookHandlers.getAvailableBooks db' = Json 200 r
            /\ In book' (a_books r).
Proof.
  intros Hfind Hnonneg Htotal Hret.
  unfold bookController.returnBook in Hret. rewrite Hfind in Hret.
  destruct (returnBook now e book) as [b1 | [msg]] eqn:Hb; [| discriminate].
  injection Hret as <- <-.
  apply returnBook_returns in Hb
    as (l1 & x & l2 & _ & _ & _ & _ & Hc & Ht & Hs & Hid).
  eexists. split; [reflexivity |]. cbn [a_books].
  unfold cursor_sort. apply sort_by_In. apply findAvailable_In.
  split; [| split].
  - apply persist_In_doc with id book; [exact Hfind |].
    rewrite Hid. now apply findById_id with db.
  - rewrite Hs. destruct (Z.ltb_spec 0 (copies book + 1)); [reflexivity | lia].
  - lia.
Qed.

Lemma returned_book_listed_witness :
  exists book' db' r,
    bookController.returnBook 5 "b1" "a@x.com" [book_maintenance]
    = (Json 200 book', db')
    /\ bookHandlers.getAvailableBooks db' = Json 200 r
    /\ In book' (a_books r).
Proof.
  destruct (bookController.returnBook 5 "b1" "a@x.com" [book_maintenance])
    as [reply db'] eqn:Hret.
  assert (Hshape : exists book', reply = Json 200 book')
    by (vm_compute in Hret; injection Hret as <- _; eauto).
  destruct Hshape as [book' ->].
  destruct (returned_book_listed 5 "b1" "a@x.com" [book_maintenance] db'
              book_maintenance book') as (r & Hr & Hin).
  - reflexivity.
  - vm_compute. discriminate.
  - vm_compute. reflexivity.
  - exact Hret.
  - exists book', db', r. auto.
Defined.

(** ** What a mutating handler changes *)

Lemma persist_untouched (id : string) (doc : Book) (db : Collection) :
  _id doc = id -> untouched id db (persist doc db).
Proof.
  intros Hid. split; [apply persist_length |].
  intros id' Hne. apply findById_persist_other. congruence.
Qed.

Lemma untouched_refl (id : string) (db : Collection) : untouched id db db.
Proof. split; auto. Qed.

(** The handlers of review, borrow and return change at most the document
    of the requested id: the collection keeps its size and every other id
    still finds the same document.  When they answer with a book, that book
    is what the id finds from then on; when they hand an error to [next],
    the collection is the one they were given. *)
Theorem handlers_touch_one_book (now : Z) (id : string) (db : Collection) :
  (forall body reply db',
      bookController.addReview now id body db = (reply, db') ->
      untouched id db db'
      /\ (forall code book', reply = Json code book' ->
            bookHandlers.getBookById id db' = Json 200 book')
      /\ (forall err, reply = Next err -> db' = db))
  /\ (forall body reply db',
      bookController.borrowBook now id body db = (reply, db') ->
      untouched id db db'
      /\ (forall code book', reply = Json code book' ->
            bookHandlers.getBookById id db' = Json 200 book')
      /\ (forall err, reply = Next err -> db' = db))
  /\ (forall email reply db',
      bookController.returnBook now id email db = (reply, db') ->
      untouched id db db'
      /\ (forall code book', reply = Json code book' ->
            bookHandlers.getBookById id db' = Json 200 book')
      /\ (forall err, reply = Next err -> db' = db)).
Proof.
  assert (Hok : forall book book',
             findById id db = Some book -> _id book' = _id book ->
             untouched id db (persist book' db)
             /\ bookHandlers.getBookById id (persist book' db) = Json 200 book').
  { intros book book' Hfind Hid.
    assert (Hid' : _id book' = id)
      by (rewrite Hid; now apply findById_id with db).
    split; [now apply persist_untouched |].
    unfold bookHandlers.getBookById.
    now rewrite (findById_persist id db book book' Hfind Hid'). }
  split; [| split].
  - intros body reply db'. unfold bookController.addReview.
    destruct (findById id db) as [book |] eqn:Hfind.
    + intros H. injection H as <- <-.
      destruct (Hok book (addReview now body book) eq_refl) as [Hu Hget].
      { unfold addReview. now rewrite id_save. }
      split; [exact Hu |]. split; [| discriminate].
      intros code book' H. injection H as _ <-. exact Hget.
    + intros H. injection H as <- <-.
      split; [apply untouched_refl |]. split; [discriminate | auto].
  - intros body reply db'. unfold bookController.borrowBook.
    destruct (findById id db) as [book |] eqn:Hfind.
    + destruct (availableCopies (availability book) <=? 0).
      { intros H. injection H as <- <-.
        split; [apply untouched_refl |]. split; [discriminate | auto]. }
      destruct (List.find _ _).
      { intros H. injection H as <- <-.
        split; [apply untouched_refl |]. split; [discriminate | auto]. }
      destruct (borrowBook now body book) as [b1 | e] eqn:Hb.
      * intros H. injection H as <- <-.
        apply borrowBook_returns in Hb as (_ & _ & _ & _ & _ & Hid).
        destruct (Hok book b1 eq_refl Hid) as [Hu Hget].
        split; [exact Hu |]. split; [| discriminate].
        intros code book' H. injection H as _ <-. exact Hget.
      * intros H. injection H as <- <-.
        split; [apply untouched_refl |]. split; discriminate.
    + intros H. injection H as <- <-.
      split; [apply untouched_refl |]. split; [discriminate | auto].
  - intros email reply db'. unfold bookController.returnBook.
    destruct (findById id db) as [book |] eqn:Hfind.
    + destruct (returnBook now email book) as [b1 | [msg]] eqn:Hb.
      * intros H. injection H as <- <-.
        apply returnBook_returns in Hb
          as (l1 & x & l2 & _ & _ & _ & _ & _ & _ & _ & Hid).
        destruct (Hok book b1 eq_refl Hid) as [Hu Hget].
        split; [exact Hu |]. split; [| discriminate].
        intros code book' H. injection H as _ <-. exact Hget.
      * intros H. injection H as <- <-.
        split; [apply untouched_refl |]. split; [discriminate | auto].
    + intros H. injection H as <- <-.
      split; [apply untouched_refl |]. split; [discriminate | auto].
Qed.

Lemma handlers_touch_one_book_witness :
  exists book' db',
    bookController.borrowBook 5 "C" alice (shelf 4) = (Json 200 book', db')
    /\ bookHandlers.getBookById "C" db' = Json 200 book'
    /\ findById "B" db' = findById "B" (shelf 4).
Proof.
  destruct (bookController.borrowBook 5 "C" alice (shelf 4))
    as [reply db'] eqn:Hb.
  assert (Hshape : exists book', reply = Json 200 book')
    by (vm_compute in Hb; injection Hb as <- _; eauto).
  destruct Hshape as [book' ->].
  destruct (handlers_touch_one_book 5 "C" (shelf 4)) as (_ & Hborrow & _).
  destruct (Hborrow alice _ _ Hb) as ([_ Hother] & Hget & _).
  exists book', db'. split; [reflexivity |]. split.
  - apply (Hget 200). reflexivity.
  - apply Hother. discriminate.
Defined.

(** ** Deleting *)

Lemma remove_first_length {A : Type} (p : A -> bool) (l : list A) (x : A) :
  List.find p l = Some x ->
  S (List.length (remove_first p l)) = List.length l.
Proof.
  induction l as [| a l IH]; cbn; [discriminate |].
  destruct (p a); [reflexivity |]. intros H. cbn. now rewrite IH.
Qed.

Lemma remove_first_In {A : Type} (p : A -> bool) (l : list A) (x : A) :
  In x (remove_first p l) -> In x l.
Proof.
  induction l as [| a l IH]; cbn; [auto |].
  destruct (p a); cbn; intuition.
Qed.

Lemma findById_remove_other (id id' : string) (db : Collection) :
  id' <> id ->
  findById id' (remove_first (fun d => String.eqb (_id d) id) db)
  = findById id' db.
Proof.
  intros Hne. unfold findById.
  induction db as [| d db IH]; cbn; [reflexivity |].
  destruct (String.eqb (_id d) id) eqn:Hd; cbn.
  - apply String.eqb_eq in Hd.
    assert (String.eqb (_id d) id' = false) as ->
      by (apply String.eqb_neq; congruence).
    reflexivity.
  - destruct (String.eqb (_id d) id'); [reflexivity | exact IH].
Qed.

Lemma findById_remove_same (id : string) (db : Collection) :
  unique_ids db ->
  findById id (remove_first (fun d => String.eqb (_id d) id) db) = None.
Proof.
  unfold unique_ids, findById.
  induction db as [| d db IH]; cbn; intros Hnd; [reflexivity |].
  inversion Hnd as [| ? ? Hnotin Hnd']; subst.
  destruct (String.eqb (_id d) id) eqn:Hd; cbn.
  - apply String.eqb_eq in Hd. subst id.
    destruct (List.find _ db) as [d' |] eqn:Hf; [| reflexivity].
    apply find_some in Hf as [Hin Heq]. apply String.eqb_eq in Heq.
    exfalso. apply Hnotin. rewrite <- Heq. now apply in_map.
  - rewrite Hd. now apply IH.
Qed.

Lemma unique_ids_remove (p : Book -> bool) (db : Collection) :
  unique_ids db -> unique_ids (remove_first p db).
Proof.
  unfold unique_ids. induction db as [| d db IH]; cbn; intros Hnd; [exact Hnd |].
  inversion Hnd as [| ? ? Hnotin Hnd']; subst.
  destruct (p d); [exact Hnd' |]. cbn. constructor; [| now apply IH].
  intros Hin. apply Hnotin. apply in_map_iff in Hin as (d' & Heq & Hd').
  apply in_map_iff. exists d'. split; [exact Heq |].
  now apply remove_first_In in Hd'.
Qed.

(** Deleting an id that finds no book answers 404 "Book not found" and
    leaves the collection as it is.  Deleting one that finds a book takes
    one document out and leaves every other id as it was; in a collection
    with distinct ids the id then finds nothing, so that reading it or
    deleting it again answers 404. *)
Theorem delete_book (id : string) (db : Collection) :
  (findById id db = None ->
     bookHandlers.deleteBook id db = (Next (mkAppError "Book not found" 404), db))
  /\ (forall book, findById id db = Some book ->
      exists db',
        bookHandlers.deleteBook id db = (Json 200 "Book deleted successfully", db')
        /\ S (List.length db') = List.length db
        /\ (forall d, In d db' -> In d db)
        /\ (forall id', id' <> id -> findById id' db' = findById id' db)
        /\ (unique_ids db ->
            unique_ids db'
            /\ bookHandlers.getBookById id db'
               = Next (mkAppError "Book not found" 404)
            /\ bookHandlers.deleteBook id db'
               = (Next (mkAppError "Book not found" 404), db'))).
Proof.
  unfold bookHandlers.deleteBook. split.
  - intros ->. reflexivity.
  - intros book Hfind. rewrite Hfind. eexists. split; [reflexivity |].
    split; [now apply remove_first_length with book |].
    split; [intros d; apply remove_first_In |].
    split; [intros id' Hne; now apply findById_remove_other |].
    intros Hu. split; [now apply unique_ids_remove |].
    unfold bookHandlers.getBookById.
    rewrite (findById_remove_same id db Hu). auto.
Qed.

Lemma delete_book_witness :
  exists db',
    bookHandlers.deleteBook "B" (shelf 3)
    = (Json 200 "Book deleted successfully", db')
    /\ List.map _id db' = ["A"; "C"]
    /\ bookHandlers.deleteBook "B" db'
       = (Next (mkAppError "Book not found" 404), db')
    /\ bookHandlers.deleteBook "q" (shelf 3)
       = (Next (mkAppError "Book not found" 404), shelf 3).
Proof.
  destruct (delete_book "B" (shelf 3)) as [_ Hsome].
  destruct (delete_book "q" (shelf 3)) as [Hnone _].
  destruct (Hsome (create 1 "B" "B" "Ann" "Fiction" 1 1))
    as (db' & Hdel & _ & _ & _ & Hu); [vm_compute; reflexivity |].
  destruct Hu as (_ & _ & Hagain).
  { unfold unique_ids. vm_compute.
    repeat constructor; cbn; intuition discriminate. }
  exists db'. repeat apply conj; auto.
  vm_compute in Hdel. injection Hdel as <-. reflexivity.
Defined.

(** ** Statistics *)

Lemma sum_status_count (s : string) (docs : list Book) :
  sum_status s docs
  = Zlength_ (List.filter
                (fun d => String.eqb (status_name (status (availability d))) s)
                docs).
Proof.
  unfold sum_status.
  enough (H : forall a,
             fold_left (fun acc d =>
                          acc + (if String.eqb
                                      (status_name (status (availability d))) s
                                 then 1 else 0)) docs a
             = a + Zlength_ (List.filter
                    (fun d => String.eqb (status_name (status (availability d))) s)
                    docs)) by (rewrite H; lia).
  induction docs as [| d docs IH]; intros a; cbn [fold_left List.filter].
  - change (Zlength_ (@nil Book)) with 0. lia.
  - rewrite IH. destruct (String.eqb _ s); [rewrite Zlength_cons |]; lia.
Qed.

Lemma filter_disjoint_length {A : Type} (p q : A -> bool) (l : list A) :
  (forall x, p x = true -> q x = true -> False) ->
  Zlength_ (List.filter p l) + Zlength_ (List.filter q l) <= Zlength_ l.
Proof.
  intros Hpq. induction l as [| x l IH]; cbn [List.filter].
  - change (Zlength_ (@nil A)) with 0. lia.
  - rewrite (Zlength_cons x l).
    destruct (p x) eqn:Hp, (q x) eqn:Hq; rewrite ?Zlength_cons; try lia.
    exfalso. eauto.
Qed.

Lemma total_count_perm (l l' : list Z) :
  Permutation l l' -> total_count l = total_count l'.
Proof. induction 1; cbn; lia. Qed.

Lemma indicator_once {K : Type} (eqb : K -> K -> bool) (ks : list K) (a : K) :
  (forall x y, eqb x y = true <-> x = y) -> NoDup ks -> In a ks ->
  total_count (List.map (fun k => if eqb a k then 1 else 0) ks) = 1.
Proof.
  intros Heqb Hnd. induction Hnd as [| k ks Hnotin Hnd IH]; cbn; [contradiction |].
  intros [-> | Hin].
  - assert (eqb a a = true) as -> by now apply Heqb.
    enough (total_count (List.map (fun k => if eqb a k then 1 else 0) ks) = 0)
      by lia.
    clear IH Hnd. induction ks as [| k ks IH]; cbn; [reflexivity |].
    destruct (eqb a k) eqn:E.
    + apply Heqb in E. subst k. exfalso. apply Hnotin. now left.
    + rewrite IH; [reflexivity |]. intros H. apply Hnotin. now right.
  - destruct (eqb a k) eqn:E.
    + apply Heqb in E. subst k. contradiction.
    + rewrite (IH Hin). reflexivity.
Qed.

Lemma counts_partition {K : Type} (eqb : K -> K -> bool) (key : Book -> K)
    (ks : list K) (docs : list Book) :
  (forall x y, eqb x y = true <-> x = y) -> NoDup ks ->
  (forall d, In d docs -> In (key d) ks) ->
  total_count
    (List.map (fun k => Zlength_ (List.filter (fun d => eqb (key d) k) docs)) ks)
  = Zlength_ docs.
Proof.
  intros Heqb Hnd. induction docs as [| x docs IH]; intros Hin.
  - cbn. change (Zlength_ (@nil Book)) with 0.
    clear. induction ks; cbn; lia.
  - rewrite Zlength_cons. rewrite <- IH by (intros d Hd; apply Hin; now right).
    rewrite <- (indicator_once eqb ks (key x) Heqb Hnd)
      by (apply Hin; now left).
    clear. induction ks as [| k ks IHk]; cbn [List.map total_count];
      [reflexivity |].
    cbn [List.filter] in *.
    destruct (eqb (key x) k); rewrite ?Zlength_cons; lia.
Qed.

Lemma group_counts {K : Type} (eqb : K -> K -> bool) (key : Book -> K)
    (R : Type) (row : K -> list Book -> R) (cnt : R -> Z) (docs : list Book) :
  (forall x y, eqb x y = true <-> x = y) ->
  (forall k l, cnt (row k l) = Zlength_ l) ->
  total_count (List.map cnt (group eqb key row docs)) = Zlength_ docs.
Proof.
  intros Heqb Hcnt. unfold group. rewrite map_map.
  rewrite (map_ext _ (fun k => Zlength_ (List.filter (fun d => eqb (key d) k) docs)))
    by (intros k; apply Hcnt).
  apply counts_partition; [exact Heqb | now apply distinct_NoDup |].
  intros d Hd. apply (proj2 (distinct_In eqb _ Heqb (key d))). now apply in_map.
Qed.

Lemma total_count_firstn (n : nat) (l : list Z) :
  (forall x, In x l -> 0 <= x) -> 0 <= total_count (firstn n l) <= total_count l.
Proof.
  revert n. induction l as [| x l IH]; intros n Hpos.
  - rewrite firstn_nil. cbn. lia.
  - destruct n as [| n]; cbn.
    + assert (0 <= x) by (apply Hpos; now left).
      specialize (IH 0%nat (fun y Hy => Hpos y (or_intror Hy))).
      cbn in IH. lia.
    + assert (0 <= x) by (apply Hpos; now left).
      specialize (IH n (fun y Hy => Hpos y (or_intror Hy))).
      lia.
Qed.

(** The overview of the statistics counts the collection: [totalBooks] is
    its size, [availableBooks] and [borrowedBooks] are the numbers of books
    of the two statuses, so that together they never exceed [totalBooks];
    an empty collection gives the row of zeros. *)
Theorem stats_overview (db : Collection) :
  bookHandlers.getBookStats []
  = Json 200 (mkStats (mkOverview 0 0 0 (inject_Z 0) 0) [] [])
  /\ exists s,
    bookHandlers.getBookStats db = Json 200 s
    /\ o_totalBooks (overview s) = Zlength_ db
    /\ availableBooks (overview s)
       = Zlength_ (List.filter
                     (fun d => Status_eqb (status (availability d)) Available) db)
    /\ borrowedBooks (overview s)
       = Zlength_ (List.filter
                     (fun d => Status_eqb (status (availability d)) Borrowed) db)
    /\ 0 <= availableBooks (overview s)
    /\ 0 <= borrowedBooks (overview s)
    /\ availableBooks (overview s) + borrowedBooks (overview s)
       <= o_totalBooks (overview s).
Proof.
  split; [reflexivity |].
  eexists. split; [reflexivity |]. cbn [overview].
  assert (Hav : forall l : list Book,
             List.filter (fun d => String.eqb (status_name (status (availability d)))
                                              "Available") l
             = List.filter (fun d => Status_eqb (status (availability d)) Available) l).
  { intros l. apply filter_ext. intros d.
    destruct (status (availability d)); reflexivity. }
  assert (Hbo : forall l : list Book,
             List.filter (fun d => String.eqb (status_name (status (availability d)))
                                              "Borrowed") l
             = List.filter (fun d => Status_eqb (status (availability d)) Borrowed) l).
  { intros l. apply filter_ext. intros d.
    destruct (status (availability d)); reflexivity. }
  destruct db as [| d db].
  - cbn. repeat apply conj; try reflexivity; lia.
  - cbn [bookHandlers.overview_rows o_totalBooks availableBooks borrowedBooks].
    rewrite !sum_status_count, Hav, Hbo. unfold sum1.
    pose proof (filter_disjoint_length
                  (fun d => Status_eqb (status (availability d)) Available)
                  (fun d => Status_eqb (status (availability d)) Borrowed)
                  (d :: db)) as Hdis.
    pose proof (Zlength_nonneg (List.filter
                  (fun d => Status_eqb (status (availability d)) Available)
                  (d :: db))).
    pose proof (Zlength_nonneg (List.filter
                  (fun d => Status_eqb (status (availability d)) Borrowed)
                  (d :: db))).
    repeat apply conj; try reflexivity; try lia.
    apply Hdis. intros x. destruct (status (availability x)); discriminate.
Qed.

(** The per-genre counts of the statistics add up to [totalBooks]: every
    book is counted under exactly one genre.  The per-year counts add up to
    at most [totalBooks], books without a year and years beyond the ten
    listed being left out. *)
Theorem stats_counts_add_up (db : Collection) :
  exists s,
    bookHandlers.getBookStats db = Json 200 s
    /\ total_count (List.map gs_count (genreDistribution s))
       = o_totalBooks (overview s)
    /\ 0 <= total_count (List.map ys_count (recentPublications s))
       <= o_totalBooks (overview s).
Proof.
  eexists. split; [reflexivity |].
  cbn [overview genreDistribution recentPublications].
  assert (Htotal : o_totalBooks (match bookHandlers.overview_rows db with
                                 | row :: _ => row
                                 | [] => mkOverview 0 0 0 (inject_Z 0) 0
                                 end) = Zlength_ db)
    by (destruct db; reflexivity).
  rewrite Htotal. split.
  - unfold bookController.genreStats.
    rewrite (total_count_perm _ _
               (Permutation_map gs_count (sort_by_perm _ _))).
    apply group_counts; [exact String.eqb_eq | reflexivity].
  - unfold bookController.yearStats.
    set (dated := List.filter _ db).
    set (sorted := sort_by _ _).
    change (cursor_limit 10 sorted) with (firstn 10 sorted).
    rewrite <- firstn_map.
    assert (Hsum : total_count (List.map ys_count sorted) = Zlength_ dated).
    { unfold sorted.
      rewrite (total_count_perm _ _
                 (Permutation_map ys_count (sort_by_perm _ _))).
      apply group_counts; [exact Zeqb_iff | reflexivity]. }
    assert (Hpos : forall x, In x (List.map ys_count sorted) -> 0 <= x).
    { intros x Hx. apply in_map_iff in Hx as (r & <- & Hr).
      unfold sorted in Hr. apply sort_by_In in Hr.
      apply (group_In Z.eqb _ _ dated Zeqb_iff) in Hr as (d & _ & ->).
      cbn. apply Zlength_nonneg. }
    pose proof (total_count_firstn 10 _ Hpos) as Hfirst.
    assert (Zlength_ dated <= Zlength_ db).
    { unfold dated, Zlength_. pose proof (filter_length_le
        (fun d => match publicationYear d with Some _ => true | None => false end)
        db). lia. }
    lia.
Qed.

(** ** Advanced search *)

Lemma filter_length_impl {A : Type} (p q : A -> bool) (l : list A) :
  (forall x, p x = true -> q x = true) ->
  Zlength_ (List.filter p l) <= Zlength_ (List.filter q l).
Proof.
  intros Hpq. induction l as [| x l IH]; cbn [List.filter]; [lia |].
  destruct (p x) eqn:Hp.
  - rewrite (Hpq x Hp), !Zlength_cons. lia.
  - destruct (q x); rewrite ?Zlength_cons; lia.
Qed.

Lemma Zlength_cursor_limit_le {A : Type} (n : Z) (l : list A) :
  Zlength_ (cursor_limit n l) <= Zlength_ l.
Proof.
  unfold cursor_limit. destruct (n =? 0); [lia |].
  unfold Zlength_. rewrite length_firstn. lia.
Qed.

Lemma title_asc_total (x y : Book) :
  leb_of (compare_by [("title", 1)]) x y = false ->
  leb_of (compare_by [("title", 1)]) y x = true.
Proof.
  unfold leb_of.
  change (compare_by [("title", 1)] x y)
    with (match String.compare (title x) (title y) with Eq => Eq | c => c end).
  change (compare_by [("title", 1)] y x)
    with (match String.compare (title y) (title x) with Eq => Eq | c => c end).
  rewrite (String.compare_antisym (title x) (title y)).
  destruct (String.compare (title y) (title x)); cbn; congruence.
Qed.

Lemma title_asc_leb (x y : Book) :
  leb_of (compare_by [("title", 1)]) x y = true ->
  String.leb (title x) (title y) = true.
Proof.
  unfold leb_of, String.leb.
  change (compare_by [("title", 1)] x y)
    with (match String.compare (title x) (title y) with Eq => Eq | c => c end).
  destruct (String.compare (title x) (title y)); congruence.
Qed.

Lemma pattern_compiles (ok : string -> bool) (o : option string) :
  (forall a, o = Some a -> a <> "" -> ok a = true) ->
  (truthy o && negb (ok (default_to o "")))%bool = false.
Proof.
  intros H. destruct o as [a |]; cbn; [| reflexivity].
  destruct (String.eqb_spec a "") as [| Hne]; cbn; [reflexivity |].
  now rewrite (H a eq_refl Hne).
Qed.

Lemma pattern_refused (ok : string -> bool) (o : option string) (a : string) :
  o = Some a -> a <> "" -> ok a = false ->
  (truthy o && negb (ok (default_to o "")))%bool = true.
Proof.
  intros -> Hne Hok. cbn. rewrite Hok.
  apply String.eqb_neq in Hne. now rewrite Hne.
Qed.

(** An advanced search whose [author] pattern compiles and whose
    [(page - 1) * limit] is not negative answers with books of the
    collection that pass every filter the request names, at most [limit] of
    them when [limit] is not 0 (10 by default), in ascending order of title
    when the request names no sort.
    [totalResults] counts the text matches alone (the whole collection
    without a query), so it is never less than the number of books
    returned.  An [author] pattern that [new RegExp] cannot compile makes
    the search fail with its [SyntaxError], one that the store cannot
    compile with the store's error, and neither is answered. *)
Theorem advanced_search (text_match : string -> Book -> bool)
    (RegExp_ok regex_ok : string -> bool)
    (regex_i : string -> string -> bool) (q : Query) (db : Collection) :
  let page := default_to (q_page q) 1 in
  let lim := default_to (q_limit q) 10 in
  (0 <= (page - 1) * lim ->
   (forall a, q_author q = Some a -> a <> "" ->
              RegExp_ok a = true /\ regex_ok a = true) ->
   exists r,
    bookHandlers.advancedSearch text_match RegExp_ok regex_ok regex_i q db
    = Json 200 r
    /\ searchParams r = q
    /\ (forall d, In d (s_books r) ->
          In d db
          /\ (forall s, q_query q = Some s -> s <> "" -> text_match s d = true)
          /\ (forall g, q_genre q = Some g -> g <> "" -> g <> "All" ->
                genre d = g)
          /\ (forall a, q_author q = Some a -> a <> "" ->
                regex_i a (author d) = true)
          /\ (forall lo, q_minYear q = Some lo ->
                exists y, publicationYear d = Some y /\ lo <= y)
          /\ (forall hi, q_maxYear q = Some hi ->
                exists y, publicationYear d = Some y /\ y <= hi)
          /\ (forall m, q_minRating q = Some m -> (m <= averageRating d)%Q)
          /\ (forall s, q_availability q = Some s -> s <> "" ->
                status_name (status (availability d)) = s))
    /\ (lim <> 0 -> Zlength_ (s_books r) <= Z.abs lim)
    /\ (q_limit q = None -> Zlength_ (s_books r) <= 10)
    /\ (q_sortBy q = None -> q_sortOrder q = None ->
        Sorted (fun a b => String.leb (title a) (title b) = true) (s_books r))
    /\ totalResults r
       = (if truthy (q_query q)
          then Zlength_ (List.filter (text_match (default_to (q_query q) "")) db)
          else Zlength_ db)
    /\ Zlength_ (s_books r) <= totalResults r)
  /\ (forall a, q_author q = Some a -> a <> "" -> RegExp_ok a = false ->
      bookHandlers.advancedSearch text_match RegExp_ok regex_ok regex_i q db
      = Rejected SyntaxError)
  /\ (forall a, q_author q = Some a -> a <> "" -> RegExp_ok a = true ->
      regex_ok a = false ->
      bookHandlers.advancedSearch text_match RegExp_ok regex_ok regex_i q db
      = Rejected MongoError).
Proof.
  intros page lim.
  unfold bookHandlers.advancedSearch, statics.advancedSearch.
  fold page. fold lim. split; [| split].
  - intros Hskip Hvalid.
    rewrite (pattern_compiles RegExp_ok (q_author q))
      by (intros a Ha Hne; apply (Hvalid a Ha Hne)).
    rewrite (pattern_compiles regex_ok (q_author q))
      by (intros a Ha Hne; apply (Hvalid a Ha Hne)).
    unfold cursor_skip, bind.
    destruct (Z.ltb_spec ((page - 1) * lim) 0) as [Hneg | _]; [lia |].
    eexists. split; [reflexivity |]. cbn [s_books totalResults searchParams].
    set (found := find (statics.search_filter text_match regex_i q) db).
    set (sorted := cursor_sort (statics.search_sort q) found).
    assert (Hsub : forall d, In d (cursor_limit lim (skipn (Z.to_nat ((page - 1) * lim)) sorted)) ->
                             In d found).
    { intros d Hd. apply In_cursor_limit in Hd.
      assert (In d sorted).
      { rewrite <- (firstn_skipn (Z.to_nat ((page - 1) * lim)) sorted).
        apply in_or_app. now right. }
      unfold sorted, cursor_sort in *. now apply sort_by_In in H. }
    assert (Hlen : Zlength_ (cursor_limit lim (skipn (Z.to_nat ((page - 1) * lim)) sorted))
                   <= Zlength_ found).
    { etransitivity; [apply Zlength_cursor_limit_le |].
      rewrite Zlength_skipn by lia.
      unfold sorted, cursor_sort, Zlength_ at 1. rewrite sort_by_length.
      fold (Zlength_ found). pose proof (Zlength_nonneg found). lia. }
    split; [reflexivity |]. split; [| split; [| split; [| split; [| split]]]].
    + intros d Hd. apply Hsub in Hd. unfold found, find in Hd.
      apply filter_In in Hd as [Hin Hf]. split; [exact Hin |].
      unfold statics.search_filter in Hf.
      repeat (apply andb_prop in Hf; destruct Hf as [Hf ?]).
      repeat apply conj.
      * intros s Hs Hne. rewrite Hs in Hf. cbn in Hf.
        apply String.eqb_neq in Hne. now rewrite Hne in Hf.
      * intros g Hg Hne Hall. rewrite Hg in *. cbn in *.
        apply String.eqb_neq in Hne, Hall. rewrite Hne, Hall in *. cbn in *.
        now apply String.eqb_eq.
      * intros a Ha Hne. rewrite Ha in *. cbn in *.
        apply String.eqb_neq in Hne. now rewrite Hne in *.
      * intros lo Hlo. rewrite Hlo in *.
        destruct (publicationYear d) as [y |].
        -- exists y. split; [reflexivity |].
          match goal with
          | Hy : (_ && _)%bool = true |- _ => apply andb_prop in Hy as [Hy _]
          end. lia.
        -- destruct (q_maxYear q); discriminate.
      * intros hi Hhi. rewrite Hhi in *.
        destruct (publicationYear d) as [y |].
        -- exists y. split; [reflexivity |].
          destruct (q_minYear q);
            match goal with
            | Hy : (_ && _)%bool = true |- _ => apply andb_prop in Hy as [_ Hy]
            end; lia.
        -- destruct (q_minYear q); discriminate.
      * intros m Hm. rewrite Hm in *. now apply Qle_bool_iff.
      * intros s Hs Hne. rewrite Hs in *. cbn in *.
        apply String.eqb_neq in Hne. rewrite Hne in *. cbn in *.
        now apply String.eqb_eq.
    + intros Hnz. now apply Zlength_cursor_limit.
    + intros Hnone. pose proof (Zlength_cursor_limit lim
        (skipn (Z.to_nat ((page - 1) * lim)) sorted)) as H.
      unfold lim in *. rewrite Hnone in *. cbn in *. apply H. discriminate.
    + intros Hby Hord. unfold sorted, statics.search_sort. rewrite Hby, Hord.
      cbn [default_to]. change (String.eqb "asc" "desc") with false. cbv iota.
      apply Sorted_cursor_limit.
      set (l := cursor_sort [("title", 1)] found).
      assert (Hs : Sorted (fun a b => String.leb (title a) (title b) = true) l).
      { pose proof (Sorted_map
                      (fun x y => leb_of (compare_by [("title", 1)]) x y = true)
                      (fun a b => String.leb (title a) (title b) = true)
                      (fun d => d) l title_asc_leb) as H.
        rewrite map_id in H. apply H.
        apply sort_by_Sorted. exact title_asc_total. }
      clearbody l. clear - Hs.
      generalize (Z.to_nat ((page - 1) * lim)) as n.
      induction Hs as [| x l Hs IH Hhd]; intros n.
      * rewrite skipn_nil. constructor.
      * destruct n as [| n]; cbn; [now constructor | apply IH].
    + unfold countDocuments. destruct (truthy (q_query q)); [reflexivity |].
      f_equal. clear. induction db as [| d db IH]; cbn; congruence.
    + etransitivity; [exact Hlen |]. unfold countDocuments, found, find.
      destruct (truthy (q_query q)) eqn:Hq.
      * apply filter_length_impl. intros d Hd.
        unfold statics.search_filter in Hd. rewrite Hq in Hd.
        repeat (apply andb_prop in Hd; destruct Hd as [Hd ?]). exact Hd.
      * apply filter_length_impl. reflexivity.
  - intros a Ha Hne Hjs.
    now rewrite (pattern_refused RegExp_ok _ a Ha Hne Hjs).
  - intros a Ha Hne Hjs Hstore.
    rewrite (pattern_compiles RegExp_ok (q_author q)).
    + now rewrite (pattern_refused regex_ok _ a Ha Hne Hstore).
    + intros a' Ha'. rewrite Ha in Ha'. now injection Ha' as <-.
Qed.

Lemma advanced_search_witness :
  (exists r,
    bookHandlers.advancedSearch any_text compiles compiles no_regex
      (mkQuery None (Some "Fiction") None None None None None None None None
               None None None None) two_titles
    = Json 200 r
    /\ List.map title (s_books r) = ["B"; "C"]
    /\ totalResults r = 3)
  /\ bookHandlers.advancedSearch any_text compiles compiles no_regex
       unclosed_author two_titles
     = Rejected SyntaxError.
Proof.
  split.
  - destruct (advanced_search any_text compiles compiles no_regex
                (mkQuery None (Some "Fiction") None None None None None None
                         None None None None None None) two_titles)
      as [Hanswer _].
    destruct Hanswer as (r & Hr & _);
      [vm_compute; discriminate | discriminate |].
    exists r. split; [exact Hr |].
    vm_compute in Hr. injection Hr as <-. split; reflexivity.
  - destruct (advanced_search any_text compiles compiles no_regex
                unclosed_author two_titles)
      as (_ & Hjs & _).
    apply (Hjs "("); [reflexivity | discriminate | reflexivity].
Defined.

(** ** Invariants of the document *)

(** Every save leaves [availableCopies <= totalCopies], whatever the
    document was; so do review, borrow and return, and a successful borrow
    or return of a document with non-negative counts leaves
    [availableCopies] non-negative. *)
Theorem copies_stay_within_total (now : Z) (b : Book) :
  copies (save now b) <= total (save now b)
  /\ (forall review, copies (addReview now review b)
                     <= total (addReview now review b))
  /\ (forall info b', borrowBook now info b = Return b' ->
        copies b' <= total b' /\ (0 <= total b -> 0 <= copies b'))
  /\ (forall e b', returnBook now e b = Return b' ->
        copies b' <= total b'
        /\ (0 <= copies b -> 0 <= total b -> 0 <= copies b')).
Proof.
  split; [| split; [| split]].
  - rewrite copies_save, total_save. lia.
  - intros review. unfold addReview. rewrite copies_save, total_save. lia.
  - intros info b' H.
    apply borrowBook_returns in H as (Hpos & Hc & Ht & _). lia.
  - intros e b' H.
    apply returnBook_returns in H as (l1 & x & l2 & _ & _ & _ & _ & Hc & Ht & _).
    lia.
Qed.

Lemma copies_stay_within_total_witness :
  exists b', borrowBook 1 alice book_over = Return b'
             /\ copies b' <= total b' /\ 0 <= copies b'.
Proof.
  destruct (borrowBook 1 alice book_over) as [b' | e] eqn:Hb;
    [| vm_compute in Hb; discriminate].
  exists b'. split; [reflexivity |].
  destruct (copies_stay_within_total 1 book_over) as (_ & _ & Hborrow & _).
  destruct (Hborrow alice b' Hb) as [Hle Hge].
  split; [exact Hle | apply Hge; vm_compute; discriminate].
Defined.

Lemma email_not_in_ledger (e : string) (l : list Borrow) :
  List.find (fun borrow => String.eqb (email borrow) e) l = None ->
  ~ In e (List.map email l).
Proof.
  intros Hf Hin. apply in_map_iff in Hin as (x & Hx & Hin).
  pose proof (find_none _ _ Hf x Hin) as H. cbn in H.
  apply String.eqb_neq in H. contradiction.
Qed.

(** The ledger keeps one entry per email: a borrow through the controller
    and a return never make two entries share an email, the controller's
    borrow adds exactly the borrower's entry at the end, and after a return
    the email has no entry left. *)
Theorem ledger_one_entry_per_email (now : Z) (b : Book) :
  one_entry_per_email b ->
  (forall id body db book' db',
      findById id db = Some b ->
      bookController.borrowBook now id body db = (Json 200 book', db') ->
      one_entry_per_email book'
      /\ ledger book' = ledger b ++ [new_entry now body]
      /\ ~ In (req_email body) (List.map email (ledger b)))
  /\ (forall e b', returnBook now e b = Return b' ->
      one_entry_per_email b'
      /\ ~ In e (List.map email (ledger b'))
      /\ Zlength_ (ledger b') = Zlength_ (ledger b) - 1).
Proof.
  unfold one_entry_per_email. intros Hnd. split.
  - intros id body db book' db' Hfind H.
    unfold bookController.borrowBook in H. rewrite Hfind in H.
    destruct (availableCopies (availability b) <=? 0); [discriminate |].
    destruct (List.find _ _) eqn:Hf; [discriminate |].
    destruct (borrowBook now body b) as [b1 | e] eqn:Hb; [| discriminate].
    injection H as <- <-.
    apply borrowBook_returns in Hb as (_ & _ & _ & Hl & _).
    apply email_not_in_ledger in Hf. fold (ledger b) in Hf.
    repeat apply conj; auto.
    rewrite Hl, map_app. cbn.
    apply NoDup_app; [exact Hnd | repeat constructor; intros [] |].
    intros x Hx [<- | []]. contradiction.
  - intros e b' H.
    apply returnBook_returns in H
      as (l1 & x & l2 & Hl & Hx & Hl1 & Hl' & _).
    rewrite Hl, map_app in Hnd. cbn in Hnd.
    pose proof (NoDup_remove_1 _ _ _ Hnd) as Hnd'.
    pose proof (NoDup_remove_2 _ _ _ Hnd) as Hnotin.
    rewrite Hl', map_app. repeat apply conj.
    + exact Hnd'.
    + now rewrite <- Hx.
    + rewrite Hl, !Zlength_app, Zlength_cons. lia.
Qed.

Lemma ledger_one_entry_per_email_witness :
  one_entry_per_email book_lent
  /\ exists b', returnBook 5 "a@x.com" book_lent = Return b'
                /\ ~ In "a@x.com" (List.map email (ledger b')).
Proof.
  assert (H : one_entry_per_email book_lent)
    by (unfold one_entry_per_email; vm_compute; repeat constructor; intros []).
  split; [exact H |].
  destruct (returnBook 5 "a@x.com" book_lent) as [b' | e] eqn:Hr;
    [| vm_compute in Hr; discriminate].
  exists b'. split; [reflexivity |].
  destruct (ledger_one_entry_per_email 5 book_lent H) as [_ Hret].
  now destruct (Hret "a@x.com" b' Hr) as (_ & Hnot & _).
Defined.

(** A borrow followed by the return of the same borrower undoes itself: for
    a document with [availableCopies] between 1 and [totalCopies] and no
    entry of that email, both succeed and the ledger, the counts and the
    reviews are those before; the status ends as Available. *)
Theorem borrow_then_return (now now' : Z) (info : BorrowerInfo) (b : Book) :
  0 < copies b <= total b ->
  (forall x, In x (ledger b) -> email x <> req_email info) ->
  exists b1 b2,
    borrowBook now info b = Return b1
    /\ returnBook now' (req_email info) b1 = Return b2
    /\ ledger b2 = ledger b
    /\ copies b2 = copies b
    /\ total b2 = total b
    /\ reviews b2 = reviews b
    /\ status (availability b2) = Available.
Proof.
  intros [Hpos Hle] Hfresh.
  destruct (borrowBook_succeeds now info b Hpos) as [b1 Hb1].
  pose proof Hb1 as Hb1'.
  apply borrowBook_returns in Hb1' as (_ & Hc1 & Ht1 & Hl1 & _).
  assert (Hin : In (new_entry now info) (ledger b1))
    by (rewrite Hl1; apply in_or_app; right; now left).
  destruct (returnBook_succeeds now' (req_email info) b1 _ Hin eq_refl)
    as [b2 Hb2].
  exists b1, b2. split; [exact Hb1 |]. split; [exact Hb2 |].
  assert (Hrev : reviews b2 = reviews b).
  { unfold returnBook in Hb2.
    destruct (findIndex _ _); [| discriminate]. injection Hb2 as <-.
    rewrite reviews_save. cbn.
    unfold borrowBook in Hb1.
    destruct (availableCopies (availability b) <=? 0); [discriminate |].
    injection Hb1 as <-. now rewrite reviews_save. }
  apply returnBook_returns in Hb2
    as (k1 & x & k2 & Hk & Hx & Hk1 & Hl2 & Hc2 & Ht2 & Hs2 & _).
  assert (Hsplit : k1 = ledger b /\ k2 = []).
  { rewrite Hl1 in Hk. clear - Hk Hx Hk1 Hfresh.
    revert k1 Hk Hk1. induction (ledger b) as [| a l IH]; intros [| c k1] Hk Hk1.
    - cbn in Hk. injection Hk as _ Hk. auto.
    - cbn in Hk. injection Hk as _ Hk. destruct k1; discriminate.
    - cbn in Hk. injection Hk as -> _.
      exfalso. apply (Hfresh x (or_introl eq_refl)). exact Hx.
    - cbn in Hk. injection Hk as -> Hk.
      destruct (IH (fun z Hz => Hfresh z (or_intror Hz)) k1 Hk
                   (fun z Hz => Hk1 z (or_intror Hz))) as [-> ->]. auto. }
  destruct Hsplit as [-> ->].
  repeat apply conj.
  - now rewrite Hl2, app_nil_r.
  - lia.
  - congruence.
  - exact Hrev.
  - rewrite Hs2. destruct (Z.ltb_spec 0 (copies b1 + 1)); [reflexivity | lia].
Qed.

Lemma borrow_then_return_witness :
  exists b1 b2,
    borrowBook 1 bob book_lent = Return b1
    /\ returnBook 2 "b@x.com" b1 = Return b2
    /\ ledger b2 = ledger book_lent /\ copies b2 = 1.
Proof.
  destruct (borrow_then_return 1 2 bob book_lent)
    as (b1 & b2 & H1 & H2 & Hl & Hc & _).
  - vm_compute. split; [reflexivity | discriminate].
  - intros x [<- | []]. cbn. discriminate.
  - exists b1, b2. repeat apply conj; auto.
Defined.

(** ** Ratings *)

Lemma sum_ratings_bounds (lo hi : Z) (l : list Review) :
  (forall r, In r l -> lo <= rating r <= hi) ->
  lo * Zlength_ l <= sum_ratings l <= hi * Zlength_ l.
Proof.
  induction l as [| r l IH]; intros H.
  - cbn. change (Zlength_ (@nil Review)) with 0. lia.
  - cbn [sum_ratings]. rewrite Zlength_cons.
    specialize (IH (fun x Hx => H x (or_intror Hx))).
    specialize (H r (or_introl eq_refl)). lia.
Qed.

Lemma Math_round_tenths_bounds (lo hi s n : Z) :
  0 < n -> lo * n <= s <= hi * n ->
  (inject_Z lo
   <= inject_Z (Math_round ((inject_Z s / inject_Z n) * inject_Z 10))
      / inject_Z 10
   <= inject_Z hi)%Q.
Proof.
  intros Hn [Hlo Hhi].
  assert (Hnq : (inject_Z 0 < inject_Z n)%Q) by (rewrite <- Zlt_Qlt; exact Hn).
  change (inject_Z 0) with 0%Q in Hnq.
  assert (Hlow : (inject_Z lo <= inject_Z s / inject_Z n)%Q).
  { apply Qle_shift_div_l; [exact Hnq |].
    rewrite <- inject_Z_mult, <- Zle_Qle. exact Hlo. }
  assert (Hhigh : (inject_Z s / inject_Z n <= inject_Z hi)%Q).
  { apply Qle_shift_div_r; [exact Hnq |].
    rewrite <- inject_Z_mult, <- Zle_Qle. exact Hhi. }
  set (x := (inject_Z s / inject_Z n)%Q) in *.
  unfold Math_round.
  set (y := (x * inject_Z 10 + (1 # 2))%Q).
  pose proof (Qfloor_le y) as Hfl.
  pose proof (Qlt_floor y) as Hlt.
  assert (Hk : 10 * lo <= Qfloor y <= 10 * hi).
  { split.
    - rewrite <- (Qfloor_Z (10 * lo)). apply Qfloor_resp_le.
      unfold y. rewrite inject_Z_mult.
      change (inject_Z 10) with (10 # 1)%Q. lra.
    - enough (Qfloor y < 10 * hi + 1) by lia.
      rewrite Zlt_Qlt. eapply Qle_lt_trans; [exact Hfl |].
      rewrite inject_Z_plus, inject_Z_mult. unfold y.
      change (inject_Z 10) with (10 # 1)%Q. change (inject_Z 1) with 1%Q. lra. }
  destruct Hk as [Hk1 Hk2].
  rewrite Zle_Qle, inject_Z_mult in Hk1, Hk2.
  change (inject_Z 10) with (10 # 1)%Q in *.
  split.
  - apply Qle_shift_div_l; [reflexivity | lra].
  - apply Qle_shift_div_r; [reflexivity | lra].
Qed.

(** The average stays between the ratings: when every rating of a reviewed
    book, the new one included, lies between [lo] and [hi], so does
    [averageRating] after the review is added; rounding to one decimal never
    takes it outside.  In particular ratings from 1 to 5 keep it from 1 to
    5. *)
Theorem average_within_ratings (now : Z) (lo hi : Z) (review : Review)
    (b : Book) :
  ratings_within lo hi b -> lo <= rating review <= hi ->
  ratings_within lo hi (addReview now review b)
  /\ (inject_Z lo <= averageRating (addReview now review b) <= inject_Z hi)%Q
  /\ totalReviews (addReview now review b) = Zlength_ (reviews b) + 1.
Proof.
  intros Hb Hr. unfold addReview.
  set (b1 := set_reviews (reviews b ++ [review]) b).
  assert (Hall : forall r, In r (reviews b1) -> lo <= rating r <= hi).
  { cbn. intros r Hin. apply in_app_or in Hin as [Hin | [<- | []]]; auto. }
  destruct (rating_save now b1) as [Havg Htot].
  assert (Hlen : Zlength_ (reviews b1) = Zlength_ (reviews b) + 1).
  { cbn. rewrite Zlength_app. reflexivity. }
  split; [| split].
  - unfold ratings_within. now rewrite reviews_save.
  - rewrite Havg.
    destruct (reviews b1) as [| r0 l0] eqn:E.
    + exfalso. cbn in E. destruct (reviews b); discriminate.
    + rewrite <- E in *. rewrite totalRating_sum.
      apply Math_round_tenths_bounds.
      * pose proof (Zlength_nonneg (reviews b)). lia.
      * now apply sum_ratings_bounds.
  - now rewrite Htot.
Qed.

Lemma average_within_ratings_witness :
  (1 <= averageRating (addReview 9 three_stars
                         (addReview 8 five_stars book2)) <= 5)%Q.
Proof.
  change 1%Q with (inject_Z 1). change 5%Q with (inject_Z 5).
  refine (proj1 (proj2 (average_within_ratings 9 1 5 three_stars
                          (addReview 8 five_stars book2) _ _))).
  - intros r Hin. vm_compute in Hin. destruct Hin as [<- | []].
    vm_compute. split; discriminate.
  - vm_compute. split; discriminate.
Defined.

(** ** The review route *)

Lemma required_nil {A : Type} (key : string) (o : option A) :
  schemas.required key o = [] -> exists a, o = Some a.
Proof. destruct o; [eauto | discriminate]. Qed.

Lemma review_value (body value : ReviewBody) :
  schemas.review body = inr value ->
  exists r n,
    rb_rating value = Some r /\ rb_reviewerName value = Some n
    /\ 1 <= Qfloor r <= 5
    /\ n <> "" /\ Z.of_nat (String.length n) <= 100
    /\ (forall c, rb_comment value = Some c ->
                  Z.of_nat (String.length c) <= 1000).
Proof.
  unfold schemas.review.
  match goal with
  | |- match ?errs with _ => _ end = _ -> _ => destruct errs eqn:E
  end; [| discriminate].
  intros H. injection H as <-. cbn [rb_rating rb_reviewerName rb_comment].
  apply app_eq_nil in E as [Hreq E].
  apply app_eq_nil in E as [Hrat E].
  apply app_eq_nil in E as [Hcom E].
  apply app_eq_nil in E as [Hreqn Hname].
  apply required_nil in Hreq as [r Hr].
  apply required_nil in Hreqn as [n0 Hn0].
  rewrite Hr, Hn0 in *. cbn [option_map] in *.
  pose proof (check_nil _ _ _ Hrat r eq_refl) as Hok.
  pose proof (check_nil _ _ _ Hname _ eq_refl) as Hnok.
  apply andb_prop in Hok as [Hok H5]. apply andb_prop in Hok as [_ H1].
  apply andb_prop in Hnok as [Hne Hlen].
  apply Qle_bool_iff in H1, H5.
  exists r, (validationMiddleware.trim n0).
  repeat apply conj; try reflexivity.
  - rewrite <- (Qfloor_Z 1). now apply Qfloor_resp_le.
  - rewrite <- (Qfloor_Z 5). now apply Qfloor_resp_le.
  - apply negb_true_iff in Hne. now apply String.eqb_neq.
  - lia.
  - intros c Hc. destruct (rb_comment body) as [c0 |]; [| discriminate].
    cbn in Hc. injection Hc as <-.
    pose proof (check_nil _ _ _ Hcom _ eq_refl) as H. cbn in H. lia.
Qed.

(** A review request that the route lets through to the handler stores a
    review with a rating from 1 to 5 and a reviewer name of 1 to 100
    characters, dated now, after the reviews already there; if those are
    rated from 1 to 5 as well, the average is from 1 to 5 again.  A request
    that is refused leaves the collection as it is. *)
Theorem review_route (now : Z) (id : string) (body : ReviewBody)
    (db : Collection) (book : Book) :
  findById id db = Some book -> ratings_within 1 5 book ->
  (forall message errors db',
      POST_review now id body db = (BadRequest message errors, db') ->
      db' = db /\ errors <> [])
  /\ (forall reply db',
      POST_review now id body db = (Handled reply, db') ->
      exists review book',
        reply = Json 201 book'
        /\ bookHandlers.getBookById id db' = Json 200 book'
        /\ reviews book' = reviews book ++ [review]
        /\ 1 <= rating review <= 5
        /\ reviewerName review <> ""
        /\ Z.of_nat (String.length (reviewerName review)) <= 100
        /\ reviewDate review = now
        /\ ratings_within 1 5 book'
        /\ (1 <= averageRating book' <= 5)%Q
        /\ totalReviews book' = Zlength_ (reviews book) + 1).
Proof.
  intros Hfind Hall. unfold POST_review. split.
  - intros message errors db'.
    destruct (schemas.mongoId id).
    + unfold schemas.review.
      match goal with
      | |- context [match ?errs with [] => inr _ | _ => _ end] =>
          destruct errs eqn:E
      end.
      * destruct (bookController.addReview _ _ _ _). discriminate.
      * intros H. injection H as _ <- <-. split; [reflexivity | discriminate].
    + intros H. injection H as _ <- <-. split; [reflexivity | discriminate].
  - intros reply db'.
    destruct (schemas.mongoId id); [| discriminate].
    destruct (schemas.review body) as [errs | value] eqn:Hv; [discriminate |].
    destruct (review_value _ _ Hv) as (r & n & Hr & Hn & Hrat & Hne & Hlen & _).
    unfold bookController.addReview. rewrite Hfind.
    intros H. injection H as <- <-.
    set (review := review_of now value).
    assert (Hrating : rating review = Qfloor r)
      by (unfold review, review_of; rewrite Hr; reflexivity).
    assert (Hname : reviewerName review = n)
      by (unfold review, review_of; rewrite Hn; reflexivity).
    exists review, (addReview now review book).
    set (b1 := set_reviews (reviews book ++ [review]) book).
    assert (Hall1 : forall x, In x (reviews b1) -> 1 <= rating x <= 5).
    { cbn. intros x Hin. apply in_app_or in Hin as [Hin | [<- | []]];
        [now apply Hall | now rewrite Hrating]. }
    destruct (rating_save now b1) as [Havg Htot].
    split; [reflexivity |]. split.
    { unfold bookHandlers.getBookById.
      rewrite (findById_persist id db book (addReview now review book) Hfind);
        [reflexivity |].
      unfold addReview. rewrite id_save. cbn. now apply findById_id with db. }
    split; [unfold addReview; now rewrite reviews_save |].
    split; [now rewrite Hrating |]. split; [now rewrite Hname |].
    split; [now rewrite Hname |]. split; [reflexivity |].
    split; [| split].
    + unfold ratings_within, addReview. now rewrite reviews_save.
    + unfold addReview. fold b1. rewrite Havg.
      destruct (reviews b1) as [| r0 l0] eqn:E.
      * exfalso. cbn in E. destruct (reviews book); discriminate.
      * rewrite <- E in *. rewrite totalRating_sum.
        change 1%Q with (inject_Z 1). change 5%Q with (inject_Z 5).
        apply Math_round_tenths_bounds.
        -- cbn. rewrite Zlength_app. pose proof (Zlength_nonneg (reviews book)).
           change (Zlength_ [review]) with 1. lia.
        -- now apply sum_ratings_bounds.
    + unfold addReview. fold b1. rewrite Htot. cbn. now rewrite Zlength_app.
Qed.

Lemma review_route_witness :
  exists book' db',
    POST_review 7 hex_id four_stars_body [book_hex]
    = (Handled (Json 201 book'), db')
    /\ List.map reviewerName (reviews book') = ["Ann"]
    /\ (1 <= averageRating book' <= 5)%Q.
Proof.
  destruct (POST_review 7 hex_id four_stars_body [book_hex])
    as [routed db'] eqn:Hpost.
  assert (Hshape : exists reply, routed = Handled reply)
    by (vm_compute in Hpost; injection Hpost as <- _; eauto).
  destruct Hshape as [reply ->].
  destruct (review_route 7 hex_id four_stars_body [book_hex] book_hex)
    as [_ Hok].
  - reflexivity.
  - intros r [].
  - destruct (Hok reply db' Hpost)
      as (review & book' & -> & _ & Hrev & _ & _ & _ & _ & _ & Havg & _).
    exists book', db'. split; [reflexivity |]. split; [| exact Havg].
    vm_compute in Hpost. injection Hpost as <- _. reflexivity.
Defined.

(** ** The list route *)

(** The list route does not look at [search], [yearFrom] and [yearTo]: the
    query validation drops the parameters its schema does not list, so the
    answer is the same whatever they are, and the answer reports no
    search. *)
Theorem list_route_ignores_unlisted (regex_ok : string -> bool)
    (regex_i : string -> string -> bool)
    (currentYear : Z) (q : Query) (db : Collection)
    (search : option string) (yearFrom yearTo : option Z) :
  bookController.GET_books regex_ok regex_i currentYear
    (set_unlisted search yearFrom yearTo q) db
  = bookController.GET_books regex_ok regex_i currentYear q db
  /\ (forall r,
        bookController.GET_books regex_ok regex_i currentYear q db
        = inr (Json 200 r) ->
        f_search (filters r) = None).
Proof.
  split; [reflexivity |].
  intros r. unfold bookController.GET_books, validationMiddleware.validateQuery.
  destruct (validationMiddleware.searchSchema currentYear q) as [errs | q']
    eqn:Hv; [discriminate |].
  apply searchSchema_value in Hv as (_ & _ & _ & _ & Hsearch & _).
  unfold bookController.getAllBooks.
  destruct (forallb regex_ok _); [| discriminate].
  destruct (cursor_skip _ _); [| discriminate].
  intros H. injection H as <-. cbn. exact Hsearch.
Qed.

Lemma list_route_ignores_unlisted_witness :
  exists r,
    bookController.GET_books compiles no_regex 2025 searching (shelf 3)
    = inr (Json 200 r)
    /\ List.map _id (books r) = ["A"; "B"; "C"]
    /\ f_search (filters r) = None.
Proof.
  destruct (bookController.GET_books compiles no_regex 2025 searching (shelf 3))
    as [errs | reply] eqn:Hget; [vm_compute in Hget; discriminate |].
  assert (Hshape : exists r, reply = Json 200 r)
    by (vm_compute in Hget; injection Hget as <-; eauto).
  destruct Hshape as [r ->]. exists r. split; [reflexivity |]. split.
  - vm_compute in Hget. injection Hget as <-. reflexivity.
  - exact (proj2 (list_route_ignores_unlisted compiles no_regex 2025 searching
                    (shelf 3) None None None) r Hget).
Defined.

Lemma searchSchema_errors (currentYear : Z) (q : Query) (errs : list string) :
  validationMiddleware.searchSchema currentYear q = inl errs -> errs <> [].
Proof.
  unfold validationMiddleware.searchSchema.
  match goal with
  | |- match ?e with _ => _ end = _ -> _ => destruct e
  end; [discriminate |].
  intros H. injection H as <-. discriminate.
Qed.

Lemma In_skipn {A : Type} (n : nat) (l : list A) (x : A) :
  In x (skipn n l) -> In x l.
Proof.
  intros H. rewrite <- (firstn_skipn n l). apply in_or_app. now right.
Qed.

Lemma searchSchema_fields (currentYear : Z) (q q' : Query) :
  validationMiddleware.searchSchema currentYear q = inr q' ->
  q_genre q' = q_genre q
  /\ q_availability q' = q_availability q
  /\ q_author q' = option_map validationMiddleware.trim (q_author q)
  /\ q_yearFrom q' = None /\ q_yearTo q' = None
  /\ q_minRating q' = q_minRating q
  /\ (forall g, q_genre q = Some g -> g <> "")
  /\ (forall s, q_availability q = Some s -> s <> "")
  /\ (forall a, q_author q = Some a -> validationMiddleware.trim a <> "").
Proof.
  unfold validationMiddleware.searchSchema.
  match goal with
  | |- match ?e with _ => _ end = _ -> _ => destruct e eqn:E
  end; [| discriminate].
  intros H. injection H as <-.
  cbn [q_genre q_availability q_author q_yearFrom q_yearTo q_minRating].
  apply app_eq_nil in E as [_ E]. apply app_eq_nil in E as [Hg E].
  apply app_eq_nil in E as [Hau E].
  do 3 (apply app_eq_nil in E; destruct E as [_ E]).
  apply app_eq_nil in E as [Ha _].
  do 6 (split; [reflexivity |]). split; [| split].
  - intros g Hgq. pose proof (check_nil _ _ _ Hg g Hgq) as H.
    apply negb_true_iff in H. now apply String.eqb_neq.
  - intros s Hs. pose proof (check_nil _ _ _ Ha s Hs) as H.
    intros ->. discriminate.
  - intros a Haq. rewrite Haq in Hau.
    pose proof (check_nil _ _ _ Hau _ eq_refl) as H.
    apply andb_prop in H as [H _].
    apply negb_true_iff in H. now apply String.eqb_neq.
Qed.

Lemma truthy_Some (s : string) : s <> "" -> truthy (Some s) = true.
Proof.
  intros H. cbn. apply negb_true_iff. now apply String.eqb_neq.
Qed.

(** The filter the controller builds from a validated query, in the terms
    of the request. *)
Lemma validated_filter (regex_i : string -> string -> bool) (currentYear : Z)
    (q q' : Query) (d : Book) :
  validationMiddleware.searchSchema currentYear q = inr q' ->
  bookController.build_filter regex_i q' d = true
  <-> ((forall g, q_genre q = Some g -> g <> "All" -> genre d = g)
       /\ (forall s, q_availability q = Some s ->
             status_name (status (availability d)) = s)
       /\ (forall a, q_author q = Some a ->
             regex_i (validationMiddleware.trim a) (author d) = true)
       /\ (forall m, q_minRating q = Some m -> ~ (m == 0)%Q ->
             (m <= averageRating d)%Q)).
Proof.
  intros Hv.
  pose proof (searchSchema_value _ _ _ Hv) as (_ & _ & _ & _ & Hs & _).
  pose proof (searchSchema_fields _ _ _ Hv)
    as (Hg & Ha & Hau & Hyf & Hyt & Hm & Hgne & Hane & Haune).
  unfold bookController.build_filter.
  rewrite Hs, Hg, Ha, Hau, Hyf, Hyt, Hm. cbn [truthy andb].
  assert (Egenre :
    (if (truthy (q_genre q)
         && negb (String.eqb (default_to (q_genre q) "") "All"))%bool
     then String.eqb (genre d) (default_to (q_genre q) "") else true) = true
    <-> forall g, q_genre q = Some g -> g <> "All" -> genre d = g).
  { destruct (q_genre q) as [g |]; [| split; [discriminate | reflexivity]].
    rewrite (truthy_Some g (Hgne g eq_refl)). cbn [default_to andb].
    destruct (String.eqb_spec g "All") as [-> | Hall]; cbn [negb].
    - split; [| reflexivity]. intros _ g' Hg' Hne. now injection Hg' as <-.
    - rewrite String.eqb_eq. split.
      + intros He g' Hg' _. now injection Hg' as <-.
      + intros He. now apply He. }
  assert (Estatus :
    (if truthy (q_availability q)
     then String.eqb (status_name (status (availability d)))
                     (default_to (q_availability q) "")
     else true) = true
    <-> forall s, q_availability q = Some s ->
                  status_name (status (availability d)) = s).
  { destruct (q_availability q) as [s |]; [| split; [discriminate | reflexivity]].
    rewrite (truthy_Some s (Hane s eq_refl)). cbn [default_to].
    rewrite String.eqb_eq. split.
    - intros He s' Hs'. now injection Hs' as <-.
    - intros He. now apply He. }
  assert (Eauthor :
    (if truthy (option_map validationMiddleware.trim (q_author q))
     then regex_i
            (default_to (option_map validationMiddleware.trim (q_author q)) "")
            (author d)
     else true) = true
    <-> forall a, q_author q = Some a ->
                  regex_i (validationMiddleware.trim a) (author d) = true).
  { destruct (q_author q) as [a |]; [| split; [discriminate | reflexivity]].
    cbn [option_map]. rewrite (truthy_Some _ (Haune a eq_refl)).
    cbn [default_to]. split.
    - intros He a' Ha'. now injection Ha' as <-.
    - intros He. now apply He. }
  assert (Erating :
    match q_minRating q with
    | Some r => if Qeq_bool r (inject_Z 0) then true
                else Qle_bool r (averageRating d)
    | None => true
    end = true
    <-> forall m, q_minRating q = Some m -> ~ (m == 0)%Q ->
                  (m <= averageRating d)%Q).
  { destruct (q_minRating q) as [m |]; [| split; [discriminate | reflexivity]].
    destruct (Qeq_bool m (inject_Z 0)) eqn:Ez.
    - split; [| reflexivity]. intros _ m' Hm' Hnz. injection Hm' as <-.
      exfalso. apply Hnz. now apply Qeq_bool_iff in Ez.
    - rewrite Qle_bool_iff. split.
      + intros He m' Hm' _. now injection Hm' as <-.
      + intros He. apply He; [reflexivity |].
        intros Hz. apply Qeq_bool_iff in Hz.
        change 0%Q with (inject_Z 0) in Hz. congruence. }
  rewrite <- Egenre, <- Estatus, <- Eauthor, <- Erating.
  rewrite !andb_true_iff. tauto.
Qed.

Lemma validated_patterns (regex_ok : string -> bool) (currentYear : Z)
    (q q' : Query) :
  validationMiddleware.searchSchema currentYear q = inr q' ->
  forallb regex_ok (bookController.filter_patterns q')
  = match q_author q with
    | Some a => regex_ok (validationMiddleware.trim a)
    | None => true
    end.
Proof.
  intros Hv.
  pose proof (searchSchema_value _ _ _ Hv) as (_ & _ & _ & _ & Hs & _).
  pose proof (searchSchema_fields _ _ _ Hv)
    as (_ & _ & Hau & _ & _ & _ & _ & _ & Haune).
  unfold bookController.filter_patterns. rewrite Hs, Hau.
  destruct (q_author q) as [a |]; [| reflexivity].
  cbn [option_map]. rewrite (truthy_Some _ (Haune a eq_refl)).
  cbn. now rewrite andb_true_r.
Qed.

(** The list route either refuses the query, naming at least one
    parameter, or hands it to the store.  When the store compiles the
    [author] pattern (the trimmed parameter), the answer has a page of at
    least 1 and a limit from 1 to 100, and holds the [limit] books after the
    first [(page - 1) * limit] matches, or what remains of them: each one is
    a book of the collection of the genre, the status, the author pattern
    and the minimum rating that the query names, and a first page that has
    room for all the matches holds every such book of the collection.  When
    the store does not compile the pattern, the request is rejected and not
    answered. *)
Theorem list_route_bounded (regex_ok : string -> bool)
    (regex_i : string -> string -> bool)
    (currentYear : Z) (q : Query) (db : Collection) :
  let passes (d : Book) : Prop :=
    (forall g, q_genre q = Some g -> g <> "All" -> genre d = g)
    /\ (forall s, q_availability q = Some s ->
          status_name (status (availability d)) = s)
    /\ (forall a, q_author q = Some a ->
          regex_i (validationMiddleware.trim a) (author d) = true)
    /\ (forall m, q_minRating q = Some m -> ~ (m == 0)%Q ->
          (m <= averageRating d)%Q) in
  match bookController.GET_books regex_ok regex_i currentYear q db with
  | inl errors => errors <> []
  | inr reply =>
      ((forall a, q_author q = Some a ->
                  regex_ok (validationMiddleware.trim a) = true) ->
       exists r,
         reply = Json 200 r
         /\ 1 <= currentPage (pagination r)
         /\ 1 <= limit (pagination r) <= 100
         /\ Zlength_ (books r)
            = Z.min (limit (pagination r))
                (Z.max 0 (totalBooks (pagination r)
                          - (currentPage (pagination r) - 1)
                            * limit (pagination r)))
         /\ Zlength_ (books r) <= limit (pagination r)
         /\ (forall d, In d (books r) -> In d db /\ passes d)
         /\ (totalBooks (pagination r) = 0 <->
             forall d, In d db -> ~ passes d)
         /\ (currentPage (pagination r) = 1 ->
             totalBooks (pagination r) <= limit (pagination r) ->
             forall d, In d db -> passes d -> In d (books r)))
      /\ (forall a, q_author q = Some a ->
                    regex_ok (validationMiddleware.trim a) = false ->
                    reply = Rejected MongoError)
  end.
Proof.
  intros passes.
  unfold bookController.GET_books, validationMiddleware.validateQuery.
  destruct (validationMiddleware.searchSchema currentYear q) as [errs | q']
    eqn:Hv; [now apply searchSchema_errors in Hv |].
  pose proof (searchSchema_value _ _ _ Hv)
    as (_ & _ & _ & _ & _ & Hpage & Hlim & _).
  pose proof (validated_patterns regex_ok _ _ _ Hv) as Hpat.
  assert (Hpass : forall d,
            bookController.build_filter regex_i q' d = true <-> passes d)
    by (intros d; exact (validated_filter regex_i _ _ _ d Hv)).
  split.
  - intros Hok.
    assert (Hok' : forallb regex_ok (bookController.filter_patterns q') = true).
    { rewrite Hpat. destruct (q_author q) as [a |]; [now apply Hok | reflexivity]. }
    destruct (getAllBooks_paginates regex_ok regex_i q' db Hok' Hpage
                (proj1 Hlim))
      as (r & Hr & Hcur & Hlimit & Hpag).
    destruct Hpag as (Hn & _ & _ & _ & _ & _ & _ & Hlen).
    exists r. split; [exact Hr |].
    rewrite Hcur, Hlimit in *. split; [exact Hpage |]. split; [exact Hlim |].
    rewrite Hn. split; [exact Hlen |]. split; [lia |].
    unfold bookController.getAllBooks in Hr. rewrite Hok' in Hr.
    destruct (cursor_skip _ _) as [rest | e] eqn:Hskip; [| discriminate].
    injection Hr as <-. cbn [books] in *.
    unfold cursor_skip in Hskip.
    destruct (_ <? 0); [discriminate |]. injection Hskip as <-.
    set (found := find (bookController.build_filter regex_i q') db) in *.
    split; [| split].
    + intros d Hd. apply In_cursor_limit, In_skipn in Hd.
      unfold cursor_sort in Hd. apply sort_by_In in Hd.
      apply filter_In in Hd as [Hin Hf]. split; [exact Hin |].
      now apply Hpass.
    + split.
      * intros Hz d Hin Hd. apply Hpass in Hd.
        assert (Hfound : In d found) by (apply filter_In; auto).
        destruct found; [contradiction |]. rewrite Zlength_cons in Hz.
        pose proof (Zlength_nonneg found). lia.
      * intros Hnone. destruct found as [| d l] eqn:E; [reflexivity |].
        exfalso. assert (Hd : In d found) by (rewrite E; now left).
        apply filter_In in Hd as [Hin Hf]. apply (Hnone d Hin).
        now apply Hpass.
    + intros H1 Hroom d Hin Hd.
      rewrite H1. change ((1 - 1) * parseInt_or (q_limit q') 10) with 0.
      cbn [Z.to_nat skipn]. unfold cursor_limit.
      destruct (Z.eqb_spec (parseInt_or (q_limit q') 10) 0); [lia |].
      rewrite firstn_all2.
      * unfold cursor_sort. apply sort_by_In, filter_In.
        split; [exact Hin | now apply Hpass].
      * unfold cursor_sort. rewrite sort_by_length.
        unfold Zlength_ in Hroom. lia.
  - intros a Ha Hbad. apply getAllBooks_rejects.
    rewrite Hpat, Ha. exact Hbad.
Qed.

(** The request [?author=Ann&page=1] and the same with a pattern that does
    not compile. *)
Lemma list_route_bounded_witness :
  (exists r,
      bookController.GET_books compiles (fun pattern s => String.eqb pattern s)
        2025 author_ann two_titles
      = inr (Json 200 r)
      /\ List.map _id (books r) = ["x"; "z"])
  /\ bookController.GET_books compiles (fun pattern s => String.eqb pattern s)
       2025 unclosed_author two_titles
     = inr (Rejected MongoError).
Proof.
  split.
  - pose proof (list_route_bounded compiles
                  (fun pattern s => String.eqb pattern s) 2025 author_ann
                  two_titles) as H.
    cbv zeta in H.
    destruct (bookController.GET_books compiles
                (fun pattern s => String.eqb pattern s) 2025 author_ann
                two_titles)
      as [errs | reply] eqn:Hget; [vm_compute in Hget; discriminate |].
    destruct H as [Hanswer _].
    destruct Hanswer as (r & -> & _);
      [intros a Ha; injection Ha as <-; reflexivity |].
    exists r. split; [reflexivity |].
    vm_compute in Hget. injection Hget as <-. reflexivity.
  - pose proof (list_route_bounded compiles
                  (fun pattern s => String.eqb pattern s) 2025 unclosed_author
                  two_titles) as H.
    cbv zeta in H.
    destruct (bookController.GET_books compiles
                (fun pattern s => String.eqb pattern s) 2025 unclosed_author
                two_titles)
      as [errs | reply] eqn:Hget; [vm_compute in Hget; discriminate |].
    destruct H as [_ Hrejected].
    now rewrite (Hrejected "(" eq_refl eq_refl).
Defined.

(** ** Listings ordered by rating and a second key *)

Section RatedThen.
Variable path : string.
Variable key : Book -> Z.
Hypothesis field_key : forall d, field path d = VNum (inject_Z (key d)).

Let spec : SortSpec := [("averageRating", -1); (path, -1)].

Lemma compare_by_rated_then (a b : Book) :
  compare_by spec a b
  = match CompOpp (averageRating a ?= averageRating b)%Q with
    | Eq => CompOpp (key a ?= key b)
    | c => c
    end.
Proof.
  unfold spec. cbn [compare_by].
  change (field "averageRating" a) with (VNum (averageRating a)).
  change (field "averageRating" b) with (VNum (averageRating b)).
  rewrite !field_key. cbn [Value_compare].
  change (-1 <? 0) with true. cbv iota.
  assert (Hz : (inject_Z (key a) ?= inject_Z (key b))%Q = (key a ?= key b)).
  { unfold Qcompare. cbn. now rewrite !Z.mul_1_r. }
  rewrite Hz.
  destruct (averageRating a ?= averageRating b)%Q; cbn; try reflexivity.
  destruct (key a ?= key b); reflexivity.
Qed.

Lemma rated_then_total (a b : Book) :
  leb_of (compare_by spec) a b = false -> leb_of (compare_by spec) b a = true.
Proof.
  unfold leb_of. rewrite !compare_by_rated_then.
  rewrite <- (Qcompare_antisym (averageRating a) (averageRating b)).
  rewrite (Z.compare_antisym (key a) (key b)).
  destruct (averageRating a ?= averageRating b)%Q; cbn; try congruence.
  destruct (key a ?= key b); cbn; congruence.
Qed.

Lemma rated_then_leb (a b : Book) :
  leb_of (compare_by spec) a b = true -> rated_then key a b.
Proof.
  unfold leb_of, rated_then. rewrite compare_by_rated_then.
  destruct (Qcompare_spec (averageRating a) (averageRating b)) as [He | Hl | Hg];
    cbn.
  - destruct (Z.compare_spec (key a) (key b)) as [Hk | Hk | Hk]; cbn;
      intros Hc; try discriminate; right; split; auto; lia.
  - discriminate.
  - intros _. now left.
Qed.

Lemma rated_then_trans (a b c : Book) :
  rated_then key a b -> rated_then key b c -> rated_then key a c.
Proof.
  unfold rated_then. intros [H1 | [H1 K1]] [H2 | [H2 K2]].
  - left. lra.
  - left. lra.
  - left. lra.
  - right. split; [lra | lia].
Qed.

Lemma rated_then_sorted (l : list Book) :
  StronglySorted (rated_then key) (cursor_sort spec l).
Proof.
  apply Sorted_StronglySorted; [exact rated_then_trans |].
  pose proof (Sorted_map (fun x y => leb_of (compare_by spec) x y = true)
                (rated_then key) (fun d => d) (cursor_sort spec l)
                rated_then_leb) as H.
  rewrite map_id in H. apply H. apply sort_by_Sorted. exact rated_then_total.
Qed.
End RatedThen.

Lemma StronglySorted_firstn {A : Type} (R : A -> A -> Prop) (n : nat)
    (l : list A) :
  StronglySorted R l -> StronglySorted R (firstn n l).
Proof.
  revert l. induction n as [| n IH]; intros l Hs; cbn; [constructor |].
  destruct Hs as [| x l Hs Hall]; constructor; [now apply IH |].
  rewrite Forall_forall in *. intros y Hy. apply Hall.
  rewrite <- (firstn_skipn n l). apply in_or_app. now left.
Qed.

Lemma StronglySorted_skipn {A : Type} (R : A -> A -> Prop) (n : nat)
    (l : list A) :
  StronglySorted R l -> StronglySorted R (skipn n l).
Proof.
  revert l. induction n as [| n IH]; intros l Hs; cbn; [exact Hs |].
  destruct Hs as [| x l Hs Hall]; [constructor | now apply IH].
Qed.

Lemma StronglySorted_cursor_limit {A : Type} (R : A -> A -> Prop) (n : Z)
    (l : list A) :
  StronglySorted R l -> StronglySorted R (cursor_limit n l).
Proof.
  unfold cursor_limit. destruct (n =? 0); [auto |]. apply StronglySorted_firstn.
Qed.

Lemma StronglySorted_map {A B : Type} (R : A -> A -> Prop) (S : B -> B -> Prop)
    (f : A -> B) (l : list A) :
  (forall x y, R x y -> S (f x) (f y)) ->
  StronglySorted R l -> StronglySorted S (List.map f l).
Proof.
  intros Hf. induction 1 as [| x l Hs IH Hall]; cbn; constructor; auto.
  rewrite Forall_forall in *. intros y Hy.
  apply in_map_iff in Hy as (z & <- & Hz). auto.
Qed.

(** A genre listing that is answered holds books of the collection of that
    genre only, better rated first and newer first among equal ratings, and
    never an empty page; with a limit from 1 on its metadata counts the
    books of the genre in pages of [limit]. *)
Theorem genre_listing (genre_ : string) (q : Query) (db : Collection)
    (code : Z) (r : GenreList) :
  bookController.getBooksByGenre genre_ q db = Json code r ->
  code = 200
  /\ g_genre r = genre_
  /\ g_books r <> []
  /\ (forall d, In d (g_books r) -> In d db /\ genre d = genre_)
  /\ StronglySorted (rated_then createdAt) (g_books r)
  /\ (1 <= limit (g_pagination r) ->
      paginates (Zlength_ (books_of_genre genre_ db)) (g_pagination r)
                (g_books r)).
Proof.
  unfold bookController.getBooksByGenre.
  set (page := parseInt_or (q_page q) 1).
  set (lim := parseInt_or (q_limit q) 10).
  set (flt := fun d => String.eqb (genre d) genre_).
  unfold cursor_skip.
  destruct (Z.ltb_spec ((page - 1) * lim) 0) as [Hneg | Hskip]; [discriminate |].
  set (sorted := cursor_sort _ (find flt db)).
  destruct (cursor_limit lim (skipn (Z.to_nat ((page - 1) * lim)) sorted))
    as [| b0 bs] eqn:Hbs; [discriminate |].
  intros H. injection H as <- <-.
  cbn [g_genre g_books g_pagination limit].
  split; [reflexivity |]. split; [reflexivity |]. split; [discriminate |].
  rewrite <- Hbs. split; [| split].
  - intros d Hd. apply In_cursor_limit, In_skipn in Hd.
    unfold sorted, cursor_sort in Hd. apply sort_by_In in Hd.
    apply filter_In in Hd as [Hin Hf]. split; [exact Hin |].
    now apply String.eqb_eq.
  - apply StronglySorted_cursor_limit, StronglySorted_skipn.
    unfold sorted. apply rated_then_sorted. reflexivity.
  - intros Hlim. unfold paginates.
    cbn [currentPage limit totalBooks totalPages hasNextPage hasPrevPage].
    unfold countDocuments, books_of_genre. fold flt.
    set (n := Zlength_ (List.filter flt db)).
    assert (Hceil : Math_ceil (inject_Z n / inject_Z lim) = - ((- n) / lim))
      by apply Math_ceil_div.
    pose proof (ceil_div_bounds n lim ltac:(lia)) as Hb.
    set (tp := Math_ceil (inject_Z n / inject_Z lim)) in *.
    rewrite <- Hceil in Hb.
    assert (Hpage : 1 <= page) by nia.
    split; [reflexivity |]. split; [reflexivity |].
    split; [apply Qle_ceiling |]. split; [exact Hb |].
    split; [reflexivity |]. split; [| split; [reflexivity |]].
    + destruct (Z.ltb_spec page tp) as [Hlt | Hge]; split.
      * intros _. nia.
      * reflexivity.
      * discriminate.
      * intros Hmore. exfalso. nia.
    + unfold cursor_limit. destruct (Z.eqb_spec lim 0); [lia |].
      rewrite Z.abs_eq by lia.
      rewrite Zlength_firstn, Zlength_skipn by lia.
      unfold sorted, Zlength_ at 1, cursor_sort, find. rewrite sort_by_length.
      reflexivity.
Qed.

Lemma genre_listing_witness :
  exists r,
    bookController.getBooksByGenre "Fiction" page3 (shelf 25) = Json 200 r
    /\ List.map _id (g_books r) = ["E"; "D"; "C"; "B"; "A"]
    /\ totalPages (g_pagination r) = 3.
Proof.
  destruct (bookController.getBooksByGenre "Fiction" page3 (shelf 25))
    as [code r | err | e] eqn:Hg;
    [| vm_compute in Hg; discriminate | vm_compute in Hg; discriminate].
  destruct (genre_listing "Fiction" page3 (shelf 25) code r Hg)
    as (-> & _ & _ & _ & _ & Hpag).
  exists r. split; [reflexivity |].
  vm_compute in Hg. injection Hg as <-. split; reflexivity.
Defined.

(** ** Recommendations *)

(** The recommendations are books of the collection of the genre asked for
    (any genre for "All" or none) rated at least [minRating], best rated
    first and the more reviewed first among equal ratings, at most [limit]
    of them (10 when the request names none). *)
Theorem recommendations_ranked (q_genre : option string)
    (q_minRating : option Q) (q_limit : option Z) (db : Collection) :
  exists r,
    aiHandlers.getRecommendations q_genre q_minRating q_limit db = Json 200 r
    /\ (forall x, In x (recommendations r) ->
          exists d, In d db /\ x = select_recommendation d
            /\ (forall g, q_genre = Some g -> g <> "" -> g <> "All" ->
                  r_genre x = g)
            /\ (forall m, q_minRating = Some m -> ~ (m == 0)%Q ->
                  (m <= r_averageRating x)%Q))
    /\ StronglySorted
         (fun x y =>
            (r_averageRating y < r_averageRating x)%Q
            \/ ((r_averageRating x == r_averageRating y)%Q
                /\ r_totalReviews y <= r_totalReviews x))
         (recommendations r)
    /\ c_limit (criteria r) = default_to q_limit 10
    /\ (default_to q_limit 10 <> 0 ->
        Zlength_ (recommendations r) <= Z.abs (default_to q_limit 10)).
Proof.
  eexists. split; [reflexivity |]. cbn [recommendations criteria c_limit].
  split; [| split; [| split]].
  - intros x Hx. apply in_map_iff in Hx as (d & <- & Hd).
    apply In_cursor_limit in Hd. unfold cursor_sort in Hd.
    apply sort_by_In in Hd. apply filter_In in Hd as [Hin Hf].
    unfold aiHandlers.recommendation_filter in Hf.
    apply andb_prop in Hf as [Hg Hm].
    exists d. split; [exact Hin |]. split; [reflexivity |]. split.
    + intros g -> Hne Hall. cbn in Hg.
      apply String.eqb_neq in Hne, Hall. rewrite Hne, Hall in Hg. cbn in Hg.
      now apply String.eqb_eq.
    + intros m -> Hnz. cbn in Hm.
      destruct (Qeq_bool m (inject_Z 0)) eqn:E.
      * apply Qeq_bool_iff in E. contradiction.
      * cbn. now apply Qle_bool_iff.
  - apply StronglySorted_map with (R := rated_then totalReviews); [auto |].
    apply StronglySorted_cursor_limit, rated_then_sorted. reflexivity.
  - reflexivity.
  - intros Hnz. unfold Zlength_ at 1. rewrite length_map.
    now apply Zlength_cursor_limit.
Qed.

(** ** Intelligent search *)

Lemma distinct_titles (l : list string) :
  NoDup (distinct String.eqb l)
  /\ forall s, In s (distinct String.eqb l) <-> In s l.
Proof.
  split; [apply distinct_NoDup | apply distinct_In]; exact String.eqb_eq.
Qed.

Lemma firstn_room {A : Type} (n : nat) (l : list A) (x : A) :
  In x l -> In x (firstn n l) \/ List.length (firstn n l) = n.
Proof.
  intros Hx. destruct (Nat.le_gt_cases (List.length l) n) as [Hle | Hgt].
  - left. now rewrite firstn_all2.
  - right. rewrite length_firstn. lia.
Qed.

(** An intelligent search without a query is answered with 400.  With one,
    the text matches are returned under [text_search] whenever there are
    any, along with distinct titles that match the query, all of them or
    five; only when there are none does the search fall back to the books
    whose title, author, description or a tag matches, best rated first,
    under [partial_match]: every such book, or [limit] of them that are
    each rated at least as well as those left out.  [count] is the number
    of results either way.  Both answers need the store to compile the
    query as a pattern; a query with a pattern that it does not compile is
    rejected and not answered. *)
Theorem intelligent_search (text_ranked : string -> Collection -> list Book)
    (regex_ok : string -> bool) (regex_i : string -> string -> bool)
    (q_query : option string) (q_limit : option Z) (db : Collection) :
  let lim := default_to q_limit 10 in
  let search :=
    aiHandlers.intelligentSearch text_ranked regex_ok regex_i q_query q_limit
      db in
  (truthy q_query = false ->
     search = Json 400 (inl "Search query is required"))
  /\ (forall query, q_query = Some query -> query <> "" ->
      let hits := cursor_limit lim (text_ranked query db) in
      let matches (d : Book) : Prop :=
        regex_i query (title d) = true
        \/ regex_i query (author d) = true
        \/ (exists s, description d = Some s /\ regex_i query s = true)
        \/ (exists t, In t (tags d) /\ regex_i query t = true) in
      (regex_ok query = false -> search = Rejected MongoError)
      /\ (regex_ok query = true -> hits = [] ->
          exists results,
            search
            = Json 200 (inr (partial_match results query (Zlength_ results)))
            /\ (forall h, In h results ->
                  exists d, In d db /\ h = select_hit d /\ matches d)
            /\ StronglySorted
                 (fun x y => (h_averageRating y <= h_averageRating x)%Q)
                 results
            /\ (lim <> 0 -> Zlength_ results <= Z.abs lim)
            /\ (forall d, In d db -> matches d ->
                  In (select_hit d) results
                  \/ (Zlength_ results = Z.abs lim
                      /\ forall h, In h results ->
                           (averageRating d <= h_averageRating h)%Q)))
      /\ (regex_ok query = true -> hits <> [] ->
          exists suggestions,
            search
            = Json 200 (inr (text_search (List.map select_hit hits) suggestions
                                         query (Zlength_ hits)))
            /\ (List.length suggestions <= 5)%nat
            /\ NoDup suggestions
            /\ (forall s, In s suggestions ->
                  regex_i query s = true
                  /\ exists d, In d db /\ title d = s)
            /\ (forall d, In d db -> regex_i query (title d) = true ->
                  In (title d) suggestions
                  \/ List.length suggestions = 5%nat))).
Proof.
  intros lim search. unfold search, aiHandlers.intelligentSearch. fold lim.
  split.
  - intros ->. reflexivity.
  - intros query -> Hne.
    assert (Ht : truthy (Some query) = true)
      by (cbn; apply negb_true_iff; now apply String.eqb_neq).
    rewrite Ht. cbn [default_to].
    set (hits := cursor_limit lim (text_ranked query db)).
    assert (Hmatches : forall d,
              aiHandlers.partial_filter regex_i query d = true
              <-> (regex_i query (title d) = true
                   \/ regex_i query (author d) = true
                   \/ (exists s, description d = Some s
                                 /\ regex_i query s = true)
                   \/ (exists t, In t (tags d) /\ regex_i query t = true))).
    { intros d. unfold aiHandlers.partial_filter.
      rewrite !orb_true_iff, existsb_exists.
      assert (Hdesc : aiHandlers.regex_opt regex_i query (description d) = true
                      <-> exists s, description d = Some s
                                    /\ regex_i query s = true).
      { unfold aiHandlers.regex_opt. destruct (description d) as [s |].
        - split; [eauto |]. intros (s' & Hs' & Hrx). now injection Hs' as ->.
        - split; [discriminate |]. intros (s' & Hs' & _). discriminate. }
      rewrite Hdesc. tauto. }
    split; [| split].
    + intros ->. destruct (List.map select_hit hits); reflexivity.
    + intros -> ->. cbn [List.map]. eexists. split; [reflexivity |].
      set (sorted := cursor_sort [("averageRating", -1)]
                       (find (aiHandlers.partial_filter regex_i query) db)).
      split; [| split; [| split]].
      * intros h Hh. apply in_map_iff in Hh as (d & <- & Hd).
        apply In_cursor_limit in Hd. unfold sorted, cursor_sort in Hd.
        apply sort_by_In in Hd. apply filter_In in Hd as [Hin Hf].
        exists d. split; [exact Hin |]. split; [reflexivity |].
        now apply Hmatches.
      * apply StronglySorted_map
          with (R := fun a b => (averageRating b <= averageRating a)%Q);
          [auto |].
        apply StronglySorted_cursor_limit, rating_sorted.
      * intros Hnz. unfold Zlength_ at 1. rewrite length_map.
        now apply Zlength_cursor_limit.
      * intros d Hdb Hd.
        assert (Hs : In d sorted).
        { unfold sorted, cursor_sort. apply sort_by_In, filter_In.
          split; [exact Hdb | now apply Hmatches]. }
        destruct (cursor_limit_cut _ lim _ d (rating_sorted _) Hs)
          as [Hin | [Hfull Hbetter]].
        -- left. now apply in_map.
        -- right. split.
           ++ unfold Zlength_ at 1. rewrite length_map.
              fold (Zlength_ (cursor_limit lim sorted)). exact Hfull.
           ++ intros h Hh. apply in_map_iff in Hh as (d' & <- & Hd').
              cbn. now apply Hbetter.
    + intros -> Hhits. destruct hits as [| h0 hs] eqn:Eh; [contradiction |].
      cbn [List.map]. eexists. split.
      * unfold Zlength_. cbn [List.length]. rewrite length_map. reflexivity.
      * destruct (distinct_titles
                    (List.map title (find (fun d => regex_i query (title d)) db)))
          as [Hnd Hin].
        split; [apply firstn_le_length |].
        split; [now apply NoDup_firstn |]. split.
        -- intros s Hs.
           assert (Hs' : In s (distinct String.eqb
                     (List.map title
                        (find (fun d => regex_i query (title d)) db)))).
           { rewrite <- (firstn_skipn 5 (distinct _ _)).
             apply in_or_app. now left. }
           apply Hin in Hs'. apply in_map_iff in Hs' as (d & <- & Hd).
           apply filter_In in Hd as [Hdb Hrx]. eauto.
        -- intros d Hdb Hrx. apply firstn_room, Hin, in_map, filter_In. auto.
Qed.

Lemma intelligent_search_witness :
  (exists results,
    aiHandlers.intelligentSearch (fun _ _ => []) compiles
      (fun _ s => String.eqb s "A") (Some "a") None two_titles
    = Json 200 (inr (partial_match results "a" 1))
    /\ List.map h_id results = ["y"])
  /\ aiHandlers.intelligentSearch (fun _ _ => []) compiles
       (fun _ s => String.eqb s "A") (Some "(") None two_titles
     = Rejected MongoError.
Proof.
  split.
  - destruct (intelligent_search (fun _ _ => []) compiles
                (fun _ s => String.eqb s "A") (Some "a") None two_titles)
      as [_ Hq].
    destruct (Hq "a" eq_refl) as (_ & Hfallback & _); [discriminate |].
    destruct (Hfallback eq_refl eq_refl) as (results & Hr & _).
    exists results.
    assert (Hres : List.map h_id results = ["y"] /\ Zlength_ results = 1).
    { vm_compute in Hr. injection Hr as <-. split; reflexivity. }
    destruct Hres as [Hids Hlen]. rewrite Hlen in Hr. auto.
  - destruct (intelligent_search (fun _ _ => []) compiles
                (fun _ s => String.eqb s "A") (Some "(") None two_titles)
      as [_ Hq].
    destruct (Hq "(" eq_refl) as (Hrejected & _); [discriminate |].
    now apply Hrejected.
Defined.

(** ** Authentication *)

Lemma split_pieces (sep : Ascii.ascii) (s : string) :
  forall p, In p (split sep s) -> has_char sep p = false.
Proof.
  induction s as [| c s IH]; cbn; intros p Hp.
  - destruct Hp as [<- | []]. reflexivity.
  - destruct (Ascii.eqb c sep) eqn:Hc.
    + destruct Hp as [<- | Hp]; [reflexivity | auto].
    + destruct (split sep s) as [| piece pieces] eqn:Es.
      * destruct Hp as [<- | []]. cbn. now rewrite Hc.
      * destruct Hp as [<- | Hp].
        -- cbn. rewrite Hc. apply IH. now left.
        -- apply IH. now right.
Qed.

(** [authenticate] refuses with status 401 only, and lets a request through
    only with the user that [jwt.verify] decoded from the token: the second
    space-separated piece of an [Authorization] header that starts with
    "Bearer ", which is neither empty nor holds a space.  [optionalAuth]
    attaches that same user exactly when [authenticate] would let the
    request through, and changes nothing otherwise. *)
Theorem authenticate_bearer (verify : string -> string -> VerifyError + User)
    (JWT_SECRET : option string) (req : Request) :
  (forall err, authMiddleware.authenticate verify JWT_SECRET req = Refused err ->
               statusCode err = 401)
  /\ (forall req',
        authMiddleware.authenticate verify JWT_SECRET req = Continue req' ->
        exists header token decoded,
          authorization req = Some header
          /\ String.prefix "Bearer " header = true
          /\ nth_error (split space header) 1 = Some token
          /\ token <> "" /\ has_char space token = false
          /\ verify token (authMiddleware.secret JWT_SECRET) = inr decoded
          /\ req' = set_user decoded req)
  /\ authMiddleware.optionalAuth verify JWT_SECRET req
     = match authMiddleware.authenticate verify JWT_SECRET req with
       | Continue req' => req'
       | Refused _ => req
       end
  /\ (authorization req = None ->
      authMiddleware.authenticate verify JWT_SECRET req
      = Refused (mkAppError "Access denied. No token provided." 401)).
Proof.
  unfold authMiddleware.authenticate, authMiddleware.optionalAuth.
  split; [| split; [| split]].
  - intros err. destruct (truthy _).
    + destruct (verify _ _) as [[| | name] | u]; intros H;
        try discriminate; injection H as <-; reflexivity.
    + intros H. injection H as <-. reflexivity.
  - intros req'. destruct (truthy (authMiddleware.bearer req)) eqn:Ht;
      [| discriminate].
    destruct (authMiddleware.bearer req) as [token |] eqn:Hb; [| discriminate].
    cbn [default_to].
    destruct (verify token _) as [[| | name] | u] eqn:Hv; try discriminate.
    intros H. injection H as <-.
    unfold authMiddleware.bearer in Hb.
    destruct (authorization req) as [header |]; [| discriminate].
    destruct (truthy (Some header) && String.prefix "Bearer " header)%bool
      eqn:Hp; [| discriminate].
    apply andb_prop in Hp as [_ Hp].
    exists header, token, u. repeat apply conj; auto.
    + cbn in Ht. apply negb_true_iff in Ht. now apply String.eqb_neq.
    + apply (split_pieces space header). now apply nth_error_In with 1%nat.
  - destruct (truthy _); [| reflexivity].
    destruct (verify _ _) as [[| | name] | u]; reflexivity.
  - intros Hnone. unfold authMiddleware.bearer. rewrite Hnone. reflexivity.
Qed.

Lemma authenticate_bearer_witness :
  exists req',
    authMiddleware.authenticate always_valid None
      (mkRequest (Some "Bearer abc def") None None None)
    = Continue req'
    /\ option_map u_id (user req') = Some (Some "abc").
Proof.
  destruct (authMiddleware.authenticate always_valid None
              (mkRequest (Some "Bearer abc def") None None None))
    as [req' | err] eqn:Ha; [| vm_compute in Ha; discriminate].
  exists req'. split; [reflexivity |].
  destruct (authenticate_bearer always_valid None
              (mkRequest (Some "Bearer abc def") None None None))
    as (_ & Hok & _).
  destruct (Hok req' Ha) as (header & token & u & Hh & _ & Ht & _ & _ & Hv & ->).
  injection Hh as <-. vm_compute in Ht. injection Ht as <-.
  vm_compute in Hv. injection Hv as <-. reflexivity.
Defined.

(** [authorize] lets a request through, unchanged, exactly when it carries
    a user whose role is one of those listed; without a user it refuses
    with 401 and otherwise with 403, so with no role listed nobody
    passes. *)
Theorem authorize_roles (roles : list string) (req : Request) :
  (authMiddleware.authorize roles req = Continue req
   <-> exists u r, user req = Some u /\ role u = Some r /\ In r roles)
  /\ (forall req', authMiddleware.authorize roles req = Continue req' ->
                   req' = req)
  /\ (forall err, authMiddleware.authorize roles req = Refused err ->
        (user req = None /\ statusCode err = 401)
        \/ (user req <> None /\ statusCode err = 403))
  /\ (forall err, authMiddleware.authorize [] req <> Continue err).
Proof.
  unfold authMiddleware.authorize. split; [| split; [| split]].
  - destruct (user req) as [u |].
    + destruct (role u) as [r |] eqn:Hr.
      * destruct (existsb (String.eqb r) roles) eqn:Hex.
        -- split; [| reflexivity]. intros _.
           apply existsb_exists in Hex as (r' & Hin & Heq).
           apply String.eqb_eq in Heq. subst r'. eauto.
        -- split; [discriminate |]. intros (u' & r' & Hu & Hr' & Hin).
           injection Hu as <-. rewrite Hr in Hr'. injection Hr' as <-.
           assert (existsb (String.eqb r) roles = true); [| congruence].
           apply existsb_exists. exists r. split; [exact Hin |].
           apply String.eqb_refl.
      * split; [discriminate |]. intros (u' & r' & Hu & Hr' & _).
        injection Hu as <-. congruence.
    + split; [discriminate |]. intros (u & r & Hu & _). discriminate.
  - intros req'. destruct (user req) as [u |]; [| discriminate].
    destruct (match role u with Some r => _ | None => _ end);
      [| discriminate].
    intros H. now injection H as <-.
  - intros err. destruct (user req) as [u |].
    + destruct (match role u with Some r => _ | None => _ end);
        [discriminate |].
      intros H. injection H as <-. right. split; [discriminate | reflexivity].
    + intros H. injection H as <-. left. split; reflexivity.
  - intros err. destruct (user req) as [u |]; [| discriminate].
    destruct (role u); discriminate.
Qed.

Lemma or_else_truthy (o d : option string) (s : string) :
  truthy (or_else o d) = true -> or_else o d = Some s ->
  s <> "" /\ (o = Some s \/ (truthy o = false /\ d = Some s)).
Proof.
  unfold or_else. destruct (truthy o) eqn:Ho.
  - intros _ ->. split; [| now left].
    cbn in Ho. apply negb_true_iff in Ho. now apply String.eqb_neq.
  - intros Ht ->. split; [| now right].
    cbn in Ht. apply negb_true_iff in Ht. now apply String.eqb_neq.
Qed.

(** [authenticateApiKey] refuses with status 401 only.  It lets a request
    through only for a key that is not empty, holds no comma and is one of
    the comma-separated pieces of [VALID_API_KEYS], taken from the header
    or else from the query, and then as the user "api-user" of role "api";
    when [VALID_API_KEYS] is not set, no request passes.  Such a user
    passes [authorize] exactly when "api" is a listed role. *)
Theorem api_key_only (VALID_API_KEYS : option string) (req : Request) :
  (forall err, authMiddleware.authenticateApiKey VALID_API_KEYS req = Refused err ->
               statusCode err = 401)
  /\ (forall req',
        authMiddleware.authenticateApiKey VALID_API_KEYS req = Continue req' ->
        exists key keys,
          VALID_API_KEYS = Some keys /\ In key (split comma keys)
          /\ key <> "" /\ has_char comma key = false
          /\ (x_api_key req = Some key
              \/ (truthy (x_api_key req) = false /\ query_apiKey req = Some key))
          /\ req' = set_user (mkUser (Some "api-user") None (Some "api") (Some key))
                             req
          /\ forall roles,
               authMiddleware.authorize roles req' = Continue req'
               <-> In "api" roles)
  /\ (truthy VALID_API_KEYS = false ->
      exists err,
        authMiddleware.authenticateApiKey VALID_API_KEYS req = Refused err).
Proof.
  unfold authMiddleware.authenticateApiKey. split; [| split].
  - intros err. destruct (truthy _); [destruct (existsb _ _) |];
      intros H; try discriminate; injection H as <-; reflexivity.
  - intros req'.
    destruct (truthy (or_else (x_api_key req) (query_apiKey req))) eqn:Ht;
      [| discriminate].
    destruct (or_else (x_api_key req) (query_apiKey req)) as [key |] eqn:Hk;
      [| discriminate].
    cbn [default_to].
    destruct (existsb _ _) eqn:Hex; [| discriminate].
    intros H. injection H as <-.
    rewrite <- Hk in Ht.
    destruct (or_else_truthy _ _ key Ht Hk) as [Hne Hfrom].
    apply existsb_exists in Hex as (piece & Hin & Heq).
    apply String.eqb_eq in Heq. subst piece.
    assert (Henv : exists keys, VALID_API_KEYS = Some keys
                                /\ In key (split comma keys)).
    { unfold or_else in Hin. destruct (truthy VALID_API_KEYS) eqn:Hv.
      - destruct VALID_API_KEYS as [keys |]; [eauto | discriminate].
      - cbn in Hin. destruct Hin as [<- | []]. congruence. }
    destruct Henv as (keys & -> & Hkeys).
    exists key, keys.
    split; [reflexivity |]. split; [exact Hkeys |]. split; [exact Hne |].
    split; [now apply (split_pieces comma keys) |]. split; [exact Hfrom |].
    split; [reflexivity |].
    intros roles. unfold authMiddleware.authorize, set_user.
    cbn [user role]. split.
    + destruct (existsb (String.eqb "api") roles) eqn:Hr;
        [| intros Hrefused; discriminate Hrefused].
      intros _. apply existsb_exists in Hr as (r & Hr & Heq).
      apply String.eqb_eq in Heq. now subst r.
    + intros Hapi.
      assert (existsb (String.eqb "api") roles = true) as ->; [| reflexivity].
      apply existsb_exists. exists "api". split; [exact Hapi | reflexivity].
  - intros Hunset.
    destruct (truthy (or_else (x_api_key req) (query_apiKey req))) eqn:Ht;
      [| eauto].
    destruct (or_else (x_api_key req) (query_apiKey req)) as [key |] eqn:Hk;
      [| discriminate].
    rewrite <- Hk in Ht. destruct (or_else_truthy _ _ key Ht Hk) as [Hne _].
    unfold or_else. rewrite Hunset. cbn [default_to split existsb].
    apply String.eqb_neq in Hne. rewrite Hne. cbn [orb]. eauto.
Qed.

Lemma api_key_only_witness :
  exists req',
    authMiddleware.authenticateApiKey (Some "k1,k2")
      (mkRequest None (Some "k2") None None)
    = Continue req'
    /\ authMiddleware.authorize ["admin"] req'
       = Refused (mkAppError "Access denied. Insufficient permissions." 403).
Proof.
  destruct (authMiddleware.authenticateApiKey (Some "k1,k2")
              (mkRequest None (Some "k2") None None))
    as [req' | err] eqn:Ha; [| vm_compute in Ha; discriminate].
  exists req'. split; [reflexivity |].
  destruct (api_key_only (Some "k1,k2") (mkRequest None (Some "k2") None None))
    as (_ & Hok & _).
  destruct (Hok req' Ha) as (key & keys & _ & _ & _ & _ & _ & -> & _).
  reflexivity.
Defined.
